(** * flowchart-agent: the refinement loop, its normalizer, the HTML presenter
      and the LangGraph variant, embedded from the Python sources.

    - [PyStr]      : the [str] methods the sources call ([strip], [lower],
                     [startswith], [find], [rfind], slicing, [join]).
    - [Agent]      : [flowchart_agent/agent.py], [models.py], [renderer.py].
    - [LangGraph]  : [flowchart_agent/agent_langgraph.py].
    - [Scripted]   : both variants driven by one script of responses.

    A Python [str] is modelled by [string]; one [ascii] stands for one code
    point in U+0000..U+00FF, so [strip] and [lower] follow Python's tables on
    that range. *)

From Stdlib Require Import Bool Arith ZArith Lia List Ascii String.
From Stdlib Require Import DecimalString.
Import ListNotations.

Local Open Scope string_scope.

(* ------------------------------------------------------------------ *)
(** ** Python [str] on code points below 256 *)

Module PyStr.

(** The line feed, which Rocq string literals cannot escape. *)
Definition nl : string := String "010"%char EmptyString.

(** The double quote character as a one-character string. *)
Definition dq : string := String "034"%char EmptyString.

(** [str.isspace] for one code point: TAB..CR, FS..US, SPACE, NEL, NBSP. *)
Definition isspace (c : ascii) : bool :=
  let n := nat_of_ascii c in
  (((9 <=? n) && (n <=? 13)) || ((28 <=? n) && (n <=? 32))
   || (n =? 133) || (n =? 160))%nat.

(** [str.lstrip()] *)
Fixpoint lstrip (s : string) : string :=
  match s with
  | EmptyString => EmptyString
  | String c s' => if isspace c then lstrip s' else s
  end.

(** [str.rstrip()] *)
Fixpoint rstrip (s : string) : string :=
  match s with
  | EmptyString => EmptyString
  | String c s' =>
      match rstrip s' with
      | EmptyString => if isspace c then EmptyString else String c EmptyString
      | t => String c t
      end
  end.

(** [str.strip()] *)
Definition strip (s : string) : string := rstrip (lstrip s).

(** Lower-case mapping of one code point: A..Z and the Latin-1 capitals
    U+00C0..U+00DE (U+00D7, the multiplication sign, has no case). *)
Definition lower_char (c : ascii) : ascii :=
  let n := nat_of_ascii c in
  if (((65 <=? n) && (n <=? 90))
      || ((192 <=? n) && (n <=? 222) && negb (n =? 215)))%nat
  then ascii_of_nat (n + 32) else c.

(** [str.lower()] *)
Fixpoint lower (s : string) : string :=
  match s with
  | EmptyString => EmptyString
  | String c s' => String (lower_char c) (lower s')
  end.

(** [s.startswith(p)] *)
Definition startswith (s p : string) : bool := String.prefix p s.

(** [sep.join(parts)] *)
Fixpoint join (sep : string) (parts : list string) : string :=
  match parts with
  | [] => EmptyString
  | [p] => p
  | p :: rest => p ++ sep ++ join sep rest
  end.

(** [s[n:]] for [0 <= n] *)
Fixpoint drop (n : nat) (s : string) : string :=
  match n, s with
  | O, _ => s
  | S n', String _ s' => drop n' s'
  | S _, EmptyString => EmptyString
  end.

(** [s[:n]] for [0 <= n] *)
Fixpoint take (n : nat) (s : string) : string :=
  match n, s with
  | O, _ => EmptyString
  | S n', String c s' => String c (take n' s')
  | S _, EmptyString => EmptyString
  end.

(** [s[i:j]] for [0 <= i] and [0 <= j] *)
Definition slice (i j : nat) (s : string) : string :=
  drop i (take j s).

(** [s.find(sub)]: lowest index where [sub] occurs, [None] for Python's -1. *)
Fixpoint find (sub s : string) : option nat :=
  if String.prefix sub s then Some O
  else match s with
       | EmptyString => None
       | String _ s' => option_map S (find sub s')
       end.

(** [s.rfind(sub)]: highest index where [sub] occurs, [None] for -1. *)
Fixpoint rfind (sub s : string) : option nat :=
  match s with
  | EmptyString => if String.prefix sub s then Some O else None
  | String _ s' =>
      match rfind sub s' with
      | Some i => Some (S i)
      | None => if String.prefix sub s then Some O else None
      end
  end.

(** [str(n)] for a Python [int]. *)
Definition str_of_int (z : Z) : string :=
  NilEmpty.string_of_int (Z.to_int z).

(** Two code points that are the same ASCII letter up to case, or equal. *)
Definition same_caseless (c k : ascii) : Prop :=
  c = k \/
  (97 <= nat_of_ascii k <= 122 /\ nat_of_ascii c + 32 = nat_of_ascii k)%nat.

(** [s] begins with the ASCII lower-case keyword [kw], case ignored:
    stated on the characters, without [lower]. *)
Fixpoint begins_caseless (kw s : string) : Prop :=
  match kw, s with
  | EmptyString, _ => True
  | String k kw', String c s' => same_caseless c k /\ begins_caseless kw' s'
  | String _ _, EmptyString => False
  end.

(** Every character of the keyword is an ASCII lower-case letter. *)
Fixpoint lower_letters (kw : string) : Prop :=
  match kw with
  | EmptyString => True
  | String k kw' =>
      (97 <= nat_of_ascii k <= 122)%nat /\ lower_letters kw'
  end.

(** [c in s] for one character [c]. *)
Fixpoint contains (c : ascii) (s : string) : bool :=
  match s with
  | EmptyString => false
  | String a s' => if Ascii.eqb a c then true else contains c s'
  end.

End PyStr.

Import PyStr.

(* ------------------------------------------------------------------ *)
(** ** Exceptions, results and the effect monad *)

Module Py.

(** The exception classes the sources distinguish.  [ValueError] carries
    the [__cause__] set by [raise ... from exc]. *)
Inductive exn : Type :=
| ValidationError (detail : string)
| ValueError (message : string) (cause : exn)
| OtherError (class_name detail : string).

(** [str(exc)] *)
Definition str_exn (e : exn) : string :=
  match e with
  | ValidationError d => d
  | ValueError m _ => m
  | OtherError _ d => d
  end.

Definition is_ValidationError (e : exn) : bool :=
  match e with ValidationError _ => true | _ => false end.

(** A call either returns a value or raises. *)
Inductive outcome (A : Type) : Type :=
| Return (a : A)
| Raise (e : exn).
Arguments Return {A} a.
Arguments Raise {A} e.

Definition returned {A} (r : outcome A) : bool :=
  match r with Return _ => true | Raise _ => false end.

Section Monad.
(** [W]: the state of the outside world (model provider, file system);
    [E]: the calls observed on the collaborators, oldest first. *)
Context {W E : Type}.

Definition M (A : Type) : Type := W -> outcome A * W * list E.

Definition ret {A} (a : A) : M A := fun w => (Return a, w, []).

Definition raise {A} (e : exn) : M A := fun w => (Raise e, w, []).

Definition bind {A B} (m : M A) (k : A -> M B) : M B :=
  fun w =>
    match m w with
    | (Return a, w1, ev1) =>
        let '(r, w2, ev2) := k a w1 in (r, w2, (ev1 ++ ev2)%list)
    | (Raise e, w1, ev1) => (Raise e, w1, ev1)
    end.

(** [try: body / except C as exc: handler(exc)] where [catches] tells
    the instances of [C]. *)
Definition try_except {A} (body : M A) (catches : exn -> bool)
           (handler : exn -> M A) : M A :=
  fun w =>
    match body w with
    | (Raise e, w1, ev1) =>
        if catches e
        then let '(r, w2, ev2) := handler e w1 in (r, w2, (ev1 ++ ev2)%list)
        else (Raise e, w1, ev1)
    | res => res
    end.

(** One call on a collaborator [f], recorded as the event [mk result]. *)
Definition call {A} (f : W -> outcome A * W) (mk : outcome A -> E) : M A :=
  fun w => let (r, w') := f w in (r, w', [mk r]).
End Monad.

Arguments M : clear implicits.

Definition result_of {W E A} (x : outcome A * W * list E) : outcome A :=
  fst (fst x).
Definition events_of {W E A} (x : outcome A * W * list E) : list E :=
  snd x.

End Py.

Import Py.

Declare Scope py_scope.
Notation "x <- m ;; k" := (bind m (fun x => k))
  (at level 61, m at next level, right associativity) : py_scope.
Local Open Scope py_scope.

(* ------------------------------------------------------------------ *)
(** ** flowchart_agent/models.py, renderer.py and agent.py *)

Module Agent.

(** [models.FlowchartDraft] *)
Module FlowchartDraft.
Record t : Type := Build { mermaid_code : string; rationale : string }.
End FlowchartDraft.

(** [models.FlowchartCritique] *)
Module FlowchartCritique.
Record t : Type :=
  Build { is_satisfactory : bool; revision_guidance : string }.
End FlowchartCritique.

(** [pathlib.Path], built from the path text. *)
Inductive Path : Type := MkPath (text : string).

(** [models.FlowchartResult] *)
Module FlowchartResult.
Record t : Type :=
  Build { prompt : string; mermaid_code : string; html_path : option Path }.
End FlowchartResult.

(** [RunnableConfig], handed to every chain as it is. *)
Definition RunnableConfig : Type := list (string * string).

(** [FlowchartAgentConfig]: [max_iterations] is the field the loop reads;
    model name, temperature and timeout only configure the chat client,
    which is part of [Collaborators] here. *)
Record FlowchartAgentConfig : Type :=
  { model_name : string; max_iterations : Z }.

Definition default_config : FlowchartAgentConfig :=
  {| model_name := "gpt-4o-mini"; max_iterations := 3 |}.

(** The calls that leave the agent, each with its arguments and result. *)
Inductive event : Type :=
| EvDraft (user_prompt : string) (r : outcome FlowchartDraft.t)
| EvCritique (user_prompt mermaid_code rationale : string)
             (r : outcome FlowchartCritique.t)
| EvRevise (user_prompt mermaid_code critique : string)
           (r : outcome FlowchartDraft.t)
| EvWrite (target : Path) (text : string) (r : outcome unit).

(** ** renderer.py *)

(** [markupsafe.escape], applied by Jinja2 to every [{{ ... }}] of a
    template made with [from_string] under [select_autoescape]. *)
Definition escape_char (c : ascii) : string :=
  if Ascii.eqb c "&" then "&amp;"
  else if Ascii.eqb c "<" then "&lt;"
  else if Ascii.eqb c ">" then "&gt;"
  else if Ascii.eqb c "'" then "&#39;"
  else if Ascii.eqb c "034" then "&#34;"
  else String c EmptyString.

Fixpoint escape (s : string) : string :=
  match s with
  | EmptyString => EmptyString
  | String c s' => escape_char c ++ escape s'
  end.

(** The template text before the first [{{ mermaid_code }}]. *)
Definition template_head : string :=
  "<!DOCTYPE html>" ++ nl ++
  "<html lang=" ++ dq ++ "en" ++ dq ++ ">" ++ nl ++
  "  <head>" ++ nl ++
  "    <meta charset=" ++ dq ++ "utf-8" ++ dq ++ " />" ++ nl ++
  "    <title>Flowchart</title>" ++ nl ++
  "    <script type=" ++ dq ++ "module" ++ dq ++ ">" ++ nl ++
  "      import mermaid from " ++ dq ++
    "https://cdn.jsdelivr.net/npm/mermaid@10/dist/mermaid.esm.min.mjs"
    ++ dq ++ ";" ++ nl ++
  "      mermaid.initialize({ startOnLoad: true, securityLevel: "
    ++ dq ++ "loose" ++ dq ++ " });" ++ nl ++
  "    </script>" ++ nl ++
  "    <style>" ++ nl ++
  "      body { font-family: system-ui, sans-serif; background: #f8f9fb; margin: 0; padding: 2rem; }" ++ nl ++
  "      .container { background: #fff; padding: 1.5rem; border-radius: 12px; box-shadow: 0 8px 24px rgba(0, 0, 0, 0.08); }" ++ nl ++
  "      pre { background: #1e1f22; color: #f5f5f5; padding: 1rem; border-radius: 8px; overflow-x: auto; }" ++ nl ++
  "    </style>" ++ nl ++
  "  </head>" ++ nl ++
  "  <body>" ++ nl ++
  "    <div class=" ++ dq ++ "container" ++ dq ++ ">" ++ nl ++
  "      <h1>Flowchart Diagram</h1>" ++ nl ++
  "      <div class=" ++ dq ++ "mermaid" ++ dq ++ ">" ++ nl.

(** Between the two [{{ mermaid_code }}]. *)
Definition template_middle : string :=
  nl ++
  "      </div>" ++ nl ++
  "      <h2>Source</h2>" ++ nl ++
  "      <pre><code>".

(** After the second one; Jinja2 drops the template's last newline. *)
Definition template_tail : string :=
  "</code></pre>" ++ nl ++
  "    </div>" ++ nl ++
  "  </body>" ++ nl ++
  "</html>".

(** [template.render(mermaid_code=mermaid_code)] *)
Definition render (mermaid_code : string) : string :=
  template_head ++ escape mermaid_code ++ template_middle
  ++ escape mermaid_code ++ template_tail.

(** ** agent.py *)

Definition _ensure_mermaid_header (mermaid_code : string) : string :=
  let stripped := strip mermaid_code in
  if startswith (lower stripped) "flowchart" then stripped
  else "flowchart TD" ++ nl ++ stripped.

Section WithCollaborators.
Context {W : Type}.

(** The three chains built in [FlowchartAgent.__init__] (prompt, chat
    model, parser) and [Path.write_text]: functions of the world. *)
Record Collaborators : Type :=
  { draft_chain :
      string -> option RunnableConfig -> W -> outcome FlowchartDraft.t * W;
    critique_chain :
      string -> string -> string -> option RunnableConfig ->
      W -> outcome FlowchartCritique.t * W;
    revision_chain :
      string -> string -> string -> option RunnableConfig ->
      W -> outcome FlowchartDraft.t * W;
    write_text : Path -> string -> W -> outcome unit * W }.

(** [FlowchartAgent]: [self.config] and the collaborators. *)
Record FlowchartAgent : Type :=
  { config : FlowchartAgentConfig; collab : Collaborators }.

Variable self : FlowchartAgent.

Abbreviation M := (Py.M W event).

(** [renderer.write_mermaid_html] *)
Definition write_mermaid_html (mermaid_code output_path : string) : M Path :=
  let target := MkPath output_path in
  let rendered := render mermaid_code in
  _ <- call (write_text (collab self) target rendered)
            (EvWrite target rendered) ;;
  ret target.

Definition _draft (user_prompt : string)
           (cfg : option RunnableConfig) : M FlowchartDraft.t :=
  result <- try_except
              (call (draft_chain (collab self) user_prompt cfg)
                    (EvDraft user_prompt))
              is_ValidationError
              (fun exc =>
                 raise (ValueError ("Draft generation failed: " ++ str_exn exc)
                                   exc)) ;;
  ret (FlowchartDraft.Build
         (_ensure_mermaid_header (FlowchartDraft.mermaid_code result))
         (FlowchartDraft.rationale result)).

Definition _critique (user_prompt mermaid_code rationale : string)
           (cfg : option RunnableConfig) : M FlowchartCritique.t :=
  try_except
    (call (critique_chain (collab self) user_prompt mermaid_code rationale cfg)
          (EvCritique user_prompt mermaid_code rationale))
    is_ValidationError
    (fun exc =>
       raise (ValueError ("Critique parsing failed: " ++ str_exn exc)
                         exc)).

Definition _revise (user_prompt mermaid_code critique : string)
           (cfg : option RunnableConfig) : M FlowchartDraft.t :=
  result <- try_except
              (call (revision_chain (collab self) user_prompt mermaid_code
                                    critique cfg)
                    (EvRevise user_prompt mermaid_code critique))
              is_ValidationError
              (fun exc =>
                 raise (ValueError ("Revision parsing failed: " ++ str_exn exc)
                                   exc)) ;;
  ret (FlowchartDraft.Build
         (_ensure_mermaid_header (FlowchartDraft.mermaid_code result))
         (FlowchartDraft.rationale result)).

Definition _finalize (user_prompt mermaid_code : string) (save_html : bool)
           (output_path : string) : M FlowchartResult.t :=
  html_path <- (if save_html
                then p <- write_mermaid_html mermaid_code output_path ;;
                     ret (Some p)
                else ret None) ;;
  ret (FlowchartResult.Build user_prompt (strip mermaid_code) html_path).

(** The body of [run] from the [for] statement on, with [n] iterations
    of [range(max_iterations)] left and [draft] the current draft. *)
Fixpoint run_loop (n : nat) (user_prompt : string) (save_html : bool)
         (output_path : string) (cfg : option RunnableConfig)
         (draft : FlowchartDraft.t) : M FlowchartResult.t :=
  match n with
  | O =>
      _finalize user_prompt (FlowchartDraft.mermaid_code draft)
                save_html output_path
  | S n' =>
      critique <- _critique user_prompt (FlowchartDraft.mermaid_code draft)
                            (FlowchartDraft.rationale draft) cfg ;;
      if FlowchartCritique.is_satisfactory critique
      then _finalize user_prompt (FlowchartDraft.mermaid_code draft)
                     save_html output_path
      else
        draft' <- _revise user_prompt (FlowchartDraft.mermaid_code draft)
                          (FlowchartCritique.revision_guidance critique) cfg ;;
        run_loop n' user_prompt save_html output_path cfg draft'
  end.

(** [FlowchartAgent.run]; [range(k)] is empty for [k <= 0]. *)
Definition run (user_prompt : string) (save_html : bool)
           (output_path : string) (cfg : option RunnableConfig)
  : M FlowchartResult.t :=
  draft <- _draft user_prompt cfg ;;
  run_loop (Z.to_nat (max_iterations (config self)))
           user_prompt save_html output_path cfg draft.

End WithCollaborators.

Arguments Collaborators : clear implicits.
Arguments FlowchartAgent : clear implicits.

(** *** Reading a trace *)

Definition is_draft (e : event) : bool :=
  match e with EvDraft _ _ => true | _ => false end.
Definition is_critique (e : event) : bool :=
  match e with EvCritique _ _ _ _ => true | _ => false end.
Definition is_revise (e : event) : bool :=
  match e with EvRevise _ _ _ _ => true | _ => false end.
Definition is_write (e : event) : bool :=
  match e with EvWrite _ _ _ => true | _ => false end.

Definition count (p : event -> bool) (tr : list event) : nat :=
  List.length (List.filter p tr).

(** Did the call return, or raise? *)
Definition event_returned (e : event) : bool :=
  match e with
  | EvDraft _ r => returned r
  | EvCritique _ _ _ r => returned r
  | EvRevise _ _ _ r => returned r
  | EvWrite _ _ r => returned r
  end.

(** The exception an event raised, if it did. *)
Definition event_raised (e : event) : option exn :=
  match e with
  | EvDraft _ (Raise x) | EvCritique _ _ _ (Raise x)
  | EvRevise _ _ _ (Raise x) | EvWrite _ _ (Raise x) => Some x
  | _ => None
  end.

(** The critiques returned during a run, in order. *)
Fixpoint critiques (tr : list event) : list FlowchartCritique.t :=
  match tr with
  | [] => []
  | EvCritique _ _ _ (Return c) :: tr' => c :: critiques tr'
  | _ :: tr' => critiques tr'
  end.

(** The drafts the completion service returned (first draft and
    revisions), in order, as received. *)
Fixpoint drafts (tr : list event) : list FlowchartDraft.t :=
  match tr with
  | [] => []
  | EvDraft _ (Return d) :: tr' => d :: drafts tr'
  | EvRevise _ _ _ (Return d) :: tr' => d :: drafts tr'
  | _ :: tr' => drafts tr'
  end.

(** The phase label of a failure raised by [run]. *)
Definition phase_label (e : event) : string :=
  match e with
  | EvDraft _ _ => "Draft generation failed: "
  | EvCritique _ _ _ _ => "Critique parsing failed: "
  | EvRevise _ _ _ _ => "Revision parsing failed: "
  | EvWrite _ _ _ => ""
  end.

(** The draft as [_draft] and [_revise] hand it on: the same object with
    its [mermaid_code] normalized. *)
Definition normalized (d : FlowchartDraft.t) : FlowchartDraft.t :=
  FlowchartDraft.Build (_ensure_mermaid_header (FlowchartDraft.mermaid_code d))
                       (FlowchartDraft.rationale d).

(** What an [except ValidationError] clause with the given label lets
    out when the chain raised [x]. *)
Definition wrap_failure (label : string) (x : exn) : exn :=
  if is_ValidationError x then ValueError (label ++ str_exn x) x else x.

(** The exception [run] ends with when the call [e] raised [x]: the
    chains are guarded, [write_text] is not. *)
Definition raised_by (e : event) (x : exn) : exn :=
  if is_write e then x else wrap_failure (phase_label e) x.

Definition no_write (tr : list event) : bool :=
  forallb (fun e => negb (is_write e)) tr.

Definition all_returned (tr : list event) : bool :=
  forallb event_returned tr.

(** The draft the loop holds after the calls of [tr], when it held [d]
    before them. *)
Definition current_draft (d : FlowchartDraft.t) (tr : list event)
  : FlowchartDraft.t :=
  List.last (List.map normalized (drafts tr)) d.

Definition unsatisfactory (c : FlowchartCritique.t) : bool :=
  negb (FlowchartCritique.is_satisfactory c).

End Agent.

(* ------------------------------------------------------------------ *)
(** ** flowchart_agent/agent_langgraph.py *)

Module LangGraph.

(** [Reflection] *)
Module Reflection.
Record t : Type :=
  Build { is_satisfactory : bool; critique_or_suggestion : string }.
End Reflection.

(** [AgentState]; [reflection_output] is [NotRequired]. *)
Record AgentState : Type :=
  { user_input : string;
    mermaid_code : string;
    critique_history : list string;
    revision_number : Z;
    reflection_output : option Reflection.t }.

(** What a node returns: a dict with some of the state's keys. *)
Record StateUpdate : Type :=
  { set_mermaid_code : option string;
    add_critique_history : option (list string);
    set_revision_number : option Z;
    set_reflection_output : option Reflection.t }.

(** How the graph merges a node's dict into the state: a key annotated
    with a reducer ([critique_history], with [operator.add]) gets
    [old + new]; any other key present in the dict is overwritten. *)
Definition apply_update (state : AgentState) (u : StateUpdate) : AgentState :=
  {| user_input := user_input state;
     mermaid_code :=
       match set_mermaid_code u with
       | Some c => c | None => mermaid_code state end;
     critique_history :=
       match add_critique_history u with
       | Some l => (critique_history state ++ l)%list
       | None => critique_history state
       end;
     revision_number :=
       match set_revision_number u with
       | Some n => n | None => revision_number state end;
     reflection_output :=
       match set_reflection_output u with
       | Some r => Some r | None => reflection_output state end |}.

(** [response.content] of a chat message: text, or a list of blocks. *)
Inductive content : Type :=
| Text (s : string)
| Blocks.

(** The calls on the chat model. *)
Inductive event : Type :=
| EvGenerate (system_prompt user_input mermaid_code : string)
             (r : outcome content)
| EvReflect (user_input mermaid_code : string) (r : outcome Reflection.t).

Definition MAX_REVISIONS : Z := 3.

Definition fence_open : string := "```mermaid".
Definition fence : string := "```".

(** The body of the [try] in [generate_mermaid] for a text response. *)
Definition extract_code (c : string) : string :=
  let code_block_start := find fence_open c in
  let code_block_end := rfind fence c in
  match code_block_start, code_block_end with
  | Some a, Some b =>
      if (a <? b)%nat
      then strip (slice (a + String.length fence_open) b c)
      else strip c
  | _, _ => strip c
  end.

Definition revise_system_prompt (history_context : string) : string :=
  "You are an expert Mermaid code generator. The user wants a Mermaid flowchart to represent their request. "
  ++ "Your previous attempt was critiqued. Use the following critique history to revise the code. "
  ++ "Output ONLY the complete, corrected Mermaid code block, enclosed in triple backticks and the 'mermaid' language tag. "
  ++ "Ensure the output is a `graph TD` or `graph LR` flowchart, using node shapes like [], () etc."
  ++ nl ++ nl ++ "CRITIQUE HISTORY:" ++ nl ++ history_context.

Definition first_system_prompt : string :=
  "You are an expert Mermaid code generator. Your task is to convert the user's request, which may be "
  ++ "natural language, code, or other text, into a clean, syntactically correct Mermaid flowchart. "
  ++ "Output ONLY the complete Mermaid code block, enclosed in triple backticks and the 'mermaid' language tag. "
  ++ "Ensure the output is a `graph TD` or `graph LR` flowchart, using node shapes like [], () etc".

(** The [AttributeError] of calling [find] on a list of blocks. *)
Definition no_find : exn :=
  OtherError "AttributeError" "'list' object has no attribute 'find'".

Section WithModel.
Context {W : Type}.

(** [prompt | llm] of the generator and
    [reflection_prompt | llm.with_structured_output(Reflection)]. *)
Record Model : Type :=
  { mermaid_chain :
      string -> string -> string -> W -> outcome content * W;
    reflection_chain :
      string -> string -> W -> outcome Reflection.t * W }.

Variable llm : Model.

Abbreviation M := (Py.M W event).

(** The [print] calls of the nodes write to standard output only. *)
Definition generate_mermaid (state : AgentState) : M StateUpdate :=
  let history_context := join nl (critique_history state) in
  let system_prompt :=
    if (0 <? revision_number state)%Z
    then revise_system_prompt history_context
    else first_system_prompt in
  response <- call (mermaid_chain llm system_prompt (user_input state)
                                  (mermaid_code state))
                   (EvGenerate system_prompt (user_input state)
                               (mermaid_code state)) ;;
  match response with
  | Text c =>
      ret {| set_mermaid_code := Some (extract_code c);
             set_revision_number := Some (revision_number state + 1)%Z;
             add_critique_history :=
               Some ["Revision " ++ str_of_int (revision_number state + 1)
                     ++ " generated."];
             set_reflection_output := None |}
  | Blocks =>
      let error_msg :=
        "Extraction failed. Error: " ++ str_exn no_find
        ++ ". Attempting to fix in next revision." in
      ret {| set_mermaid_code := Some "";
             set_revision_number := Some (revision_number state + 1)%Z;
             add_critique_history := Some [error_msg];
             set_reflection_output := None |}
  end.

Definition reflect_on_mermaid (state : AgentState) : M StateUpdate :=
  try_except
    (reflection_result <-
       call (reflection_chain llm (user_input state) (mermaid_code state))
            (EvReflect (user_input state) (mermaid_code state)) ;;
     let critique := Reflection.critique_or_suggestion reflection_result in
     ret {| set_mermaid_code := None;
            set_revision_number := None;
            add_critique_history := Some [critique];
            set_reflection_output := Some reflection_result |})
    (fun _ => true)
    (fun e =>
       let error_critique :=
         "ERROR: Reflection failed with exception: " ++ str_exn e
         ++ ". Forcing refinement." in
       ret {| set_mermaid_code := None;
              set_revision_number := None;
              add_critique_history := Some [error_critique];
              set_reflection_output :=
                Some (Reflection.Build false error_critique) |}).

Definition should_continue (state : AgentState) : string :=
  let reflection := reflection_output state in
  if match reflection with
     | Some r => Reflection.is_satisfactory r
     | None => false
     end
  then "end"
  else if (MAX_REVISIONS <=? revision_number state)%Z then "end"
  else "generate".

(** The nodes added in [create_agent_workflow]. *)
Inductive node : Type := generate | reflect.

(** The mapping of the conditional edge: [None] is [END]. *)
Definition route (label : string) : option node :=
  if String.eqb label "generate" then Some generate else None.

(** One super-step: run the node, merge its dict, follow the edge
    (generate -> reflect; reflect -> [should_continue]). *)
Definition graph_step (n : node) (state : AgentState)
  : M (option node * AgentState) :=
  match n with
  | generate =>
      u <- generate_mermaid state ;;
      ret (Some reflect, apply_update state u)
  | reflect =>
      u <- reflect_on_mermaid state ;;
      let state' := apply_update state u in
      ret (route (should_continue state'), state')
  end.

Definition recursion_error : exn :=
  OtherError "GraphRecursionError" "Recursion limit reached".

(** Running the compiled graph from node [n] with [limit] super-steps
    allowed. *)
Fixpoint run_from (limit : nat) (n : node) (state : AgentState)
  : M AgentState :=
  match limit with
  | O => raise recursion_error
  | S limit' =>
      next <- graph_step n state ;;
      match next with
      | (Some n', state') => run_from limit' n' state'
      | (None, state') => ret state'
      end
  end.

(** LangGraph's default [recursion_limit]. *)
Definition recursion_limit : nat := 25.

(** [app.invoke(initial_state, ...)]: the entry point is [generate]. *)
Definition invoke (initial_state : AgentState) : M AgentState :=
  run_from recursion_limit generate initial_state.

(** A configuration of a running graph: the node to run next ([None]
    once [END] is reached), the state and the world. *)
Definition configuration : Type := (option node * AgentState * W)%type.

(** [c'] is the configuration one super-step after [c]. *)
Definition steps_to (c c' : configuration) : Prop :=
  match c with
  | (Some n, state, w) =>
      exists ev,
        graph_step n state w = (Return (fst (fst c'), snd (fst c')), snd c', ev)
  | (None, _, _) => False
  end.

(** Configurations reached from [c] by super-steps. *)
Inductive reaches (c : configuration) : configuration -> Prop :=
| reaches_refl : reaches c c
| reaches_step c1 c2 : reaches c c1 -> steps_to c1 c2 -> reaches c c2.

End WithModel.

Arguments Model : clear implicits.

(** The initial state built under [__main__]. *)
Definition initial_state (prompt : string) : AgentState :=
  {| user_input := prompt;
     mermaid_code := "";
     critique_history := [];
     revision_number := 0;
     reflection_output := None |}.

Definition is_generate (e : event) : bool :=
  match e with EvGenerate _ _ _ _ => true | _ => false end.
Definition is_reflect (e : event) : bool :=
  match e with EvReflect _ _ _ => true | _ => false end.

Definition count (p : event -> bool) (tr : list event) : nat :=
  List.length (List.filter p tr).

(** No call on the generator's chain raised. *)
Definition generations_returned (tr : list event) : bool :=
  forallb (fun e => match e with
                    | EvGenerate _ _ _ (Raise _) => false
                    | _ => true
                    end) tr.

End LangGraph.

(* ------------------------------------------------------------------ *)
(** ** Both variants on one script of completion-service responses *)

Module Scripted.

(** The responses of the completion service in the order it gives them:
    the [k]-th generation (flowchart code and rationale) and the [k]-th
    critique (verdict and text), whatever the prompt.

    [template_failure] is what the prompt template of the graph's generator
    raises, if anything, on a system prompt that holds a brace:
    [generate_mermaid] pastes the critique history into the text that
    [ChatPromptTemplate.from_messages] reads as a template, so a
    replacement field that the input lacks raises [KeyError] and a lone
    brace [ValueError], while doubled braces and the fields [user_input] and
    [mermaid_code] raise nothing.  It is not asked about a system prompt
    without braces, which is its own text as a template. *)
Record Script : Type :=
  { generation : nat -> string * string;
    verdict : nat -> bool * string;
    template_failure : string -> option exn }.

(** A brace occurs in [s]. *)
Definition has_brace (s : string) : bool :=
  contains "{" s || contains "}" s.

(** Generations and critiques served so far. *)
Definition World : Type := (nat * nat)%type.

Definition next_draft (sc : Script) (w : World)
  : outcome Agent.FlowchartDraft.t * World :=
  (Return (Agent.FlowchartDraft.Build (fst (generation sc (fst w)))
                                      (snd (generation sc (fst w)))),
   (S (fst w), snd w)).

Definition next_critique (sc : Script) (w : World)
  : outcome Agent.FlowchartCritique.t * World :=
  (Return (Agent.FlowchartCritique.Build (fst (verdict sc (snd w)))
                                         (snd (verdict sc (snd w)))),
   (fst w, S (snd w))).

(** The chains of [agent.py] answering from the script; nothing is
    written.  *)
Definition chains (sc : Script) : Agent.Collaborators World :=
  {| Agent.draft_chain := fun _ _ => next_draft sc;
     Agent.critique_chain := fun _ _ _ _ => next_critique sc;
     Agent.revision_chain := fun _ _ _ _ => next_draft sc;
     Agent.write_text := fun _ _ w => (Return tt, w) |}.

Definition agent (sc : Script) (max_iterations : Z)
  : Agent.FlowchartAgent World :=
  {| Agent.config :=
       {| Agent.model_name := "gpt-4o-mini";
          Agent.max_iterations := max_iterations |};
     Agent.collab := chains sc |}.

(** The model of [agent_langgraph.py] answering from the same script.
    The generator's chain is [prompt | llm]: the prompt template fails as
    [template_failure] says on a system prompt with braces, before the
    model is asked; otherwise the generation's code is the text of the
    response. *)
Definition model (sc : Script) : LangGraph.Model World :=
  {| LangGraph.mermaid_chain := fun system_prompt _ _ w =>
       match (if has_brace system_prompt
              then template_failure sc system_prompt else None) with
       | Some e => (Raise e, w)
       | None =>
           (Return (LangGraph.Text (fst (generation sc (fst w)))),
            (S (fst w), snd w))
       end;
     LangGraph.reflection_chain := fun _ _ w =>
       (Return (LangGraph.Reflection.Build (fst (verdict sc (snd w)))
                                           (snd (verdict sc (snd w)))),
        (fst w, S (snd w))) |}.

(** [FlowchartAgent.run] without rendering, from a fresh service. *)
Definition chain_run (sc : Script) (max_iterations : Z) (request : string) :=
  Agent.run (agent sc max_iterations) request false "flowchart_output.html"
            None (O, O).

(** The graph variant on the same request, from a fresh service. *)
Definition graph_run (sc : Script) (request : string) :=
  LangGraph.invoke (model sc) (LangGraph.initial_state request) (O, O).

(** How many of the first [n] verdicts from index [k] on are negative
    before the first positive one. *)
Fixpoint rejected (sc : Script) (k n : nat) : nat :=
  match n with
  | O => O
  | S n' => if fst (verdict sc k) then O else S (rejected sc (S k) n')
  end.

(** *** Sample services *)

(** The [KeyError] of a prompt template asked for a field it was not
    given. *)
Definition missing_variables : exn :=
  OtherError "KeyError" "Input to ChatPromptTemplate is missing variables".

Definition letter (k : nat) : string :=
  match k with
  | 0 => "B" | 1 => "C" | 2 => "D" | _ => "E"
  end%nat.

(** Answers flowchart TD / A-->B, then A-->C, A-->D, A-->E, and is never
    satisfied. *)
Definition never_satisfied : Script :=
  {| generation := fun k =>
       ("flowchart TD" ++ nl ++ "A-->" ++ letter k, "a single edge");
     verdict := fun _ => (false, "add the decision node");
     template_failure := fun _ => Some missing_variables |}.

(** Answers A-->B without a declaration line and is satisfied at once. *)
Definition satisfied_at_once : Script :=
  {| generation := fun k => ("A-->" ++ letter k, "a single edge");
     verdict := fun _ => (true, "ready");
     template_failure := fun _ => Some missing_variables |}.

(** The chains of [sc], except that the draft chain raises [x]. *)
Definition draft_raises (sc : Script) (x : exn) : Agent.FlowchartAgent World :=
  {| Agent.config := Agent.default_config;
     Agent.collab :=
       {| Agent.draft_chain := fun _ _ w => (Raise x, w);
          Agent.critique_chain := fun _ _ _ _ => next_critique sc;
          Agent.revision_chain := fun _ _ _ _ => next_draft sc;
          Agent.write_text := fun _ _ w => (Return tt, w) |} |}.

(** The chains of [sc], except that the revision chain raises [x]. *)
Definition revision_raises (sc : Script) (x : exn) : Agent.FlowchartAgent World :=
  {| Agent.config := Agent.default_config;
     Agent.collab :=
       {| Agent.draft_chain := fun _ _ => next_draft sc;
          Agent.critique_chain := fun _ _ _ _ => next_critique sc;
          Agent.revision_chain := fun _ _ _ _ w => (Raise x, w);
          Agent.write_text := fun _ _ w => (Return tt, w) |} |}.

(** The flowchart code of the [k]-th generation of the script. *)
Definition code (sc : Script) (k : nat) : string := fst (generation sc k).

(** The system prompt [generate_mermaid] builds in [state]. *)
Definition system_prompt_of (state : LangGraph.AgentState) : string :=
  if (0 <? LangGraph.revision_number state)%Z
  then LangGraph.revise_system_prompt
         (join nl (LangGraph.critique_history state))
  else LangGraph.first_system_prompt.

(** No entry of the history holds a brace. *)
Definition plain_history (state : LangGraph.AgentState) : bool :=
  forallb (fun entry => negb (has_brace entry))
          (LangGraph.critique_history state).

(** Never satisfied, asking for a named node in braces: the history pasted
    into the next system prompt then names a field the input lacks. *)
Definition braces_in_critique : Script :=
  {| generation := fun k =>
       ("flowchart TD" ++ nl ++ "A-->" ++ letter k, "a single edge");
     verdict := fun _ => (false, "add a {decision} node");
     template_failure := fun _ => Some missing_variables |}.

(** The state of the graph after the generator received the [g]-th
    generation of the script. *)
Definition after_generate (sc : Script) (state : LangGraph.AgentState)
           (g : nat) : LangGraph.AgentState :=
  {| LangGraph.user_input := LangGraph.user_input state;
     LangGraph.mermaid_code := LangGraph.extract_code (code sc g);
     LangGraph.critique_history :=
       (LangGraph.critique_history state
        ++ [("Revision "
             ++ str_of_int (LangGraph.revision_number state + 1)
             ++ " generated.")%string])%list;
     LangGraph.revision_number := (LangGraph.revision_number state + 1)%Z;
     LangGraph.reflection_output := LangGraph.reflection_output state |}.

(** The state of the graph after the reflector received the [c]-th
    critique of the script. *)
Definition after_reflect (sc : Script) (state : LangGraph.AgentState)
           (c : nat) : LangGraph.AgentState :=
  {| LangGraph.user_input := LangGraph.user_input state;
     LangGraph.mermaid_code := LangGraph.mermaid_code state;
     LangGraph.critique_history :=
       (LangGraph.critique_history state ++ [snd (verdict sc c)])%list;
     LangGraph.revision_number := LangGraph.revision_number state;
     LangGraph.reflection_output :=
       Some (LangGraph.Reflection.Build (fst (verdict sc c))
                                        (snd (verdict sc c))) |}.

Definition expense_request : string := "approve or reject an expense report".

End Scripted.

(* ------------------------------------------------------------------ *)
(** ** flowchart_agent/cli.py *)

Module Cli.

Section WithClient.
Context {W : Type}.

(** [str(path)] of pathlib: the text of the path in its normal form, which
    need not be the text the path was made from ([str(Path("./a.html"))]
    is [a.html]). *)
Variable path_str : Agent.Path -> string.

(** The sampling temperature, a float that only the chat client reads. *)
Variable Temperature : Type.

(** The chains [FlowchartAgent(config=config)] builds on the chat client
    of the configured model and temperature. *)
Variable client : string -> Temperature -> Agent.Collaborators W.

(** The command [run], on options that typer has parsed; the value is the
    list of the messages given to [typer.echo], in order.  The option
    [max_iterations] is declared with [min=1]. *)
Definition run (prompt model_name : string) (temperature : Temperature)
           (max_iterations : Z) (output : Agent.Path) (no_render : bool)
  : Py.M W Agent.event (list string) :=
  let config := {| Agent.model_name := model_name;
                   Agent.max_iterations := max_iterations |} in
  let agent := {| Agent.config := config;
                  Agent.collab := client model_name temperature |} in
  result <- Agent.run agent prompt (negb no_render) (path_str output) None ;;
  ret (["Mermaid code:";
        "```mermaid";
        Agent.FlowchartResult.mermaid_code result;
        "```"]
       ++ match Agent.FlowchartResult.html_path result with
          | Some p => [("HTML output saved to: " ++ path_str p)%string]
          | None => []
          end)%list.

End WithClient.

End Cli.

(* ------------------------------------------------------------------ *)
(** ** Reading the calls of a run of [agent.py] *)

Module Trace.

(** The draft a call handed back, if it is a generation that returned. *)
Definition produced (e : Agent.event) : option Agent.FlowchartDraft.t :=
  match e with
  | Agent.EvDraft _ (Return d) => Some d
  | Agent.EvRevise _ _ _ (Return d) => Some d
  | _ => None
  end.

(** [e2] is a call that [run], on [user_prompt] and [output_path], makes
    right after the call [e1]:
    - a critique, of the draft that [e1] produced, normalized;
    - a revision, of the content that the critique [e1] rejected, with
      that critique's guidance;
    - the write of the document of the content that the critique [e1]
      accepted, or of the draft that [e1] produced;
    - never a second draft. *)
Definition may_follow (user_prompt output_path : string)
           (e1 e2 : Agent.event) : Prop :=
  match e2 with
  | Agent.EvDraft _ _ => False
  | Agent.EvCritique p code rat _ =>
      p = user_prompt /\
      exists d,
        produced e1 = Some d /\
        code = Agent._ensure_mermaid_header (Agent.FlowchartDraft.mermaid_code d) /\
        rat = Agent.FlowchartDraft.rationale d
  | Agent.EvRevise p code guidance _ =>
      p = user_prompt /\
      exists rat c,
        e1 = Agent.EvCritique p code rat (Return c) /\
        Agent.FlowchartCritique.is_satisfactory c = false /\
        guidance = Agent.FlowchartCritique.revision_guidance c
  | Agent.EvWrite target text _ =>
      target = Agent.MkPath output_path /\
      exists code,
        text = Agent.render code /\
        ((exists p rat c,
             e1 = Agent.EvCritique p code rat (Return c) /\
             Agent.FlowchartCritique.is_satisfactory c = true) \/
         (exists d,
             produced e1 = Some d /\
             code = Agent._ensure_mermaid_header
                      (Agent.FlowchartDraft.mermaid_code d)))
  end.

(** Every call of [tr] may follow the one before it, [e] being the call
    before the first. *)
Fixpoint linked (user_prompt output_path : string) (e : Agent.event)
         (tr : list Agent.event) : Prop :=
  match tr with
  | [] => True
  | e' :: tr' =>
      may_follow user_prompt output_path e e'
      /\ linked user_prompt output_path e' tr'
  end.

(** A critique that returned satisfied. *)
Definition is_approval (e : Agent.event) : bool :=
  match e with
  | Agent.EvCritique _ _ _ (Return c) => Agent.FlowchartCritique.is_satisfactory c
  | _ => false
  end.

(** The calls on the chains, without the write. *)
Definition chain_calls (tr : list Agent.event) : list Agent.event :=
  List.filter (fun e => negb (Agent.is_write e)) tr.

(** The content a critique call was given. *)
Definition critiqued (e : Agent.event) : option string :=
  match e with
  | Agent.EvCritique _ code _ _ => Some code
  | _ => None
  end.

End Trace.

(* ------------------------------------------------------------------ *)
(** ** Reading the document of [renderer.py] *)

Module Html.

(** None of the five characters that [escape] replaces occurs in [s]. *)
Definition plain (s : string) : bool :=
  negb (contains "&" s || contains "<" s || contains ">" s
        || contains "'" s || contains "034" s).

End Html.

(* ------------------------------------------------------------------ *)
(** ** The end of [agent_langgraph.py]: what is printed of the final state *)

Module Main.

(** [items[-1]] *)
Definition last_item (items : list string) : outcome string :=
  match items with
  | [] => Raise (OtherError "IndexError" "list index out of range")
  | x :: rest => Return (List.last rest x)
  end.

(** The two lines printed right after [app.invoke]:
    [Total Revisions: ...] and [Final Critique: ...]. *)
Definition summary (final_state : LangGraph.AgentState)
  : outcome (list string) :=
  match last_item (LangGraph.critique_history final_state) with
  | Return c =>
      Return [("Total Revisions: "
               ++ str_of_int (LangGraph.revision_number final_state - 1))%string;
              ("Final Critique: " ++ c)%string]
  | Raise e => Raise e
  end.

End Main.

(* ------------------------------------------------------------------ *)
(** ** The output parser at the end of the chains of [agent.py] *)

Module Parser.

(** What [PydanticOutputParser] makes of the text of a completion: the
    object of the model when the text decodes to JSON that conforms to the
    schema; the JSON as [json.dumps] prints it and the text of pydantic's
    [ValidationError] when it decodes and violates the schema; the message
    of the JSON parser when it does not decode. *)
Inductive checked (T : Type) : Type :=
| Conforms (obj : T)
| Violates (json_string detail : string)
| NotJson (message : string).
Arguments Conforms {T} obj.
Arguments Violates {T} json_string detail.
Arguments NotJson {T} message.

(** [PydanticOutputParser._parser_exception]: the [OutputParserException]
    raised from the [ValidationError] [e] of the model called [name]. *)
Definition parser_exception (name json_string : string) (e : exn) : exn :=
  OtherError "OutputParserException"
    ("Failed to parse " ++ name ++ " from completion " ++ json_string
     ++ ". Got: " ++ str_exn e).

(** The [OutputParserException] for text that is no JSON. *)
Definition invalid_json (message : string) : exn :=
  OtherError "OutputParserException" message.

Section WithWorld.
Context {W : Type}.

(** [PydanticOutputParser.parse_result]: the [ValidationError] of the
    model is caught there and an [OutputParserException] raised from it. *)
Definition parse_result {T} (name : string) (check : string -> checked T)
           (completion : string) : outcome T :=
  match check completion with
  | Conforms obj => Return obj
  | Violates json_string detail =>
      Raise (parser_exception name json_string (ValidationError detail))
  | NotJson message => Raise (invalid_json message)
  end.

(** [prompt | llm | parser], on the completion that [prompt | llm] gives:
    an exception of the first two stages leaves the chain as it is. *)
Definition chain {T} (name : string) (check : string -> checked T)
           (completion : W -> outcome string * W) : W -> outcome T * W :=
  fun w =>
    match completion w with
    | (Return text, w') => (parse_result name check text, w')
    | (Raise e, w') => (Raise e, w')
    end.

(** What [FlowchartAgent.__init__] builds its chains on: the text that the
    chat model completes each of the three prompts with, the two schemas,
    and the file system. *)
Record Services : Type :=
  { draft_completion :
      string -> option Agent.RunnableConfig -> W -> outcome string * W;
    critique_completion :
      string -> string -> string -> option Agent.RunnableConfig ->
      W -> outcome string * W;
    revision_completion :
      string -> string -> string -> option Agent.RunnableConfig ->
      W -> outcome string * W;
    check_draft : string -> checked Agent.FlowchartDraft.t;
    check_critique : string -> checked Agent.FlowchartCritique.t;
    write_text : Agent.Path -> string -> W -> outcome unit * W }.

(** The chains of [FlowchartAgent.__init__]: the draft and the revision
    end in the parser of [FlowchartDraft], the critique in the parser of
    [FlowchartCritique]. *)
Definition chains (s : Services) : Agent.Collaborators W :=
  {| Agent.draft_chain := fun user_prompt cfg =>
       chain "FlowchartDraft" (check_draft s)
             (draft_completion s user_prompt cfg);
     Agent.critique_chain := fun user_prompt mermaid_code rationale cfg =>
       chain "FlowchartCritique" (check_critique s)
             (critique_completion s user_prompt mermaid_code rationale cfg);
     Agent.revision_chain := fun user_prompt mermaid_code critique cfg =>
       chain "FlowchartDraft" (check_draft s)
             (revision_completion s user_prompt mermaid_code critique cfg);
     Agent.write_text := write_text s |}.

(** [FlowchartAgent(config)] on these services. *)
Definition agent (config : Agent.FlowchartAgentConfig) (s : Services)
  : Agent.FlowchartAgent W :=
  {| Agent.config := config; Agent.collab := chains s |}.

(** The prompt and the chat model raise no [ValidationError] of their
    own. *)
Definition quiet (s : Services) : Prop :=
  (forall user_prompt cfg w e w',
      draft_completion s user_prompt cfg w = (Raise e, w') ->
      is_ValidationError e = false) /\
  (forall user_prompt mermaid_code rationale cfg w e w',
      critique_completion s user_prompt mermaid_code rationale cfg w
      = (Raise e, w') ->
      is_ValidationError e = false) /\
  (forall user_prompt mermaid_code critique cfg w e w',
      revision_completion s user_prompt mermaid_code critique cfg w
      = (Raise e, w') ->
      is_ValidationError e = false).

End WithWorld.
Arguments Services : clear implicits.

End Parser.

(* ------------------------------------------------------------------ *)
(** ** More sample services *)

Module Samples.

(** A chat model that answers every prompt with the empty JSON object,
    which lacks the required fields of both schemas; the world counts the
    completions. *)
Definition empty_object : Parser.Services nat :=
  {| Parser.draft_completion := fun _ _ w => (Return "{}", S w);
     Parser.critique_completion := fun _ _ _ _ w => (Return "{}", S w);
     Parser.revision_completion := fun _ _ _ _ w => (Return "{}", S w);
     Parser.check_draft := fun text =>
       Parser.Violates text "2 validation errors for FlowchartDraft";
     Parser.check_critique := fun text =>
       Parser.Violates text "2 validation errors for FlowchartCritique";
     Parser.write_text := fun _ _ w => (Return tt, w) |}.

(** A chat model whose second completion, the first critique, lacks its
    fields; the drafts conform. *)
Definition critique_violates : Parser.Services nat :=
  {| Parser.draft_completion := fun _ _ w => (Return "draft", S w);
     Parser.critique_completion := fun _ _ _ _ w => (Return "{}", S w);
     Parser.revision_completion := fun _ _ _ _ w => (Return "draft", S w);
     Parser.check_draft := fun _ =>
       Parser.Conforms (Agent.FlowchartDraft.Build "A-->B" "a single edge");
     Parser.check_critique := fun text =>
       Parser.Violates text "2 validation errors for FlowchartCritique";
     Parser.write_text := fun _ _ w => (Return tt, w) |}.

(** The chains of [sc] with a [write_text] that raises [x]. *)
Definition write_raises (sc : Scripted.Script) (x : exn)
  : Agent.FlowchartAgent Scripted.World :=
  {| Agent.config := Agent.default_config;
     Agent.collab :=
       {| Agent.draft_chain := fun _ _ => Scripted.next_draft sc;
          Agent.critique_chain := fun _ _ _ _ => Scripted.next_critique sc;
          Agent.revision_chain := fun _ _ _ _ => Scripted.next_draft sc;
          Agent.write_text := fun _ _ w => (Raise x, w) |} |}.

(** The model of [sc] with a reflector that raises [x]. *)
Definition reflector_raises (sc : Scripted.Script) (x : exn)
  : LangGraph.Model Scripted.World :=
  {| LangGraph.mermaid_chain :=
       LangGraph.mermaid_chain (Scripted.model sc);
     LangGraph.reflection_chain := fun _ _ w => (Raise x, w) |}.


(** [str(path)] for a path made from a file name, or from a file name
    behind one [./]: pathlib leaves the current directory out. *)
Definition str_relative (p : Agent.Path) : string :=
  match p with
  | Agent.MkPath text =>
      if startswith text "./" then drop 2 text else text
  end.

(** A response in a fenced block, as the generator's prompt asks for. *)
Definition fenced_answer : string :=
  "```mermaid" ++ nl ++ "graph TD" ++ nl ++ "A-->B" ++ nl ++ "```".

End Samples.

(* ================================================================== *)
(** * Properties *)

Import Agent.

(* ------------------------------------------------------------------ *)
(** ** Strings *)

Section StringFacts.

Lemma rstrip_cons_keep c s :
  isspace c = false -> rstrip (String c s) = String c (rstrip s).
Proof.
  intros Hc. cbn [rstrip]. rewrite Hc. now destruct (rstrip s).
Qed.

Lemma rstrip_cons c s :
  rstrip (String c s) =
  match rstrip s with
  | EmptyString => if isspace c then EmptyString else String c EmptyString
  | t => String c t
  end.
Proof. reflexivity. Qed.

Lemma rstrip_idempotent s : rstrip (rstrip s) = rstrip s.
Proof.
  induction s as [|c s IH]; [reflexivity|].
  rewrite rstrip_cons. destruct (rstrip s) as [|d t] eqn:E.
  - destruct (isspace c) eqn:Hc; [reflexivity|].
    rewrite rstrip_cons. cbn [rstrip]. now rewrite Hc.
  - rewrite rstrip_cons, IH. reflexivity.
Qed.

(** What [lstrip] leaves does not begin with white space. *)
Lemma lstrip_head s :
  lstrip s = EmptyString \/
  exists c t, lstrip s = String c t /\ isspace c = false.
Proof.
  induction s as [|c s IH]; [now left|].
  cbn [lstrip]. destruct (isspace c) eqn:Hc; [exact IH|].
  right. now exists c, s.
Qed.

Lemma strip_head s :
  strip s = EmptyString \/
  exists c t, strip s = String c t /\ isspace c = false.
Proof.
  unfold strip. destruct (lstrip_head s) as [E|(c & t & E & Hc)]; rewrite E.
  - now left.
  - right. exists c, (rstrip t). split; [now apply rstrip_cons_keep|exact Hc].
Qed.

Lemma lstrip_fixed c t : isspace c = false -> lstrip (String c t) = String c t.
Proof. intros Hc. cbn [lstrip]. now rewrite Hc. Qed.

Lemma strip_idempotent s : strip (strip s) = strip s.
Proof.
  destruct (strip_head s) as [E|(c & t & E & Hc)].
  - now rewrite E.
  - unfold strip at 1. rewrite E, (lstrip_fixed c t Hc), <- E.
    unfold strip. apply rstrip_idempotent.
Qed.

(** A string that begins with a character that is not white space keeps
    it, and what follows it up to the first such character from the
    right, under [strip]. *)
Lemma strip_cons_keep c s :
  isspace c = false -> strip (String c s) = String c (rstrip s).
Proof.
  intros Hc. unfold strip. rewrite (lstrip_fixed c s Hc).
  now apply rstrip_cons_keep.
Qed.

Lemma nat_of_ascii_inj a b : nat_of_ascii a = nat_of_ascii b -> a = b.
Proof.
  intros H. rewrite <- (ascii_nat_embedding a), <- (ascii_nat_embedding b).
  now rewrite H.
Qed.

(** On an ASCII lower-case letter [k], [lower_char c = k] says that [c]
    is [k] or its capital. *)
Lemma lower_char_letter c k :
  (97 <= nat_of_ascii k <= 122)%nat ->
  lower_char c = k <-> same_caseless c k.
Proof.
  intros Hk. unfold lower_char, same_caseless.
  pose proof (nat_ascii_bounded c) as Hb.
  destruct (((65 <=? nat_of_ascii c) && (nat_of_ascii c <=? 90)
             || (192 <=? nat_of_ascii c) && (nat_of_ascii c <=? 222)
                && negb (nat_of_ascii c =? 215))%nat) eqn:E.
  - split.
    + intros <-. right.
      rewrite nat_ascii_embedding in * by
        (apply orb_prop in E; destruct E as [E|E];
         repeat (apply andb_prop in E; destruct E as [E ?]);
         repeat match goal with
           | H : (_ <=? _)%nat = true |- _ => apply Nat.leb_le in H
           end; lia).
      split; [exact Hk|reflexivity].
    + intros [->|[_ H]].
      * exfalso. apply orb_prop in E. destruct E as [E|E];
          repeat (apply andb_prop in E; destruct E as [E ?]);
          repeat match goal with
            | H : (_ <=? _)%nat = true |- _ => apply Nat.leb_le in H
            end; lia.
      * rewrite H. apply ascii_nat_embedding.
  - split.
    + intros ->. now left.
    + intros [->|[_ H]]; [reflexivity|].
      exfalso. apply orb_false_elim in E. destruct E as [E _].
      apply andb_false_elim in E.
      destruct E as [E|E]; apply Nat.leb_gt in E; lia.
Qed.

(** The test of the source, [s.lower().startswith(kw)], is the
    caseless comparison of the first characters of [s] with [kw]. *)
Lemma startswith_lower_caseless kw :
  lower_letters kw ->
  forall s, startswith (lower s) kw = true <-> begins_caseless kw s.
Proof.
  unfold startswith.
  induction kw as [|k kw IH]; intros Hkw s.
  - destruct s; cbn; tauto.
  - destruct Hkw as [Hk Hkw]. destruct s as [|c s].
    + cbn. split; [discriminate|tauto].
    + cbn [lower String.prefix begins_caseless].
      rewrite <- (lower_char_letter c k Hk), <- (IH Hkw s).
      destruct (ascii_dec k (lower_char c)) as [->|Hne].
      * tauto.
      * split; [discriminate|]. intros [H _]. now elim Hne.
Qed.

Lemma flowchart_lower_letters : lower_letters "flowchart".
Proof. cbn. repeat split; lia. Qed.

Lemma begins_caseless_nonempty k kw s :
  begins_caseless (String k kw) s -> s <> EmptyString.
Proof. destruct s; cbn; [tauto|discriminate]. Qed.

Lemma begins_caseless_app kw s t :
  begins_caseless kw s -> begins_caseless kw (s ++ t).
Proof.
  revert s; induction kw as [|k kw IH]; intros s; [now destruct s|].
  destruct s as [|c s]; cbn; [tauto|]. intros [H1 H2]. split; auto.
Qed.

End StringFacts.

Example strip_both_ends : strip ("  " ++ nl ++ " a b " ++ nl) = "a b".
Proof. reflexivity. Qed.

Example strip_all_space : strip ("  " ++ nl) = "".
Proof. reflexivity. Qed.

Example lower_mixed : lower "FlowChart LR" = "flowchart lr".
Proof. reflexivity. Qed.

Example find_first_last :
  find "bc" "abcbc" = Some 1%nat /\ rfind "bc" "abcbc" = Some 3%nat
  /\ find "x" "abcbc" = None /\ rfind "x" "abcbc" = None.
Proof. repeat split; reflexivity. Qed.

Example str_of_int_signs :
  str_of_int 12 = "12" /\ str_of_int (-3) = "-3" /\ str_of_int 0 = "0".
Proof. repeat split; reflexivity. Qed.

Example extract_fenced_block :
  LangGraph.extract_code
    ("Here it is:" ++ nl ++ "```mermaid" ++ nl ++ "graph TD" ++ nl
     ++ "A-->B" ++ nl ++ "```" ++ nl ++ "Done.")
  = "graph TD" ++ nl ++ "A-->B".
Proof. reflexivity. Qed.

Example extract_without_fence :
  LangGraph.extract_code (" graph TD" ++ nl ++ "A-->B" ++ nl)
  = "graph TD" ++ nl ++ "A-->B".
Proof. reflexivity. Qed.

(* ------------------------------------------------------------------ *)
(** ** The normalizer *)

Section Normalizer.

Lemma ensure_header_cases s :
  (begins_caseless "flowchart" (strip s) /\
   _ensure_mermaid_header s = strip s) \/
  (~ begins_caseless "flowchart" (strip s) /\
   _ensure_mermaid_header s = "flowchart TD" ++ nl ++ strip s).
Proof.
  unfold _ensure_mermaid_header.
  pose proof (startswith_lower_caseless "flowchart"
                flowchart_lower_letters (strip s)) as H.
  destruct (startswith (lower (strip s)) "flowchart").
  - left. split; [now apply H|reflexivity].
  - right. split; [|reflexivity]. intros Hb. apply H in Hb. discriminate.
Qed.

Lemma ensure_header_begins s :
  begins_caseless "flowchart" (_ensure_mermaid_header s).
Proof.
  destruct (ensure_header_cases s) as [[H ->]|[_ ->]]; [exact H|].
  cbn. repeat split; now left.
Qed.

(** Trimming a normalized text keeps its declaration. *)
Lemma strip_ensure_header_begins s :
  begins_caseless "flowchart" (strip (_ensure_mermaid_header s)).
Proof.
  destruct (ensure_header_cases s) as [[H ->]|[_ ->]].
  - now rewrite strip_idempotent.
  - change ("flowchart TD" ++ nl ++ strip s)
      with (String "f" ("lowchart TD" ++ nl ++ strip s)).
    rewrite strip_cons_keep by reflexivity.
    change ("lowchart TD" ++ nl ++ strip s)
      with ("lowchart" ++ String " " ("TD" ++ nl ++ strip s)).
    cbn [append]. repeat (rewrite rstrip_cons_keep by reflexivity).
    rewrite rstrip_cons.
    rewrite (rstrip_cons_keep "T") by reflexivity.
    cbn. repeat split; now left.
Qed.

End Normalizer.

(** C3. [_ensure_mermaid_header] is a total function on strings.  When the
    trimmed input begins with the keyword flowchart, case ignored, the
    result is the trimmed input; otherwise it is "flowchart TD", a line feed
    and the trimmed input.  The empty string gives the declaration with an
    empty body, and A-->B gives the declaration line followed by A-->B. *)
Theorem ensure_mermaid_header_spec :
  (forall s,
      (begins_caseless "flowchart" (strip s) ->
       _ensure_mermaid_header s = strip s) /\
      (~ begins_caseless "flowchart" (strip s) ->
       _ensure_mermaid_header s = "flowchart TD" ++ nl ++ strip s) /\
      begins_caseless "flowchart" (_ensure_mermaid_header s)) /\
  _ensure_mermaid_header "" = "flowchart TD" ++ nl /\
  _ensure_mermaid_header "A-->B" = "flowchart TD" ++ nl ++ "A-->B".
Proof.
  split; [|split; reflexivity].
  intros s. destruct (ensure_header_cases s) as [[H E]|[H E]].
  - repeat split; [now intros _|tauto|apply ensure_header_begins].
  - repeat split; [tauto|now intros _|apply ensure_header_begins].
Qed.

Lemma ensure_mermaid_header_spec_witness :
  begins_caseless "flowchart" (strip ("  FlowChart LR" ++ nl ++ "A-->B "))
  /\ _ensure_mermaid_header ("  FlowChart LR" ++ nl ++ "A-->B ")
     = "FlowChart LR" ++ nl ++ "A-->B"
  /\ ~ begins_caseless "flowchart" (strip " graph TD ")
  /\ _ensure_mermaid_header " graph TD " = "flowchart TD" ++ nl ++ "graph TD".
Proof.
  assert (Hyes : begins_caseless "flowchart"
                   (strip ("  FlowChart LR" ++ nl ++ "A-->B "))).
  { cbn. repeat split; (now left) || (right; cbn; lia). }
  assert (Hno : ~ begins_caseless "flowchart" (strip " graph TD ")).
  { cbn. intros [[H|[_ H]] _]; [discriminate H|cbn in H; lia]. }
  split; [exact Hyes|]. split.
  - exact (proj1 (proj1 ensure_mermaid_header_spec _) Hyes).
  - split; [exact Hno|].
    exact (proj1 (proj2 (proj1 ensure_mermaid_header_spec _)) Hno).
Defined.

(* ------------------------------------------------------------------ *)
(** ** The refinement loop of [agent.py] *)

Section LoopFacts.
Context {W : Type}.
Variable self : FlowchartAgent W.
Variables (user_prompt : string) (save_html : bool) (output_path : string)
          (cfg : option RunnableConfig).

(** *** One equation for each method *)

Lemma _draft_eq w :
  _draft self user_prompt cfg w =
  let (o, w') := draft_chain (collab self) user_prompt cfg w in
  (match o with
   | Return d => Return (normalized d)
   | Raise x => Raise (wrap_failure "Draft generation failed: " x)
   end, w', [EvDraft user_prompt o]).
Proof.
  unfold _draft, bind, try_except, call, raise, ret, wrap_failure, normalized.
  destruct (draft_chain _ _ _ _) as [[d|x] w']; [reflexivity|].
  now destruct (is_ValidationError x).
Qed.

Lemma _critique_eq code rat w :
  _critique self user_prompt code rat cfg w =
  let (o, w') := critique_chain (collab self) user_prompt code rat cfg w in
  (match o with
   | Return c => Return c
   | Raise x => Raise (wrap_failure "Critique parsing failed: " x)
   end, w', [EvCritique user_prompt code rat o]).
Proof.
  unfold _critique, bind, try_except, call, raise, ret, wrap_failure.
  destruct (critique_chain _ _ _ _ _ _) as [[c|x] w']; [reflexivity|].
  now destruct (is_ValidationError x).
Qed.

Lemma _revise_eq code guidance w :
  _revise self user_prompt code guidance cfg w =
  let (o, w') := revision_chain (collab self) user_prompt code guidance cfg w in
  (match o with
   | Return d => Return (normalized d)
   | Raise x => Raise (wrap_failure "Revision parsing failed: " x)
   end, w', [EvRevise user_prompt code guidance o]).
Proof.
  unfold _revise, bind, try_except, call, raise, ret, wrap_failure, normalized.
  destruct (revision_chain _ _ _ _ _ _) as [[d|x] w']; [reflexivity|].
  now destruct (is_ValidationError x).
Qed.

Lemma _finalize_eq code w :
  _finalize self user_prompt code save_html output_path w =
  if save_html
  then let (o, w') := write_text (collab self) (MkPath output_path)
                                 (render code) w in
       (match o with
        | Return _ =>
            Return (FlowchartResult.Build user_prompt (strip code)
                                          (Some (MkPath output_path)))
        | Raise x => Raise x
        end, w', [EvWrite (MkPath output_path) (render code) o])
  else (Return (FlowchartResult.Build user_prompt (strip code) None), w, []).
Proof.
  unfold _finalize, write_mermaid_html, bind, call, ret.
  destruct save_html; [|reflexivity].
  now destruct (write_text _ _ _ _) as [[u|x] w'].
Qed.

Lemma run_loop_O d w :
  run_loop self O user_prompt save_html output_path cfg d w =
  _finalize self user_prompt (FlowchartDraft.mermaid_code d)
            save_html output_path w.
Proof. reflexivity. Qed.

(** One iteration of the [for] loop. *)
Lemma run_loop_S n d w :
  run_loop self (S n) user_prompt save_html output_path cfg d w =
  let code := FlowchartDraft.mermaid_code d in
  let rat := FlowchartDraft.rationale d in
  match critique_chain (collab self) user_prompt code rat cfg w with
  | (Raise x, w1) =>
      (Raise (wrap_failure "Critique parsing failed: " x), w1,
       [EvCritique user_prompt code rat (Raise x)])
  | (Return c, w1) =>
      let ec := EvCritique user_prompt code rat (Return c) in
      if FlowchartCritique.is_satisfactory c
      then let '(r, w2, ev) :=
             _finalize self user_prompt code save_html output_path w1 in
           (r, w2, ec :: ev)
      else
        let guidance := FlowchartCritique.revision_guidance c in
        match revision_chain (collab self) user_prompt code guidance cfg w1 with
        | (Raise x, w2) =>
            (Raise (wrap_failure "Revision parsing failed: " x), w2,
             [ec; EvRevise user_prompt code guidance (Raise x)])
        | (Return d', w2) =>
            let '(r, w3, ev) :=
              run_loop self n user_prompt save_html output_path cfg
                       (normalized d') w2 in
            (r, w3, ec :: EvRevise user_prompt code guidance (Return d') :: ev)
        end
  end.
Proof.
  cbn [run_loop]. unfold bind at 1. rewrite _critique_eq.
  destruct (critique_chain _ _ _ _ _ _) as [[c|x] w1]; [|reflexivity].
  destruct (FlowchartCritique.is_satisfactory c).
  - now destruct (_finalize _ _ _ _ _ _) as [[r w2] ev].
  - unfold bind. rewrite _revise_eq.
    destruct (revision_chain _ _ _ _ _ _) as [[d'|x] w2]; [|reflexivity].
    now destruct (run_loop _ _ _ _ _ _ _ _) as [[r w3] ev].
Qed.

Lemma run_eq w :
  run self user_prompt save_html output_path cfg w =
  match draft_chain (collab self) user_prompt cfg w with
  | (Raise x, w1) =>
      (Raise (wrap_failure "Draft generation failed: " x), w1,
       [EvDraft user_prompt (Raise x)])
  | (Return d, w1) =>
      let '(r, w2, ev) :=
        run_loop self (Z.to_nat (max_iterations (config self)))
                 user_prompt save_html output_path cfg (normalized d) w1 in
      (r, w2, EvDraft user_prompt (Return d) :: ev)
  end.
Proof.
  unfold run, bind. rewrite _draft_eq.
  destruct (draft_chain _ _ _ _) as [[d|x] w1]; [|reflexivity].
  now destruct (run_loop _ _ _ _ _ _ _ _) as [[r w2] ev].
Qed.

End LoopFacts.

Lemma last_cons {A} (x : A) l d : List.last (x :: l) d = List.last l x.
Proof.
  revert x d. induction l as [|y l IH]; intros x d; [reflexivity|].
  change (List.last (y :: l) d = List.last (y :: l) x). now rewrite !IH.
Qed.

#[local] Arguments render : simpl never.
#[local] Arguments current_draft : simpl never.
#[local] Arguments strip : simpl never.
#[local] Arguments _ensure_mermaid_header : simpl never.

(** Case analysis along the source: the outcome of [_finalize], and of one
    pass through the loop body. *)
Ltac finalize_cases :=
  rewrite _finalize_eq;
  match goal with
  | |- context [if ?b then _ else _] =>
      destruct b eqn:?;
      [ match goal with
        | |- context [write_text ?c ?t ?x ?w] =>
            destruct (write_text c t x w) as [[[]|?] ?] eqn:?
        end
      | ]
  end.

Tactic Notation "loop_cases" ident(c) ident(Hs) ident(d') ident(w') :=
  rewrite run_loop_S; cbv zeta;
  match goal with
  | |- context [critique_chain ?a ?p ?m ?r ?g ?w] =>
      destruct (critique_chain a p m r g w) as [[c|?] ?] eqn:?;
      [ destruct (FlowchartCritique.is_satisfactory c) eqn:Hs;
        [ finalize_cases
        | match goal with
          | |- context [revision_chain ?a2 ?p2 ?m2 ?r2 ?g2 ?w2] =>
              destruct (revision_chain a2 p2 m2 r2 g2 w2)
                as [[d'|?] w'] eqn:?
          end ]
      | ]
  end.

(** The last call raised: name the calls before it, the rest follows by
    evaluation. *)
Ltac last_call_raised pre :=
  exists pre; do 2 eexists; cbn; repeat split; reflexivity.

Section LoopProperties.
Context {W : Type}.
Variable self : FlowchartAgent W.
Variables (user_prompt : string) (save_html : bool) (output_path : string)
          (cfg : option RunnableConfig).

Let loop n := run_loop self n user_prompt save_html output_path cfg.

(** The loop calls the critique at most once per iteration, never the
    revision more often than the critique, and never the draft chain. *)
Lemma loop_counts n : forall d w,
  let tr := events_of (loop n d w) in
  (count is_critique tr <= n)%nat /\
  (count is_revise tr <= count is_critique tr)%nat /\
  count is_draft tr = O /\
  (count is_write tr <= 1)%nat.
Proof.
  subst loop. induction n as [|n IH]; intros d w; cbv zeta.
  - rewrite run_loop_O. finalize_cases; cbn; repeat split; lia.
  - loop_cases c Hs d' w'; try (cbn; repeat split; lia).
    specialize (IH (normalized d') w'). cbv zeta in IH.
    destruct (run_loop _ _ _ _ _ _ _ _) as [[r w3] ev].
    unfold events_of, count in *. cbn in *. lia.
Qed.

(** How a pass through the loop ends: with a result after calls that all
    returned, or with the failure of its last call, passed on as
    [raised_by] says, after calls that returned and wrote nothing. *)
Lemma loop_outcome n : forall d w,
  let x := loop n d w in
  match result_of x with
  | Return _ => all_returned (events_of x) = true
  | Raise x' =>
      exists pre e x0,
        events_of x = (pre ++ [e])%list /\
        all_returned pre = true /\ no_write pre = true /\
        event_raised e = Some x0 /\ x' = raised_by e x0
  end.
Proof.
  subst loop. induction n as [|n IH]; intros d w; cbv zeta.
  - rewrite run_loop_O. finalize_cases; cbn; try reflexivity.
    last_call_raised (@nil event).
  - loop_cases c Hs d' w'; cbn; try reflexivity.
    + eexists [_]; do 2 eexists; cbn; repeat split; reflexivity.
    + specialize (IH (normalized d') w'). cbv zeta in IH.
      destruct (run_loop _ _ _ _ _ _ _ _) as [[[r|x'] w3] ev]; cbn in *.
      * exact IH.
      * destruct IH as (pre & e & x0 & -> & H1 & H2 & H3 & H4).
        exists (EvCritique user_prompt (FlowchartDraft.mermaid_code d)
                           (FlowchartDraft.rationale d) (Return c)
                :: EvRevise user_prompt (FlowchartDraft.mermaid_code d)
                            (FlowchartCritique.revision_guidance c) (Return d')
                :: pre), e, x0.
        cbn. repeat split; assumption.
    + eexists [_]; do 2 eexists; cbn; repeat split; reflexivity.
    + last_call_raised (@nil event).
Qed.

(** What a result is made of: the request, the trimmed content of the
    draft held last, and the path written to when rendering was asked
    for, the one write being the last call. *)
Lemma loop_result n : forall d w r,
  result_of (loop n d w) = Return r ->
  let tr := events_of (loop n d w) in
  let code := FlowchartDraft.mermaid_code (current_draft d tr) in
  FlowchartResult.prompt r = user_prompt /\
  FlowchartResult.mermaid_code r = strip code /\
  exists pre,
    no_write pre = true /\
    if save_html
    then tr = (pre ++ [EvWrite (MkPath output_path) (render code) (Return tt)])%list
         /\ FlowchartResult.html_path r = Some (MkPath output_path)
    else tr = pre /\ FlowchartResult.html_path r = None.
Proof.
  subst loop. induction n as [|n IH]; intros d w r; cbv zeta.
  - rewrite run_loop_O. finalize_cases; cbn; intros [= <-]; cbn.
    + repeat split. now exists [].
    + repeat split. now exists [].
  - loop_cases c Hs d' w'; cbn; try discriminate.
    + intros [= <-]. cbn. repeat split.
      eexists [_]. split; [|split; reflexivity]. reflexivity.
    + intros [= <-]. cbn. repeat split.
      eexists. split; [|split; reflexivity]. reflexivity.
    + specialize (IH (normalized d') w' r). cbv zeta in IH.
      destruct (run_loop _ _ _ _ _ _ _ _) as [[r' w3] ev]; cbn in *.
      intros ->. specialize (IH eq_refl).
      destruct IH as (Hp & Hc & pre & Hpre & Hfin).
      assert (Hcur : current_draft d
               (EvCritique user_prompt (FlowchartDraft.mermaid_code d)
                           (FlowchartDraft.rationale d) (Return c)
                :: EvRevise user_prompt (FlowchartDraft.mermaid_code d)
                            (FlowchartCritique.revision_guidance c) (Return d')
                :: ev) = current_draft (normalized d') ev).
      { unfold current_draft. cbn [drafts List.map]. apply last_cons. }
      rewrite Hcur. repeat split; [exact Hp|exact Hc|].
      eexists (_ :: _ :: pre). split; cycle 1.
      * destruct save_html; destruct Hfin as [Heq Hh]; (split; [|exact Hh]);
          cbn [app]; do 2 f_equal; exact Heq.
      * cbn. exact Hpre.
Qed.

(** Without rendering nothing is written, whatever happens. *)
Lemma loop_no_render n : forall d w,
  save_html = false -> no_write (events_of (loop n d w)) = true.
Proof.
  subst loop. intros d w Hs. revert d w.
  induction n as [|n IH]; intros d w.
  - rewrite run_loop_O, _finalize_eq, Hs. reflexivity.
  - loop_cases c Hc d' w'; try reflexivity; try congruence.
    specialize (IH (normalized d') w').
    now destruct (run_loop _ _ _ _ _ _ _ _) as [[r w3] ev].
Qed.

(** When every call returns and no critique is satisfied, the loop uses
    all its iterations and returns a result. *)
Lemma loop_exhausted n : forall d w,
  let tr := events_of (loop n d w) in
  all_returned tr = true ->
  forallb unsatisfactory (critiques tr) = true ->
  count is_critique tr = n /\ count is_revise tr = n /\
  exists r, result_of (loop n d w) = Return r.
Proof.
  subst loop. induction n as [|n IH]; intros d w; cbv zeta.
  - rewrite run_loop_O. finalize_cases; cbn; try discriminate;
      intros _ _; repeat split; eauto.
  - loop_cases c Hs d' w'; cbn; try discriminate.
    + unfold unsatisfactory at 1. rewrite Hs. discriminate.
    + unfold unsatisfactory at 1. rewrite Hs. discriminate.
    + specialize (IH (normalized d') w'). cbv zeta in IH.
      destruct (run_loop _ _ _ _ _ _ _ _) as [[r w3] ev]; cbn in *.
      intros Hr Hu. apply andb_prop in Hu. destruct Hu as [_ Hu].
      destruct (IH Hr Hu) as (H1 & H2 & H3).
      unfold count in *. cbn. repeat split; auto.
Qed.

End LoopProperties.

(* ------------------------------------------------------------------ *)
(** ** [FlowchartAgent.run] *)

Section RunProperties.
Context {W : Type}.
Variable self : FlowchartAgent W.
Variables (user_prompt : string) (save_html : bool) (output_path : string)
          (cfg : option RunnableConfig).

Let the_run := run self user_prompt save_html output_path cfg.
Let N := max_iterations (config self).

Lemma run_counts w :
  let tr := events_of (the_run w) in
  (count is_critique tr <= Z.to_nat N)%nat /\
  (count is_revise tr <= count is_critique tr)%nat /\
  (count is_draft tr = 1)%nat /\
  (count is_write tr <= 1)%nat.
Proof.
  subst the_run N. cbv zeta. rewrite run_eq.
  generalize (Z.to_nat (max_iterations (config self))). intros n.
  destruct (draft_chain _ _ _ _) as [[d|x] w1].
  - pose proof (loop_counts self user_prompt save_html output_path cfg
                  n (normalized d) w1) as H.
    cbv beta zeta in H. revert H.
    destruct (run_loop _ _ _ _ _ _ _ _) as [[r w2] ev].
    unfold events_of, count. cbn. lia.
  - cbn. repeat split; lia.
Qed.

Lemma run_outcome w :
  match result_of (the_run w) with
  | Return _ => all_returned (events_of (the_run w)) = true
  | Raise x' =>
      exists pre e x0,
        events_of (the_run w) = (pre ++ [e])%list /\
        all_returned pre = true /\ no_write pre = true /\
        event_raised e = Some x0 /\ x' = raised_by e x0
  end.
Proof.
  subst the_run N. rewrite run_eq.
  destruct (draft_chain _ _ _ _) as [[d|x] w1].
  - pose proof (loop_outcome self user_prompt save_html output_path cfg
                  (Z.to_nat (max_iterations (config self)))
                  (normalized d) w1) as H.
    cbv beta zeta in H. revert H.
    destruct (run_loop _ _ _ _ _ _ _ _) as [[[r|x'] w2] ev]; cbn; intros H.
    + exact H.
    + destruct H as (pre & e & x0 & -> & H1 & H2 & H3 & H4).
      exists (EvDraft user_prompt (Return d) :: pre), e, x0.
      cbn. repeat split; assumption.
  - last_call_raised (@nil event).
Qed.

(** A result is made of the request and of the last draft the service
    returned, normalized and trimmed; the document is written last, from
    the same normalized content, only when rendering is asked for. *)
Lemma run_result w r :
  result_of (the_run w) = Return r ->
  let tr := events_of (the_run w) in
  exists ds d pre,
    drafts tr = (ds ++ [d])%list /\
    FlowchartResult.prompt r = user_prompt /\
    FlowchartResult.mermaid_code r
    = strip (_ensure_mermaid_header (FlowchartDraft.mermaid_code d)) /\
    no_write pre = true /\
    if save_html
    then tr = (pre ++ [EvWrite (MkPath output_path)
                         (render (_ensure_mermaid_header
                                    (FlowchartDraft.mermaid_code d)))
                         (Return tt)])%list
         /\ FlowchartResult.html_path r = Some (MkPath output_path)
    else tr = pre /\ FlowchartResult.html_path r = None.
Proof.
  subst the_run N. cbv zeta. rewrite run_eq.
  destruct (draft_chain _ _ _ _) as [[d0|x] w1]; [|discriminate].
  pose proof (loop_result self user_prompt save_html output_path cfg
                (Z.to_nat (max_iterations (config self)))
                (normalized d0) w1 r) as H.
  cbv beta zeta in H. revert H.
  destruct (run_loop _ _ _ _ _ _ _ _) as [[r' w2] ev]; cbn.
  intros H ->. specialize (H eq_refl).
  destruct H as (Hp & Hc & pre & Hpre & Hfin).
  destruct (@exists_last _ (d0 :: drafts ev)) as (ds & d & Hd);
    [discriminate|].
  assert (Hcur : current_draft (normalized d0) ev = normalized d).
  { unfold current_draft. rewrite <- (last_cons _ _ (normalized d0)).
    change (normalized d0 :: List.map normalized (drafts ev))
      with (List.map normalized (d0 :: drafts ev)).
    rewrite Hd, List.map_app. cbn [List.map]. apply List.last_last. }
  rewrite Hcur in *. cbn [normalized FlowchartDraft.mermaid_code] in *.
  exists ds, d, (EvDraft user_prompt (Return d0) :: pre).
  repeat split; try assumption.
  destruct save_html; destruct Hfin as [Heq Hh]; (split; [|exact Hh]);
    cbn [app]; f_equal; exact Heq.
Qed.

Lemma run_no_render w :
  save_html = false -> no_write (events_of (the_run w)) = true.
Proof.
  subst the_run N. intros Hs. rewrite run_eq.
  destruct (draft_chain _ _ _ _) as [[d0|x] w1]; [|reflexivity].
  pose proof (loop_no_render self user_prompt save_html output_path cfg
                (Z.to_nat (max_iterations (config self)))
                (normalized d0) w1 Hs) as H.
  cbv beta zeta in H. revert H. now destruct (run_loop _ _ _ _ _ _ _ _) as [[r' w2] ev].
Qed.

(** A call that raised is the last call of the run. *)
Lemma raised_is_last w e x :
  In e (events_of (the_run w)) -> event_raised e = Some x ->
  exists pre,
    events_of (the_run w) = (pre ++ [e])%list /\
    all_returned pre = true /\ no_write pre = true /\
    result_of (the_run w) = Raise (raised_by e x).
Proof.
  intros Hin Hx. pose proof (run_outcome w) as H.
  assert (Hnot : forall l, all_returned l = true -> ~ In e l).
  { intros l Hl Hi. unfold all_returned in Hl.
    rewrite forallb_forall in Hl. specialize (Hl e Hi).
    destruct e as [? []|? ? ? []|? ? ? []|? ? []]; cbn in *; congruence. }
  destruct (result_of (the_run w)) as [r|x'].
  - elim (Hnot _ H Hin).
  - destruct H as (pre & e' & x0 & Heq & H1 & H2 & H3 & H4).
    rewrite Heq in Hin. apply in_app_or in Hin.
    destruct Hin as [Hin|[<-|[]]]; [elim (Hnot _ H1 Hin)|].
    exists pre. rewrite Hx in H3. injection H3 as <-.
    repeat split; try assumption. now subst x'.
Qed.

End RunProperties.

(* ------------------------------------------------------------------ *)
(** ** The claims on [FlowchartAgent.run] *)

Example never_satisfied_one_iteration :
  Scripted.chain_run Scripted.never_satisfied 1 Scripted.expense_request =
  (Return (FlowchartResult.Build Scripted.expense_request
             ("flowchart TD" ++ nl ++ "A-->C") None),
   (2, 1)%nat,
   [EvDraft Scripted.expense_request
      (Return (FlowchartDraft.Build ("flowchart TD" ++ nl ++ "A-->B")
                                    "a single edge"));
    EvCritique Scripted.expense_request ("flowchart TD" ++ nl ++ "A-->B")
      "a single edge"
      (Return (FlowchartCritique.Build false "add the decision node"));
    EvRevise Scripted.expense_request ("flowchart TD" ++ nl ++ "A-->B")
      "add the decision node"
      (Return (FlowchartDraft.Build ("flowchart TD" ++ nl ++ "A-->C")
                                    "a single edge"))]).
Proof. reflexivity. Qed.

(** C1, as stated, fails: with [max_iterations = 1] and a first critique
    that is not satisfied, [run] calls the revision chain once, which is
    more than [N - 1 = 0] times. *)
Lemma revise_at_most_N_minus_1_counterexample :
  ~ (forall (self : FlowchartAgent Scripted.World) user_prompt w,
        let tr := events_of (run self user_prompt false "flowchart_output.html"
                                 None w) in
        (Z.of_nat (count is_revise tr) <= max_iterations (config self) - 1)%Z).
Proof.
  intros H.
  specialize (H (Scripted.agent Scripted.never_satisfied 1)
                Scripted.expense_request (O, O)).
  vm_compute in H. now apply H.
Qed.

(** C1, amended.  With [max_iterations = N >= 0], [run] calls the critique
    chain at most [N] times and the revision chain at most as often as the
    critique chain, so at most [N] times.  With [N = 1] and a first critique
    that is not satisfied, the revision chain is called once, and a result,
    when the run returns one, is made of the revised draft. *)
Theorem run_call_bounds :
  forall W (self : FlowchartAgent W) user_prompt save_html output_path cfg w,
    let x := run self user_prompt save_html output_path cfg w in
    let tr := events_of x in
    let N := max_iterations (config self) in
    ((0 <= N)%Z ->
     (Z.of_nat (count is_critique tr) <= N)%Z /\
     (Z.of_nat (count is_revise tr) <= N)%Z /\
     (count is_revise tr <= count is_critique tr)%nat) /\
    (N = 1%Z ->
     forall c rest,
       critiques tr = c :: rest ->
       FlowchartCritique.is_satisfactory c = false ->
       count is_critique tr = 1%nat /\ count is_revise tr = 1%nat /\
       forall r, result_of x = Return r ->
         exists d0 d1,
           drafts tr = [d0; d1] /\
           FlowchartResult.mermaid_code r
           = strip (_ensure_mermaid_header (FlowchartDraft.mermaid_code d1))).
Proof.
  intros W self user_prompt save_html output_path cfg w. cbv zeta. split.
  - intros HN.
    pose proof (run_counts self user_prompt save_html output_path cfg w) as H.
    cbv beta zeta in H. lia.
  - intros HN c rest. rewrite run_eq, HN. change (Z.to_nat 1) with 1%nat.
    destruct (draft_chain _ _ _ _) as [[d0|x0] w1]; [|discriminate].
    rewrite run_loop_S. cbv zeta.
    destruct (critique_chain _ _ _ _ _ _) as [[c'|x1] w2]; [|discriminate].
    destruct (FlowchartCritique.is_satisfactory c') eqn:Hs.
    + destruct (_finalize _ _ _ _ _ _) as [[r w3] ev]. cbn.
      intros [= <- _] Hc. congruence.
    + destruct (revision_chain _ _ _ _ _ _) as [[d1|x2] w3].
      * rewrite run_loop_O, _finalize_eq.
        destruct save_html;
          [destruct (write_text _ _ _ _) as [[[]|x3] w4]|];
          cbn; intros _ _; repeat split; intros r [= <-];
          exists d0, d1; split; reflexivity.
      * cbn. intros _ _. repeat split. discriminate.
Qed.

Lemma run_call_bounds_witness :
  let x := Scripted.chain_run Scripted.never_satisfied 1
             Scripted.expense_request in
  (Z.of_nat (count is_critique (events_of x)) <= 1)%Z /\
  (Z.of_nat (count is_revise (events_of x)) <= 1)%Z /\
  count is_revise (events_of x) = 1%nat /\
  exists d0 d1,
    drafts (events_of x) = [d0; d1] /\
    "flowchart TD" ++ nl ++ "A-->C"
    = strip (_ensure_mermaid_header (FlowchartDraft.mermaid_code d1)).
Proof.
  cbv zeta.
  pose proof (run_call_bounds _ (Scripted.agent Scripted.never_satisfied 1)
                Scripted.expense_request false "flowchart_output.html"
                None (O, O)) as [Hb Hone].
  destruct (Hb ltac:(cbn; lia)) as (H1 & H2 & _).
  destruct (Hone eq_refl (FlowchartCritique.Build false "add the decision node")
                 [] eq_refl eq_refl) as (_ & H3 & H4).
  destruct (H4 _ eq_refl) as (d0 & d1 & Hd & Hr).
  split; [exact H1|]. split; [exact H2|]. split; [exact H3|].
  exists d0, d1. split; [exact Hd|exact Hr].
Defined.

(** C2.  With [max_iterations = N], when every call returns and every
    critique returned is unsatisfactory, [run] returns (it is a total
    function) after exactly [N] critique calls, and its result is made of
    the request and of the last draft produced, normalized and trimmed. *)
Theorem run_budget_exhausted :
  forall W (self : FlowchartAgent W) user_prompt save_html output_path cfg w,
    let x := run self user_prompt save_html output_path cfg w in
    let tr := events_of x in
    let N := max_iterations (config self) in
    (0 <= N)%Z ->
    all_returned tr = true ->
    forallb unsatisfactory (critiques tr) = true ->
    Z.of_nat (count is_critique tr) = N /\
    exists r ds d,
      result_of x = Return r /\
      drafts tr = (ds ++ [d])%list /\
      FlowchartResult.prompt r = user_prompt /\
      FlowchartResult.mermaid_code r
      = strip (_ensure_mermaid_header (FlowchartDraft.mermaid_code d)).
Proof.
  intros W self user_prompt save_html output_path cfg w. cbv zeta.
  intros HN Hret Hun.
  assert (Hloop : Z.of_nat (count is_critique
                    (events_of (run self user_prompt save_html output_path cfg w)))
                  = max_iterations (config self) /\
                  exists r, result_of (run self user_prompt save_html
                                           output_path cfg w) = Return r).
  { revert Hret Hun. rewrite run_eq.
    destruct (draft_chain _ _ _ _) as [[d0|x0] w1]; [|discriminate].
    pose proof (loop_exhausted self user_prompt save_html output_path cfg
                  (Z.to_nat (max_iterations (config self)))
                  (normalized d0) w1) as H.
    cbv beta zeta in H. revert H.
    destruct (run_loop _ _ _ _ _ _ _ _) as [[r w2] ev]. cbn.
    intros H Hret Hun. destruct (H Hret Hun) as (Hc & _ & Hr).
    split; [|exact Hr]. unfold count in *. cbn. lia. }
  destruct Hloop as [Hc [r Hr]]. split; [exact Hc|].
  destruct (run_result self user_prompt save_html output_path cfg w r Hr)
    as (ds & d & pre & Hd & Hp & Hm & _).
  exists r, ds, d. repeat split; assumption.
Qed.

Lemma run_budget_exhausted_witness :
  let x := Scripted.chain_run Scripted.never_satisfied 3
             Scripted.expense_request in
  Z.of_nat (count is_critique (events_of x)) = 3%Z /\
  exists r ds d,
    result_of x = Return r /\
    drafts (events_of x) = (ds ++ [d])%list /\
    FlowchartResult.prompt r = Scripted.expense_request /\
    FlowchartResult.mermaid_code r
    = strip (_ensure_mermaid_header (FlowchartDraft.mermaid_code d)).
Proof.
  exact (run_budget_exhausted _ (Scripted.agent Scripted.never_satisfied 3)
           Scripted.expense_request false "flowchart_output.html" None (O, O)
           ltac:(cbn; lia) eq_refl eq_refl).
Defined.

(** C4.  When the first critique returned is satisfactory, the run has made
    exactly one draft call and one critique call and no revision call, and
    its result, which only a failing write can prevent, holds the first
    draft's content, normalized and trimmed. *)
Theorem first_critique_satisfactory :
  forall W (self : FlowchartAgent W) user_prompt save_html output_path cfg w,
    let x := run self user_prompt save_html output_path cfg w in
    let tr := events_of x in
    forall c rest,
      critiques tr = c :: rest ->
      FlowchartCritique.is_satisfactory c = true ->
      count is_draft tr = 1%nat /\
      count is_critique tr = 1%nat /\
      count is_revise tr = 0%nat /\
      exists d,
        drafts tr = [d] /\
        (forall r, result_of x = Return r ->
           FlowchartResult.mermaid_code r
           = strip (_ensure_mermaid_header (FlowchartDraft.mermaid_code d))) /\
        (all_returned tr = true -> exists r, result_of x = Return r).
Proof.
  intros W self user_prompt save_html output_path cfg w. cbv zeta.
  intros c rest. rewrite run_eq.
  destruct (draft_chain _ _ _ _) as [[d0|x0] w1]; [|discriminate].
  destruct (Z.to_nat (max_iterations (config self))) as [|n].
  - rewrite run_loop_O, _finalize_eq.
    destruct save_html;
      [destruct (write_text _ _ _ _) as [[[]|x3] w4]|]; discriminate.
  - rewrite run_loop_S. cbv zeta.
    destruct (critique_chain _ _ _ _ _ _) as [[c'|x1] w2]; [|discriminate].
    destruct (FlowchartCritique.is_satisfactory c') eqn:Hs.
    + rewrite _finalize_eq.
      destruct save_html;
        [destruct (write_text _ _ _ _) as [[[]|x3] w4]|];
        cbn; intros _ _; repeat split; exists d0;
        (split; [reflexivity|]);
        (split; [intros r [= <-]; reflexivity
                |intros Hr; try discriminate; eauto]).
    + destruct (revision_chain _ _ _ _ _ _) as [[d1|x2] w3].
      * destruct (run_loop _ _ _ _ _ _ _ _) as [[r w4] ev]. cbn.
        intros [= <- _] Hc. congruence.
      * cbn. intros [= <- _] Hc. congruence.
Qed.

Lemma first_critique_satisfactory_witness :
  let x := Scripted.chain_run Scripted.satisfied_at_once 3
             Scripted.expense_request in
  count is_draft (events_of x) = 1%nat /\
  count is_critique (events_of x) = 1%nat /\
  count is_revise (events_of x) = 0%nat /\
  exists d,
    drafts (events_of x) = [d] /\
    (forall r, result_of x = Return r ->
       FlowchartResult.mermaid_code r
       = strip (_ensure_mermaid_header (FlowchartDraft.mermaid_code d))) /\
    (all_returned (events_of x) = true -> exists r, result_of x = Return r).
Proof.
  exact (first_critique_satisfactory _
           (Scripted.agent Scripted.satisfied_at_once 3)
           Scripted.expense_request false "flowchart_output.html" None (O, O)
           (FlowchartCritique.Build true "ready") [] eq_refl eq_refl).
Defined.

Example scenario_A :
  result_of (Scripted.chain_run Scripted.satisfied_at_once 3
               Scripted.expense_request)
  = Return (FlowchartResult.Build Scripted.expense_request
              ("flowchart TD" ++ nl ++ "A-->B") None).
Proof. reflexivity. Qed.

(** C5.  The content of a result is not empty, begins with the keyword
    flowchart (case ignored), and is the normalized and trimmed content of a
    draft that the completion service returned during the run. *)
Theorem result_content_normalized :
  forall W (self : FlowchartAgent W) user_prompt save_html output_path cfg w r,
    let x := run self user_prompt save_html output_path cfg w in
    result_of x = Return r ->
    FlowchartResult.mermaid_code r <> EmptyString /\
    begins_caseless "flowchart" (FlowchartResult.mermaid_code r) /\
    exists d,
      In d (drafts (events_of x)) /\
      FlowchartResult.mermaid_code r
      = strip (_ensure_mermaid_header (FlowchartDraft.mermaid_code d)).
Proof.
  intros W self user_prompt save_html output_path cfg w r. cbv zeta. intros Hr.
  destruct (run_result self user_prompt save_html output_path cfg w r Hr)
    as (ds & d & pre & Hd & _ & Hm & _).
  assert (Hb : begins_caseless "flowchart" (FlowchartResult.mermaid_code r))
    by (rewrite Hm; apply strip_ensure_header_begins).
  split; [exact (begins_caseless_nonempty _ _ _ Hb)|].
  split; [exact Hb|].
  exists d. split; [|exact Hm].
  rewrite Hd. apply in_or_app. right. now left.
Qed.

Lemma result_content_normalized_witness :
  FlowchartResult.mermaid_code
    (FlowchartResult.Build Scripted.expense_request
       ("flowchart TD" ++ nl ++ "A-->B") None) <> EmptyString /\
  begins_caseless "flowchart" ("flowchart TD" ++ nl ++ "A-->B").
Proof.
  destruct (result_content_normalized _
              (Scripted.agent Scripted.satisfied_at_once 3)
              Scripted.expense_request false "flowchart_output.html" None
              (O, O) _ eq_refl) as (H1 & H2 & _).
  split; [exact H1|exact H2].
Defined.

(** What the [except ValidationError] clauses do with a [ValidationError]
    that leaves a chain: [run] raises at once the [ValueError] of that
    phase ("Draft generation failed: ", "Critique parsing failed: " or
    "Revision parsing failed: " followed by the error's text) with the
    error as its cause: the failed call is the last call of the run and
    the only one that raised, there is no result, and nothing was
    written. *)
Theorem schema_failure_is_fatal :
  forall W (self : FlowchartAgent W) user_prompt save_html output_path cfg w
         e detail,
    let x := run self user_prompt save_html output_path cfg w in
    In e (events_of x) ->
    is_write e = false ->
    event_raised e = Some (ValidationError detail) ->
    result_of x
    = Raise (ValueError (phase_label e ++ detail) (ValidationError detail)) /\
    (exists pre, events_of x = (pre ++ [e])%list /\ all_returned pre = true) /\
    count is_write (events_of x) = 0%nat.
Proof.
  intros W self user_prompt save_html output_path cfg w e detail. cbv zeta.
  intros Hin Hw Hx.
  destruct (raised_is_last self user_prompt save_html output_path cfg w e _
              Hin Hx) as (pre & Heq & H1 & H2 & H3).
  split; [|split].
  - rewrite H3. unfold raised_by. rewrite Hw. reflexivity.
  - now exists pre.
  - rewrite Heq. unfold count. rewrite List.filter_app. cbn. rewrite Hw.
    rewrite List.length_app. cbn.
    assert (Hnone : List.filter is_write pre = []).
    { clear - H2. induction pre as [|a pre IH]; [reflexivity|].
      cbn in *. apply andb_prop in H2. destruct H2 as [Ha Hp].
      destruct (is_write a); [discriminate|now apply IH]. }
    now rewrite Hnone.
Qed.

Lemma schema_failure_is_fatal_witness :
  let self := Scripted.draft_raises Scripted.never_satisfied
                (ValidationError "mermaid_code: field required") in
  let x := run self Scripted.expense_request true "flowchart_output.html"
               None (O, O) in
  result_of x
  = Raise (ValueError "Draft generation failed: mermaid_code: field required"
             (ValidationError "mermaid_code: field required")) /\
  count is_write (events_of x) = 0%nat.
Proof.
  cbv zeta.
  destruct (schema_failure_is_fatal _
              (Scripted.draft_raises Scripted.never_satisfied
                 (ValidationError "mermaid_code: field required"))
              Scripted.expense_request true "flowchart_output.html" None (O, O)
              (EvDraft Scripted.expense_request
                 (Raise (ValidationError "mermaid_code: field required")))
              "mermaid_code: field required"
              (or_introl eq_refl) eq_refl eq_refl) as (H1 & _ & H3).
  split; [exact H1|exact H3].
Defined.

Example revision_failure :
  let self := Scripted.revision_raises Scripted.never_satisfied
                (ValidationError "rationale: field required") in
  let x := run self Scripted.expense_request true "flowchart_output.html"
               None (O, O) in
  result_of x
  = Raise (ValueError "Revision parsing failed: rationale: field required"
             (ValidationError "rationale: field required")) /\
  List.map event_returned (events_of x) = [true; true; false].
Proof. split; reflexivity. Qed.

(* ------------------------------------------------------------------ *)
(** ** Schema violations under the chains of [__init__] *)

Section ChainFailures.
Context {W : Type}.
Variable self : FlowchartAgent W.
Variable P : exn -> Prop.

Hypothesis draft_fails : forall user_prompt cfg w e w',
  draft_chain (collab self) user_prompt cfg w = (Raise e, w') -> P e.
Hypothesis critique_fails : forall user_prompt code rat cfg w e w',
  critique_chain (collab self) user_prompt code rat cfg w = (Raise e, w') ->
  P e.
Hypothesis revision_fails : forall user_prompt code guidance cfg w e w',
  revision_chain (collab self) user_prompt code guidance cfg w = (Raise e, w') ->
  P e.

Variables (user_prompt : string) (save_html : bool) (output_path : string)
          (cfg : option RunnableConfig).

(** What holds of every exception a chain can raise holds of the
    exception of every chain call of the loop. *)
Lemma loop_chain_failures n : forall d w e exc,
  In e (events_of (run_loop self n user_prompt save_html output_path cfg d w)) ->
  is_write e = false -> event_raised e = Some exc -> P exc.
Proof.
  induction n as [|n IH]; intros d w e exc.
  - rewrite run_loop_O. finalize_cases; cbn;
      try (intros [<-|[]] Hw Hx; cbn in *; discriminate).
    intros [].
  - loop_cases c Hs d' w'; cbn.
    all: try (intros [<-|[<-|[]]] Hw Hx; cbn in *; try discriminate).
    all: try (intros [<-|[]] Hw Hx; cbn in *; try discriminate).
    all: try (injection Hx as <-).
    all: try (eapply revision_fails; eassumption).
    all: try (eapply critique_fails; eassumption).
    specialize (IH (normalized d') w' e exc). revert IH.
    destruct (run_loop _ _ _ _ _ _ _ _) as [[r w3] ev]. cbn.
    intros IH [<-|[<-|Hin]] Hw Hx; cbn in *; try discriminate.
    now apply IH.
Qed.

Lemma run_chain_failures w e exc :
  In e (events_of (run self user_prompt save_html output_path cfg w)) ->
  is_write e = false -> event_raised e = Some exc -> P exc.
Proof.
  rewrite run_eq.
  destruct (draft_chain _ _ _ _) as [[d|x] w1] eqn:Hd.
  - pose proof (loop_chain_failures
                  (Z.to_nat (max_iterations (config self)))
                  (normalized d) w1 e exc) as H.
    revert H. destruct (run_loop _ _ _ _ _ _ _ _) as [[r w2] ev]. cbn.
    intros H [<-|Hin] Hw Hx; cbn in *; try discriminate. now apply H.
  - cbn. intros [<-|[]] _ [= <-]. eapply draft_fails, Hd.
Qed.

End ChainFailures.

(** The parser stage raises what the completion raised, or one of its own
    [OutputParserException]s, never a [ValidationError] of its own. *)
Lemma parser_chain_failure {W T} name (check : string -> Parser.checked T)
      (completion : W -> outcome string * W) w e w' :
  Parser.chain name check completion w = (Raise e, w') ->
  completion w = (Raise e, w') \/
  exists message, e = OtherError "OutputParserException" message.
Proof.
  unfold Parser.chain, Parser.parse_result.
  destruct (completion w) as [[text|x] w1].
  - destruct (check text) as [obj|json detail|message]; intros [= <- <-];
      right; eexists; reflexivity.
  - intros [= <- <-]. now left.
Qed.

(** On a completion that violates the schema, the chain raises the
    parser's exception. *)
Lemma parser_chain_violation {W T} name (check : string -> Parser.checked T)
      (completion : W -> outcome string * W) w text w' json detail :
  completion w = (Return text, w') ->
  check text = Parser.Violates json detail ->
  Parser.chain name check completion w
  = (Raise (Parser.parser_exception name json (ValidationError detail)), w').
Proof.
  intros Hc Hv. unfold Parser.chain, Parser.parse_result.
  now rewrite Hc, Hv.
Qed.

(** C6.  The claim fails on the chains that [FlowchartAgent.__init__]
    builds, each of which ends in a [PydanticOutputParser].  With
    [x] a run of an agent on such chains:
    - when the first completion violates the [FlowchartDraft] schema, the
      draft chain raises the parser's [OutputParserException], and [run]
      raises that exception as it is after this one call: there is no
      [ValueError] labelled "Draft generation failed: ";
    - the same holds in every phase: a chain call of the run that raised
      the parser's exception for a schema violation is the last call, it
      came after calls that returned, nothing was written, and [run]
      raises the exception unchanged, not the labelled [ValueError] of
      the phase;
    - when the prompt and the chat model raise no [ValidationError] of
      their own, no chain call of any run raises one, so that no [except
      ValidationError] clause of [_draft], [_critique] or [_revise] is
      ever entered. *)
Theorem schema_violation_not_labelled :
  forall W (s : Parser.Services W) config user_prompt save_html output_path
         cfg w,
    let x := run (Parser.agent config s) user_prompt save_html output_path
                 cfg w in
    (forall text w' json detail,
        Parser.draft_completion s user_prompt cfg w = (Return text, w') ->
        Parser.check_draft s text = Parser.Violates json detail ->
        let exc := Parser.parser_exception "FlowchartDraft" json
                     (ValidationError detail) in
        result_of x = Raise exc /\
        events_of x = [EvDraft user_prompt (Raise exc)] /\
        result_of x
        <> Raise (ValueError ("Draft generation failed: " ++ detail)
                             (ValidationError detail))) /\
    (forall e name json detail,
        let exc := Parser.parser_exception name json
                     (ValidationError detail) in
        In e (events_of x) ->
        is_write e = false ->
        event_raised e = Some exc ->
        result_of x = Raise exc /\
        result_of x
        <> Raise (ValueError (phase_label e ++ detail)
                             (ValidationError detail)) /\
        (exists pre,
            events_of x = (pre ++ [e])%list /\
            all_returned pre = true /\ no_write pre = true)) /\
    (Parser.quiet s ->
     forall e exc,
       In e (events_of x) -> is_write e = false ->
       event_raised e = Some exc ->
       is_ValidationError exc = false /\ result_of x = Raise exc).
Proof.
  intros W s config user_prompt save_html output_path cfg w. cbv zeta.
  split; [|split].
  - intros text w' json detail Hc Hv.
    rewrite run_eq.
    cbn [Parser.agent collab Parser.chains draft_chain].
    rewrite (parser_chain_violation _ _ _ _ _ _ _ _ Hc Hv).
    cbn. repeat split. intros H. discriminate H.
  - intros e name json detail Hin Hw Hx.
    destruct (raised_is_last (Parser.agent config s) user_prompt save_html
                output_path cfg w e _ Hin Hx) as (pre & Heq & H1 & H2 & H3).
    assert (Hr : result_of (run (Parser.agent config s) user_prompt save_html
                              output_path cfg w)
                 = Raise (Parser.parser_exception name json
                            (ValidationError detail))).
    { rewrite H3. unfold raised_by. rewrite Hw. reflexivity. }
    split; [exact Hr|]. split.
    + rewrite Hr. intros H. discriminate H.
    + exists pre. repeat split; assumption.
  - intros (Hqd & Hqc & Hqr) e exc Hin Hw Hx.
    assert (Hv : is_ValidationError exc = false).
    { apply (run_chain_failures (Parser.agent config s)
               (fun exc => is_ValidationError exc = false))
        with (user_prompt := user_prompt) (save_html := save_html)
             (output_path := output_path) (cfg := cfg) (w := w) (e := e);
        try assumption.
      - intros p c0 w0 e0 w1 H. apply parser_chain_failure in H.
        destruct H as [H|[m ->]]; [exact (Hqd _ _ _ _ _ H)|reflexivity].
      - intros p code rat c0 w0 e0 w1 H. apply parser_chain_failure in H.
        destruct H as [H|[m ->]]; [exact (Hqc _ _ _ _ _ _ _ H)|reflexivity].
      - intros p code g c0 w0 e0 w1 H. apply parser_chain_failure in H.
        destruct H as [H|[m ->]]; [exact (Hqr _ _ _ _ _ _ _ H)|reflexivity]. }
    split; [exact Hv|].
    destruct (raised_is_last (Parser.agent config s) user_prompt save_html
                output_path cfg w e _ Hin Hx) as (pre & Heq & H1 & H2 & H3).
    rewrite H3. unfold raised_by, wrap_failure. now rewrite Hw, Hv.
Qed.

Lemma schema_violation_not_labelled_witness :
  let x := run (Parser.agent default_config Samples.empty_object)
               Scripted.expense_request true "flowchart_output.html"
               None O in
  let exc := OtherError "OutputParserException"
               ("Failed to parse FlowchartDraft from completion {}. "
                ++ "Got: 2 validation errors for FlowchartDraft") in
  Parser.quiet Samples.empty_object /\
  result_of x = Raise exc /\
  events_of x = [EvDraft Scripted.expense_request (Raise exc)] /\
  result_of x
  <> Raise (ValueError
              "Draft generation failed: 2 validation errors for FlowchartDraft"
              (ValidationError "2 validation errors for FlowchartDraft")) /\
  is_ValidationError exc = false.
Proof.
  cbv zeta.
  assert (Hq : Parser.quiet Samples.empty_object)
    by (repeat split; intros; discriminate).
  destruct (schema_violation_not_labelled _ Samples.empty_object
              default_config Scripted.expense_request true
              "flowchart_output.html" None O) as (H1 & H2 & H3).
  destruct (H1 "{}" 1%nat "{}" "2 validation errors for FlowchartDraft"
               eq_refl eq_refl) as (Hr & He & Hn).
  split; [exact Hq|]. split; [exact Hr|]. split; [exact He|].
  split; [exact Hn|].
  exact (proj1 (H3 Hq _ _ (or_introl eq_refl) eq_refl eq_refl)).
Defined.

(** A critique that violates its schema, after a draft that conforms:
    [run] ends with the parser's exception, not with "Critique parsing
    failed: ". *)
Example critique_violation :
  let x := run (Parser.agent default_config Samples.critique_violates)
               Scripted.expense_request true "flowchart_output.html"
               None O in
  result_of x
  = Raise (OtherError "OutputParserException"
             ("Failed to parse FlowchartCritique from completion {}. "
              ++ "Got: 2 validation errors for FlowchartCritique")) /\
  List.map event_returned (events_of x) = [true; false] /\
  count is_write (events_of x) = 0%nat.
Proof. repeat split; reflexivity. Qed.

(** C10.  An exception of a chain that is not a [ValidationError] leaves
    [run] as it is, with no phase label: the call that raised it is the
    last call of the run and [run] raises the same exception.  Only a
    [ValidationError] of a chain is replaced by the labelled [ValueError]. *)
Theorem other_exceptions_propagate :
  forall W (self : FlowchartAgent W) user_prompt save_html output_path cfg w
         e exc,
    let x := run self user_prompt save_html output_path cfg w in
    In e (events_of x) ->
    event_raised e = Some exc ->
    (is_ValidationError exc = false ->
     result_of x = Raise exc /\
     exists pre, events_of x = (pre ++ [e])%list) /\
    (is_ValidationError exc = true -> is_write e = false ->
     result_of x = Raise (ValueError (phase_label e ++ str_exn exc) exc)).
Proof.
  intros W self user_prompt save_html output_path cfg w e exc. cbv zeta.
  intros Hin Hx.
  destruct (raised_is_last self user_prompt save_html output_path cfg w e _
              Hin Hx) as (pre & Heq & H1 & H2 & H3).
  split.
  - intros Hv. split; [|now exists pre].
    rewrite H3. unfold raised_by, wrap_failure. rewrite Hv.
    now destruct (is_write e).
  - intros Hv Hw. rewrite H3. unfold raised_by, wrap_failure.
    now rewrite Hv, Hw.
Qed.

Lemma other_exceptions_propagate_witness :
  let exc := OtherError "APIConnectionError" "Connection error." in
  let self := Scripted.revision_raises Scripted.never_satisfied exc in
  let x := run self Scripted.expense_request true "flowchart_output.html"
               None (O, O) in
  result_of x = Raise exc.
Proof.
  cbv zeta.
  exact (proj1
           (proj1
              (other_exceptions_propagate _
                 (Scripted.revision_raises Scripted.never_satisfied
                    (OtherError "APIConnectionError" "Connection error."))
                 Scripted.expense_request true "flowchart_output.html" None
                 (O, O)
                 (EvRevise Scripted.expense_request
                    ("flowchart TD" ++ nl ++ "A-->B") "add the decision node"
                    (Raise (OtherError "APIConnectionError" "Connection error.")))
                 _ (or_intror (or_intror (or_introl eq_refl))) eq_refl)
              eq_refl)).
Defined.

(* ------------------------------------------------------------------ *)
(** ** The presenter *)

Section Presenter.

Lemma contains_app c s t :
  contains c (s ++ t) = contains c s || contains c t.
Proof.
  induction s as [|a s IH]; [reflexivity|].
  cbn. now destruct (Ascii.eqb a c).
Qed.

(** Escaped text holds none of the characters that open or close markup
    or an attribute value. *)
Lemma escape_markup_free s :
  contains "<" (escape s) = false /\ contains ">" (escape s) = false /\
  contains "034" (escape s) = false /\ contains "'" (escape s) = false.
Proof.
  induction s as [|a s (IH1 & IH2 & IH3 & IH4)]; [now cbn|].
  cbn [escape]. rewrite !contains_app, IH1, IH2, IH3, IH4, !orb_false_r.
  unfold escape_char.
  repeat match goal with
         | |- context [if Ascii.eqb ?x ?y then _ else _] =>
             destruct (Ascii.eqb x y) eqn:?
         end; cbn; repeat split;
    repeat match goal with
           | H : Ascii.eqb _ _ = false |- _ => rewrite H
           end; reflexivity.
Qed.

(** The document: the page up to the opening of the [mermaid] block, the
    escaped content, the end of the block and the opening of the source
    listing, the escaped content again, and the end of the page. *)
Lemma render_layout code :
  render code
  = template_head ++ escape code ++ template_middle ++ escape code
    ++ template_tail
  /\ (exists page, template_head
                   = "<!DOCTYPE html>" ++ page
                     ++ "<div class=" ++ dq ++ "mermaid" ++ dq ++ ">" ++ nl)
  /\ (exists rest, template_middle
                   = nl ++ "      </div>" ++ rest ++ "<pre><code>")
  /\ (exists rest, template_tail = "</code></pre>" ++ rest ++ "</html>").
Proof.
  split; [reflexivity|]. split; [|split].
  - exists (slice 15 (String.length template_head - 22) template_head).
    vm_compute. reflexivity.
  - exists (slice 13 (String.length template_middle - 11) template_middle).
    vm_compute. reflexivity.
  - exists (slice 13 (String.length template_tail - 7) template_tail).
    vm_compute. reflexivity.
Qed.

End Presenter.

(** *** What escaping keeps of a text *)

Section Escaping.

Lemma length_append a b :
  String.length (a ++ b) = (String.length a + String.length b)%nat.
Proof. induction a as [|c a IH]; cbn; [reflexivity|now rewrite IH]. Qed.

Lemma append_cancel_head a x y : a ++ x = a ++ y -> x = y.
Proof.
  induction a as [|c a IH]; cbn; [trivial|]. intros [= H]. now apply IH.
Qed.

(** Two texts of the same length at the head of equal texts are equal. *)
Lemma append_same_length a b x y :
  a ++ x = b ++ y -> String.length a = String.length b -> a = b /\ x = y.
Proof.
  revert b. induction a as [|c a IH]; intros [|d b]; cbn; try discriminate.
  - now intros -> _.
  - intros [= -> H] [= Hl]. destruct (IH b H Hl) as [-> ->]. now split.
Qed.

(** What stands for a character tells which character it was, whatever
    follows. *)
Lemma escape_char_cancel a b r r' :
  escape_char a ++ r = escape_char b ++ r' -> a = b /\ r = r'.
Proof.
  unfold escape_char.
  repeat match goal with
         | |- context [Ascii.eqb ?x ?y] => destruct (Ascii.eqb x y) eqn:?
         end;
    repeat match goal with
           | E : Ascii.eqb _ _ = true |- _ => apply Ascii.eqb_eq in E
           | E : Ascii.eqb _ _ = false |- _ => apply Ascii.eqb_neq in E
           end;
    cbn; intros H; split; congruence.
Qed.

Lemma escape_char_nonempty c r : escape_char c ++ r <> EmptyString.
Proof.
  unfold escape_char.
  repeat match goal with
         | |- context [Ascii.eqb ?x ?y] => destruct (Ascii.eqb x y)
         end; discriminate.
Qed.

Lemma escape_injective s1 : forall s2, escape s1 = escape s2 -> s1 = s2.
Proof.
  induction s1 as [|a s1 IH]; intros [|b s2]; cbn [escape]; intros H.
  - reflexivity.
  - symmetry in H. now apply escape_char_nonempty in H.
  - now apply escape_char_nonempty in H.
  - apply escape_char_cancel in H. destruct H as [-> H]. f_equal. now apply IH.
Qed.

Lemma escape_length s : (String.length s <= String.length (escape s))%nat.
Proof.
  induction s as [|c s IH]; [reflexivity|].
  cbn [escape]. rewrite length_append. cbn [String.length].
  assert (1 <= String.length (escape_char c))%nat.
  { unfold escape_char.
    repeat match goal with
           | |- context [Ascii.eqb ?x ?y] => destruct (Ascii.eqb x y)
           end; cbn; lia. }
  lia.
Qed.

Lemma render_injective c1 c2 : render c1 = render c2 -> c1 = c2.
Proof.
  unfold render. intros H.
  assert (Hl : String.length (escape c1) = String.length (escape c2)).
  { apply (f_equal String.length) in H. rewrite !length_append in H. lia. }
  apply append_cancel_head in H.
  apply append_same_length in H; [|exact Hl].
  apply escape_injective. exact (proj1 H).
Qed.

(** On a character that is none of the five, [escape_char] changes
    nothing; on each of the five it gives a text that begins with an
    ampersand and is longer than one character. *)
Lemma escape_char_cases c :
  (Html.plain (String c EmptyString) = true /\
   escape_char c = String c EmptyString) \/
  (Html.plain (String c EmptyString) = false /\
   exists t, escape_char c = String "&" t /\ (3 <= String.length t)%nat).
Proof.
  unfold Html.plain, escape_char. cbn [contains].
  destruct (Ascii.eqb c "&"); [right; split; [reflexivity|]; eexists; split; [reflexivity|cbn; lia]|].
  destruct (Ascii.eqb c "<"); [right; split; [reflexivity|]; eexists; split; [reflexivity|cbn; lia]|].
  destruct (Ascii.eqb c ">"); [right; split; [reflexivity|]; eexists; split; [reflexivity|cbn; lia]|].
  destruct (Ascii.eqb c "'"); [right; split; [reflexivity|]; eexists; split; [reflexivity|cbn; lia]|].
  destruct (Ascii.eqb c "034"); [right; split; [reflexivity|]; eexists; split; [reflexivity|cbn; lia]|].
  left. now split.
Qed.

Lemma plain_cons c s :
  Html.plain (String c s)
  = Html.plain (String c EmptyString) && Html.plain s.
Proof.
  unfold Html.plain. cbn [contains].
  destruct (Ascii.eqb c "&"), (Ascii.eqb c "<"), (Ascii.eqb c ">"),
    (Ascii.eqb c "'"), (Ascii.eqb c "034"); cbn;
    rewrite ?orb_true_r; reflexivity.
Qed.

Lemma escape_plain s : escape s = s <-> Html.plain s = true.
Proof.
  induction s as [|c s IH]; [now split|].
  rewrite plain_cons. cbn [escape].
  destruct (escape_char_cases c) as [[-> ->]|[-> (t & -> & Ht)]]; cbn.
  - rewrite <- IH. split; [now intros [= H]|now intros ->].
  - split; [|discriminate]. intros [= _ H]. exfalso.
    apply (f_equal String.length) in H. rewrite length_append in H.
    pose proof (escape_length s). lia.
Qed.

End Escaping.

Lemma no_write_count tr : no_write tr = true -> count is_write tr = 0%nat.
Proof.
  unfold no_write, count. induction tr as [|a tr IH]; [reflexivity|].
  cbn. intros H. apply andb_prop in H. destruct H as [Ha Htr].
  destruct (is_write a); [discriminate|now apply IH].
Qed.

(** C8.  The presenter is called only when rendering is asked for.  With
    [save_html] false no run writes anything and a result has no
    [html_path].  With [save_html] true a run that returns a result has
    called [write_text] once, as its last call, on [Path(output_path)] with
    the document rendered from the normalized content, and the result
    carries that path.  The document holds the content twice, escaped, first
    inside the [mermaid] block that the page's script interprets, then
    inside the source listing.  The escaped text holds no markup, it is the
    content itself when the content has none of the five characters that
    are escaped, and it tells the content: no other content has the same
    escaped text or the same document. *)
Theorem presenter_only_when_rendering :
  forall W (self : FlowchartAgent W) user_prompt save_html output_path cfg w,
    let x := run self user_prompt save_html output_path cfg w in
    let tr := events_of x in
    (save_html = false ->
     count is_write tr = 0%nat /\
     forall r, result_of x = Return r -> FlowchartResult.html_path r = None) /\
    (save_html = true ->
     forall r, result_of x = Return r ->
       exists pre code,
         tr = (pre ++ [EvWrite (MkPath output_path) (render code) (Return tt)])%list
         /\ count is_write pre = 0%nat
         /\ FlowchartResult.html_path r = Some (MkPath output_path)
         /\ FlowchartResult.mermaid_code r = strip code) /\
    (forall code,
        render code
        = template_head ++ escape code ++ template_middle ++ escape code
          ++ template_tail
        /\ (exists page, template_head
                         = "<!DOCTYPE html>" ++ page
                           ++ "<div class=" ++ dq ++ "mermaid" ++ dq ++ ">" ++ nl)
        /\ (exists rest, template_middle
                         = nl ++ "      </div>" ++ rest ++ "<pre><code>")
        /\ (exists rest, template_tail = "</code></pre>" ++ rest ++ "</html>")
        /\ contains "<" (escape code) = false
        /\ contains ">" (escape code) = false
        /\ (Html.plain code = true -> escape code = code)
        /\ (forall other, escape other = escape code -> other = code)
        /\ (forall other, render other = render code -> other = code)).
Proof.
  intros W self user_prompt save_html output_path cfg w. cbv zeta.
  split; [|split].
  - intros Hs. split.
    + apply no_write_count.
      now apply (run_no_render self user_prompt save_html output_path cfg w).
    + intros r Hr. subst save_html.
      destruct (run_result self user_prompt false output_path cfg w r Hr)
        as (ds & d & pre & _ & _ & _ & _ & Hfin).
      cbv beta iota zeta in Hfin. now destruct Hfin.
  - intros Hs r Hr. subst save_html.
    destruct (run_result self user_prompt true output_path cfg w r Hr)
      as (ds & d & pre & _ & _ & Hm & Hpre & Hfin).
    cbv beta iota zeta in Hfin. destruct Hfin as [Htr Hh].
    exists pre, (_ensure_mermaid_header (FlowchartDraft.mermaid_code d)).
    repeat split; try assumption. now apply no_write_count.
  - intros code.
    destruct (render_layout code) as (H1 & H2 & H3 & H4).
    destruct (escape_markup_free code) as (E1 & E2 & _).
    do 6 (split; [assumption|]). split; [|split].
    + apply escape_plain.
    + intros other. apply escape_injective.
    + intros other. apply render_injective.
Qed.

Lemma presenter_only_when_rendering_witness :
  (let x := Scripted.chain_run Scripted.satisfied_at_once 3
              Scripted.expense_request in
   count is_write (events_of x) = 0%nat) /\
  (let x := run (Scripted.agent Scripted.satisfied_at_once 3)
                Scripted.expense_request true "flowchart_output.html"
                None (O, O) in
   exists pre code,
     events_of x
     = (pre ++ [EvWrite (MkPath "flowchart_output.html") (render code)
                        (Return tt)])%list
     /\ count is_write pre = 0%nat
     /\ Some (MkPath "flowchart_output.html")
        = Some (MkPath "flowchart_output.html")
     /\ "flowchart TD" ++ nl ++ "A-->B" = strip code) /\
  escape ("flowchart TD" ++ nl ++ "A --- B")
  = "flowchart TD" ++ nl ++ "A --- B".
Proof.
  split; [|split].
  - exact (proj1
             (proj1
                (presenter_only_when_rendering _
                   (Scripted.agent Scripted.satisfied_at_once 3)
                   Scripted.expense_request false "flowchart_output.html"
                   None (O, O))
                eq_refl)).
  - exact (proj1
             (proj2
                (presenter_only_when_rendering _
                   (Scripted.agent Scripted.satisfied_at_once 3)
                   Scripted.expense_request true "flowchart_output.html"
                   None (O, O)))
             eq_refl _ eq_refl).
  - destruct (proj2
                (proj2
                   (presenter_only_when_rendering _
                      (Scripted.agent Scripted.satisfied_at_once 3)
                      Scripted.expense_request true "flowchart_output.html"
                      None (O, O)))
                ("flowchart TD" ++ nl ++ "A --- B"))
      as (_ & _ & _ & _ & _ & _ & Hplain & _).
    exact (Hplain eq_refl).
Defined.

Example escape_ex :
  escape ("A-->B[" ++ dq ++ "x & y" ++ dq ++ "]")
  = "A--&gt;B[&#34;x &amp; y&#34;]".
Proof. reflexivity. Qed.

(* ------------------------------------------------------------------ *)
(** ** The graph variant of [agent_langgraph.py] *)

Section GraphFacts.
Context {W : Type}.
Variable llm : LangGraph.Model W.

Import LangGraph.

(** Every dict a node returns adds exactly one entry to the history. *)
Lemma generate_mermaid_adds_one state w u w' ev :
  generate_mermaid llm state w = (Return u, w', ev) ->
  exists entry, add_critique_history u = Some [entry].
Proof.
  unfold generate_mermaid, bind, call, ret.
  destruct (mermaid_chain llm _ _ _ w) as [[[c|]|x] w1];
    intros [= <- _ _]; eexists; reflexivity.
Qed.

Lemma reflect_on_mermaid_adds_one state w u w' ev :
  reflect_on_mermaid llm state w = (Return u, w', ev) ->
  exists entry, add_critique_history u = Some [entry].
Proof.
  unfold reflect_on_mermaid, try_except, bind, call, ret.
  destruct (reflection_chain llm _ _ w) as [[r|x] w1];
    intros [= <- _ _]; eexists; reflexivity.
Qed.

Lemma apply_update_history state u entries :
  add_critique_history u = Some entries ->
  critique_history (apply_update state u)
  = (critique_history state ++ entries)%list.
Proof. intros H. unfold apply_update. cbn. now rewrite H. Qed.

(** One super-step keeps the history and adds one entry at its end. *)
Lemma step_appends n state w next state' w' ev :
  graph_step llm n state w = (Return (next, state'), w', ev) ->
  exists entry,
    critique_history state' = (critique_history state ++ [entry])%list.
Proof.
  destruct n; cbn [graph_step]; unfold bind at 1.
  - destruct (generate_mermaid llm state w) as [[[u|x] w1] ev1] eqn:E;
      [|discriminate].
    cbn. intros [= _ <- _ _].
    destruct (generate_mermaid_adds_one _ _ _ _ _ E) as [entry He].
    exists entry. now apply apply_update_history.
  - destruct (reflect_on_mermaid llm state w) as [[[u|x] w1] ev1] eqn:E;
      [|discriminate].
    cbn. intros [= _ <- _ _].
    destruct (reflect_on_mermaid_adds_one _ _ _ _ _ E) as [entry He].
    exists entry. now apply apply_update_history.
Qed.

(** A run of the graph that returns went through reachable
    configurations only, so its final state extends the initial
    history. *)
Lemma run_from_reaches limit : forall n state w final w' ev,
  run_from llm limit n state w = (Return final, w', ev) ->
  reaches llm (Some n, state, w) (None, final, w').
Proof.
  induction limit as [|limit IH]; intros n state w final w' ev;
    [discriminate|].
  cbn [run_from]. unfold bind at 1.
  destruct (graph_step llm n state w) as [[[[next state1]|x] w1] ev1] eqn:E;
    [|discriminate].
  destruct next as [n1|].
  - destruct (run_from llm limit n1 state1 w1) as [[r w2] ev2] eqn:E2.
    intros [= -> -> _].
    assert (Hstep : steps_to llm (Some n, state, w) (Some n1, state1, w1))
      by (cbn; eauto).
    assert (Hfrom : reaches llm (Some n1, state1, w1) (None, final, w'))
      by (eapply IH; eauto).
    clear - Hstep Hfrom.
    induction Hfrom as [|c1 c2 H1 IH1 H2].
    + eapply reaches_step; [apply reaches_refl|exact Hstep].
    + eapply reaches_step; eauto.
  - cbn. intros [= -> -> _].
    eapply reaches_step; [apply reaches_refl|]. cbn. eauto.
Qed.

(** *** The graph returns *)

Lemma run_from_S limit n state w :
  run_from llm (S limit) n state w =
  match graph_step llm n state w with
  | (Return (Some n', state'), w1, ev1) =>
      let '(r, w2, ev2) := run_from llm limit n' state' w1 in
      (r, w2, (ev1 ++ ev2)%list)
  | (Return (None, state'), w1, ev1) => (Return state', w1, ev1)
  | (Raise e, w1, ev1) => (Raise e, w1, ev1)
  end.
Proof.
  cbn [run_from]. unfold bind at 1.
  destruct (graph_step llm n state w)
    as [[[[[n'|] state']|e] w1] ev1]; try reflexivity.
  unfold ret. now rewrite List.app_nil_r.
Qed.


Lemma generate_step_cases state w :
  (exists state' w' ev,
      graph_step llm generate state w
      = (Return (Some reflect, state'), w', [ev])
      /\ revision_number state' = (revision_number state + 1)%Z
      /\ generations_returned [ev] = true) \/
  (exists e w' ev,
      graph_step llm generate state w = (Raise e, w', [ev])
      /\ generations_returned [ev] = false).
Proof.
  cbn [graph_step]. unfold bind at 1, generate_mermaid, bind, call, ret.
  destruct (mermaid_chain llm _ _ _ w) as [[[c|]|x] w1].
  - left. do 3 eexists. repeat split.
  - left. do 3 eexists. repeat split.
  - right. do 3 eexists. split; reflexivity.
Qed.

(** The reflector's node cannot fail: it turns a failure of its chain into
    a critique. *)
Lemma reflect_step_total state w :
  exists state' w' ev,
    graph_step llm reflect state w
    = (Return (route (should_continue state'), state'), w', [ev])
    /\ revision_number state' = revision_number state
    /\ generations_returned [ev] = true.
Proof.
  cbn [graph_step]. unfold bind at 1, reflect_on_mermaid, try_except, bind,
    call, ret.
  destruct (reflection_chain llm _ _ w) as [[r|x] w1];
    do 3 eexists; repeat split.
Qed.

Lemma route_should_continue state :
  route (should_continue state) = None \/
  (route (should_continue state) = Some generate /\
   (revision_number state < MAX_REVISIONS)%Z).
Proof.
  unfold should_continue.
  destruct (match reflection_output state with
            | Some r => Reflection.is_satisfactory r
            | None => false
            end); [now left|].
  destruct (MAX_REVISIONS <=? revision_number state)%Z eqn:E; [now left|].
  right. split; [reflexivity|]. now apply Z.leb_gt.
Qed.

(** From the generator, with at most [S m] generations left before
    [MAX_REVISIONS] and two super-steps allowed for each, the graph returns
    a state unless a generation raised. *)
Lemma run_from_generate_returns m : forall spare state w,
  (MAX_REVISIONS - revision_number state <= Z.of_nat (S m))%Z ->
  let x := run_from llm (2 * S m + spare) generate state w in
  generations_returned (events_of x) = true ->
  exists final, result_of x = Return final.
Proof.
  induction m as [|m IH]; intros spare state w Hrev; cbv zeta;
    match goal with
    | |- context [run_from _ (2 * S ?j + ?f)%nat] =>
        replace (2 * S j + f)%nat with (S (S (2 * j + f))) by lia
    end;
    rewrite run_from_S;
    (destruct (generate_step_cases state w)
      as [(s1 & w1 & e1 & -> & Hr1 & Hg1)|(e & w1 & e1 & -> & Hg1)];
     [|cbn [events_of snd]; congruence]);
    rewrite run_from_S;
    destruct (reflect_step_total s1 w1) as (s2 & w2 & e2 & -> & Hr2 & Hg2);
    (destruct (route_should_continue s2) as [->|[-> Hlt]];
     [intros _; eexists; reflexivity|]).
  - exfalso. lia.
  - specialize (IH spare s2 w2). cbv zeta in IH. revert IH.
    destruct (run_from llm (2 * S m + spare) generate s2 w2)
      as [[r w3] ev].
    cbn [events_of result_of fst snd app]. intros IH Hall.
    cbn in Hg1, Hg2. rewrite andb_true_r in Hg1, Hg2.
    change (generations_returned (e1 :: e2 :: ev) = true) in Hall.
    cbn in Hall. rewrite Hg1, Hg2 in Hall. cbn in Hall.
    destruct (IH ltac:(lia) Hall) as [final ->]. now exists final.
Qed.

(** [app.invoke] from a state whose revision number is not negative: the
    default recursion limit is never reached. *)
Lemma invoke_returns initial w :
  (0 <= revision_number initial)%Z ->
  generations_returned (events_of (invoke llm initial w)) = true ->
  exists final, result_of (invoke llm initial w) = Return final.
Proof.
  intros Hrev. unfold invoke, recursion_limit.
  apply (run_from_generate_returns 2 19 initial w).
  unfold MAX_REVISIONS. lia.
Qed.

End GraphFacts.

(** C9.  The critique history of the graph's state only grows at its end:
    each super-step, of the generator as of the reflector, leaves the
    entries there are as they are and appends one; so every configuration
    reached during a run, and the state a run returns, holds the earlier
    history as a prefix. *)
Theorem critique_history_append_only :
  forall W (llm : LangGraph.Model W),
    (forall c c',
        LangGraph.steps_to llm c c' ->
        exists entry,
          LangGraph.critique_history (snd (fst c'))
          = (LangGraph.critique_history (snd (fst c)) ++ [entry])%list) /\
    (forall c c',
        LangGraph.reaches llm c c' ->
        exists entries,
          LangGraph.critique_history (snd (fst c'))
          = (LangGraph.critique_history (snd (fst c)) ++ entries)%list) /\
    (forall initial w final w' ev,
        LangGraph.invoke llm initial w = (Return final, w', ev) ->
        exists entries,
          LangGraph.critique_history final
          = (LangGraph.critique_history initial ++ entries)%list).
Proof.
  intros W llm.
  assert (Hstep : forall c c',
             LangGraph.steps_to llm c c' ->
             exists entry,
               LangGraph.critique_history (snd (fst c'))
               = (LangGraph.critique_history (snd (fst c)) ++ [entry])%list).
  { intros [[[n|] state] w] [[next state'] w']; cbn; [|tauto].
    intros [ev H]. eapply step_appends; eauto. }
  assert (Hreach : forall c c',
             LangGraph.reaches llm c c' ->
             exists entries,
               LangGraph.critique_history (snd (fst c'))
               = (LangGraph.critique_history (snd (fst c)) ++ entries)%list).
  { intros c c' H. induction H as [|c1 c2 H1 [l IH] H2].
    - exists []. now rewrite List.app_nil_r.
    - destruct (Hstep _ _ H2) as [entry He].
      exists (l ++ [entry])%list. rewrite He, IH. now rewrite List.app_assoc. }
  split; [exact Hstep|]. split; [exact Hreach|].
  intros initial w final w' ev H.
  apply run_from_reaches in H. exact (Hreach _ _ H).
Qed.

Lemma critique_history_append_only_witness :
  exists entries,
    LangGraph.critique_history
      match Scripted.graph_run Scripted.never_satisfied
              Scripted.expense_request with
      | (Return final, _, _) => final
      | _ => LangGraph.initial_state Scripted.expense_request
      end
    = (LangGraph.critique_history
         (LangGraph.initial_state Scripted.expense_request) ++ entries)%list.
Proof.
  exact (proj2 (proj2 (critique_history_append_only _
                         (Scripted.model Scripted.never_satisfied)))
           (LangGraph.initial_state Scripted.expense_request) (O, O)
           _ _ _ eq_refl).
Defined.

Example graph_history :
  match Scripted.graph_run Scripted.never_satisfied Scripted.expense_request with
  | (Return final, _, _) =>
      LangGraph.critique_history final
      = ["Revision 1 generated."; "add the decision node";
         "Revision 2 generated."; "add the decision node";
         "Revision 3 generated."; "add the decision node"]
      /\ LangGraph.mermaid_code final = "flowchart TD" ++ nl ++ "A-->D"
      /\ LangGraph.revision_number final = 3%Z
  | _ => False
  end.
Proof. cbn. repeat split. Qed.

(* ------------------------------------------------------------------ *)
(** ** The two variants on the same responses *)

Section Comparison.
Variable sc : Scripted.Script.
Variable request : string.

(** The loop of [agent.py] on a script: it stops at the first satisfied
    critique, or after [n] critiques and as many revisions. *)
Lemma chain_loop_scripted N n : forall d g c,
  let x := run_loop (Scripted.agent sc N) n request false
                    "flowchart_output.html" None d (g, c) in
  let k := Scripted.rejected sc c n in
  exists r,
    result_of x = Return r /\
    FlowchartResult.mermaid_code r
    = strip (match k with
             | O => FlowchartDraft.mermaid_code d
             | S k' => _ensure_mermaid_header (Scripted.code sc (g + k'))
             end) /\
    count is_critique (events_of x) = Nat.min (S k) n /\
    count is_revise (events_of x) = k /\
    count is_draft (events_of x) = O.
Proof.
  unfold Scripted.code. induction n as [|n IH]; intros d g c; cbv zeta.
  - rewrite run_loop_O, _finalize_eq. cbn. eexists. repeat split.
  - rewrite run_loop_S. cbv zeta.
    cbn [Scripted.agent Scripted.chains collab critique_chain revision_chain
         Scripted.next_critique Scripted.next_draft fst snd
         FlowchartCritique.is_satisfactory
         FlowchartCritique.revision_guidance Scripted.rejected].
    destruct (fst (Scripted.verdict sc c)) eqn:V.
    + rewrite _finalize_eq. cbn. eexists. repeat split.
    + specialize (IH (normalized
                        (FlowchartDraft.Build
                           (fst (Scripted.generation sc g))
                           (snd (Scripted.generation sc g))))
                     (S g) (S c)).
      cbv beta zeta in IH. destruct IH as (r & Hr & Hm & Hc & Hv & Hd).
      revert Hr Hm Hc Hv Hd.
      destruct (run_loop _ _ _ _ _ _ _ _) as [[r' w'] ev]. cbn.
      intros -> Hm Hc Hv Hd. exists r. split; [reflexivity|].
      split; [|unfold count in *; cbn; repeat split; lia].
      rewrite Hm. destruct (Scripted.rejected sc (S c) n) as [|k'].
      * now rewrite Nat.add_0_r.
      * now rewrite Nat.add_succ_r.
Qed.

(** [FlowchartAgent.run] on a script. *)
Lemma chain_run_scripted N :
  let x := Scripted.chain_run sc N request in
  let k := Scripted.rejected sc 0 (Z.to_nat N) in
  exists r,
    result_of x = Return r /\
    FlowchartResult.mermaid_code r
    = strip (_ensure_mermaid_header (Scripted.code sc k)) /\
    count is_critique (events_of x) = Nat.min (S k) (Z.to_nat N) /\
    (count is_draft (events_of x) + count is_revise (events_of x) = S k)%nat.
Proof.
  unfold Scripted.code. cbv zeta. unfold Scripted.chain_run. rewrite run_eq.
  cbn [Scripted.agent Scripted.chains collab draft_chain config max_iterations
       Scripted.next_draft fst snd].
  pose proof (chain_loop_scripted N (Z.to_nat N)
                (normalized
                   (FlowchartDraft.Build (fst (Scripted.generation sc 0))
                                         (snd (Scripted.generation sc 0))))
                1%nat 0%nat) as H.
  cbv beta zeta in H. unfold Scripted.code in H.
  destruct H as (r & Hr & Hm & Hc & Hv & Hd).
  revert Hr Hm Hc Hv Hd.
  unfold Scripted.agent, Scripted.chains.
  destruct (run_loop _ _ _ _ _ _ _ _) as [[r' w'] ev]. cbn.
  intros -> Hm Hc Hv Hd. exists r. split; [reflexivity|].
  split; [|unfold count in *; cbn; split; lia].
  rewrite Hm. now destruct (Scripted.rejected sc 0 (Z.to_nat N)).
Qed.

(** *** Braces in the generator's system prompt *)

Lemma has_brace_app s t :
  Scripted.has_brace (s ++ t) = Scripted.has_brace s || Scripted.has_brace t.
Proof.
  unfold Scripted.has_brace. rewrite !contains_app.
  destruct (contains "{" s), (contains "{" t), (contains "}" s); reflexivity.
Qed.

Lemma has_brace_digits d :
  Scripted.has_brace (NilEmpty.string_of_uint d) = false.
Proof.
  induction d as [|d IH|d IH|d IH|d IH|d IH|d IH|d IH|d IH|d IH|d IH];
    [reflexivity|..];
    cbn [NilEmpty.string_of_uint];
    match goal with
    | |- Scripted.has_brace (String ?a ?t) = false =>
        change (String a t) with (String a EmptyString ++ t)
    end;
    rewrite has_brace_app, IH; reflexivity.
Qed.

Lemma has_brace_str_of_int z : Scripted.has_brace (str_of_int z) = false.
Proof.
  unfold str_of_int. destruct (Z.to_int z) as [d|d]; cbn [NilEmpty.string_of_int].
  - apply has_brace_digits.
  - change (String "-" (NilEmpty.string_of_uint d))
      with ("-" ++ NilEmpty.string_of_uint d).
    rewrite has_brace_app, has_brace_digits. reflexivity.
Qed.

Lemma has_brace_join l :
  forallb (fun entry => negb (Scripted.has_brace entry)) l = true ->
  Scripted.has_brace (join nl l) = false.
Proof.
  induction l as [|p rest IH]; [reflexivity|].
  cbn [forallb]. intros H. apply andb_prop in H as [Hp Hrest].
  apply negb_true_iff in Hp. specialize (IH Hrest).
  destruct rest as [|q rest]; [exact Hp|].
  change (join nl (p :: q :: rest)) with (p ++ nl ++ join nl (q :: rest)).
  rewrite !has_brace_app, Hp, IH. reflexivity.
Qed.

(** A history without braces gives the generator a system prompt without
    braces, on which the prompt template cannot fail. *)
Lemma plain_system_prompt state :
  Scripted.plain_history state = true ->
  Scripted.has_brace (Scripted.system_prompt_of state) = false.
Proof.
  intros H. unfold Scripted.system_prompt_of.
  destruct (0 <? LangGraph.revision_number state)%Z; [|reflexivity].
  unfold LangGraph.revise_system_prompt.
  rewrite !has_brace_app, (has_brace_join _ H). reflexivity.
Qed.

Lemma plain_after_generate state g :
  Scripted.plain_history state = true ->
  Scripted.plain_history (Scripted.after_generate sc state g) = true.
Proof.
  unfold Scripted.plain_history. cbn [Scripted.after_generate
                                      LangGraph.critique_history].
  intros H. rewrite forallb_app, H. cbn [forallb].
  rewrite !has_brace_app, has_brace_str_of_int. reflexivity.
Qed.

Lemma plain_after_reflect state c :
  Scripted.plain_history state = true ->
  Scripted.has_brace (snd (Scripted.verdict sc c)) = false ->
  Scripted.plain_history (Scripted.after_reflect sc state c) = true.
Proof.
  unfold Scripted.plain_history. cbn [Scripted.after_reflect
                                      LangGraph.critique_history].
  intros H Hc. rewrite forallb_app, H. cbn [forallb]. now rewrite Hc.
Qed.

(** The generator on a state whose system prompt holds no brace. *)
Lemma scripted_generate_step state g c :
  Scripted.has_brace (Scripted.system_prompt_of state) = false ->
  exists ev,
    LangGraph.graph_step (Scripted.model sc) LangGraph.generate state (g, c)
    = (Return (Some LangGraph.reflect, Scripted.after_generate sc state g),
       (S g, c), [ev])
    /\ LangGraph.is_generate ev = true /\ LangGraph.is_reflect ev = false.
Proof.
  intros H. unfold Scripted.system_prompt_of in H.
  unfold LangGraph.graph_step, LangGraph.generate_mermaid, Py.bind, Py.call.
  cbn [LangGraph.mermaid_chain Scripted.model]. rewrite H.
  eexists. repeat split; reflexivity.
Qed.

(** The generator on a system prompt that the template refuses: the node
    raises, and the model is not asked. *)
Lemma scripted_generate_refused state g c e :
  Scripted.has_brace (Scripted.system_prompt_of state) = true ->
  Scripted.template_failure sc (Scripted.system_prompt_of state) = Some e ->
  exists ev,
    LangGraph.graph_step (Scripted.model sc) LangGraph.generate state (g, c)
    = (Raise e, (g, c), [ev])
    /\ LangGraph.is_generate ev = true.
Proof.
  intros H He. unfold Scripted.system_prompt_of in H, He.
  unfold LangGraph.graph_step, LangGraph.generate_mermaid, Py.bind, Py.call.
  cbn [LangGraph.mermaid_chain Scripted.model]. rewrite H, He.
  eexists. repeat split; reflexivity.
Qed.

Lemma scripted_reflect_step state g c :
  exists ev,
    LangGraph.graph_step (Scripted.model sc) LangGraph.reflect state (g, c)
    = (Return (LangGraph.route
                 (LangGraph.should_continue
                    (Scripted.after_reflect sc state c)),
               Scripted.after_reflect sc state c),
       (g, S c), [ev])
    /\ LangGraph.is_reflect ev = true /\ LangGraph.is_generate ev = false.
Proof. eexists. repeat split; reflexivity. Qed.

(** The conditional edge after the [c]-th critique of the script. *)
Lemma scripted_route state c :
  LangGraph.route
    (LangGraph.should_continue (Scripted.after_reflect sc state c))
  = if fst (Scripted.verdict sc c) then None
    else if (LangGraph.MAX_REVISIONS <=? LangGraph.revision_number state)%Z
         then None else Some LangGraph.generate.
Proof.
  unfold LangGraph.should_continue. cbn.
  destruct (fst (Scripted.verdict sc c)); [reflexivity|].
  now destruct (LangGraph.MAX_REVISIONS <=? LangGraph.revision_number state)%Z.
Qed.

Lemma rejected_S c n :
  Scripted.rejected sc c (S n)
  = if fst (Scripted.verdict sc c) then O
    else S (Scripted.rejected sc (S c) n).
Proof. reflexivity. Qed.

(** The graph on a script, from the generator with [S m] generations
    left before [MAX_REVISIONS] and enough super-steps allowed: it stops
    at the first satisfied critique or after [S m] generations. *)
Lemma graph_from_generate m : forall spare state g c,
  LangGraph.revision_number state
  = (LangGraph.MAX_REVISIONS - Z.of_nat (S m))%Z ->
  Scripted.plain_history state = true ->
  (forall k, (c <= k < c + m)%nat ->
             Scripted.has_brace (snd (Scripted.verdict sc k)) = false) ->
  let x := LangGraph.run_from (Scripted.model sc) (2 * S m + spare)
                              LangGraph.generate state (g, c) in
  let k := Scripted.rejected sc c (S m) in
  exists final,
    result_of x = Return final /\
    LangGraph.mermaid_code final
    = LangGraph.extract_code (Scripted.code sc (g + Nat.min k m)) /\
    LangGraph.count LangGraph.is_generate (events_of x) = Nat.min (S k) (S m) /\
    LangGraph.count LangGraph.is_reflect (events_of x) = Nat.min (S k) (S m).
Proof.
  induction m as [|m IH]; intros spare state g c Hrev Hplain Hcrit; cbv zeta;
    match goal with
    | |- context [LangGraph.run_from _ (2 * S ?j + ?f)%nat] =>
        replace (2 * S j + f)%nat with (S (S (2 * j + f))) by lia
    end;
    rewrite run_from_S;
    destruct (scripted_generate_step state g c (plain_system_prompt _ Hplain))
      as (eg & -> & Hg & Hg');
    rewrite run_from_S;
    destruct (scripted_reflect_step (Scripted.after_generate sc state g)
                                    (S g) c)
      as (er & -> & Hr & Hr');
    rewrite scripted_route, rejected_S;
    cbn [Scripted.after_generate LangGraph.revision_number]; rewrite Hrev;
    destruct (fst (Scripted.verdict sc c)) eqn:V;
    try (exists (Scripted.after_reflect sc
                   (Scripted.after_generate sc state g) c);
         unfold LangGraph.count; cbn;
         rewrite Hg, Hr, Hg', Hr', ?Nat.add_0_r;
         repeat split; fail).
  replace (LangGraph.MAX_REVISIONS <=?
           LangGraph.MAX_REVISIONS - Z.of_nat (S (S m)) + 1)%Z
    with false by (symmetry; apply Z.leb_gt; lia).
    specialize (IH spare
                   (Scripted.after_reflect sc
                      (Scripted.after_generate sc state g) c)
                   (S g) (S c)).
    cbv beta zeta in IH. destruct IH as (final & Hf & Hm & Hcg & Hcr).
    { cbn [Scripted.after_reflect Scripted.after_generate
           LangGraph.revision_number]. rewrite Hrev. lia. }
    { apply plain_after_reflect; [now apply plain_after_generate|].
      apply Hcrit. lia. }
    { intros k Hk. apply Hcrit. lia. }
    revert Hf Hm Hcg Hcr.
    replace (2 * S m + spare)%nat with (S (S (2 * m + spare))) by lia.
    destruct (LangGraph.run_from _ _ _ _ _) as [[r' w'] ev]. cbn.
    intros -> Hm Hcg Hcr. exists final. split; [reflexivity|].
    split.
    + rewrite Hm. f_equal. f_equal.
      destruct (Scripted.rejected sc (S c) (S m)); cbn; lia.
    + unfold LangGraph.count in *. cbn. rewrite Hg, Hr, Hg', Hr'. cbn.
      split; lia.
Qed.

(** The graph variant on a script, from the initial state. *)
Lemma graph_run_scripted :
  (forall k, (k < 2)%nat ->
             Scripted.has_brace (snd (Scripted.verdict sc k)) = false) ->
  let x := Scripted.graph_run sc request in
  let k := Scripted.rejected sc 0 3 in
  exists final,
    result_of x = Return final /\
    LangGraph.mermaid_code final
    = LangGraph.extract_code (Scripted.code sc (Nat.min k 2)) /\
    LangGraph.count LangGraph.is_generate (events_of x) = Nat.min (S k) 3 /\
    LangGraph.count LangGraph.is_reflect (events_of x) = Nat.min (S k) 3.
Proof.
  intros Hcrit.
  apply (graph_from_generate 2 19 (LangGraph.initial_state request)
                             0%nat 0%nat eq_refl eq_refl).
  intros k Hk. apply Hcrit. lia.
Qed.

End Comparison.

Example never_satisfied_both_variants :
  result_of (Scripted.chain_run Scripted.never_satisfied 3
               Scripted.expense_request)
  = Return (FlowchartResult.Build Scripted.expense_request
              ("flowchart TD" ++ nl ++ "A-->E") None)
  /\ List.map event_returned
       (events_of (Scripted.chain_run Scripted.never_satisfied 3
                     Scripted.expense_request))
     = [true; true; true; true; true; true; true]
  /\ LangGraph.count LangGraph.is_generate
       (events_of (Scripted.graph_run Scripted.never_satisfied
                     Scripted.expense_request)) = 3%nat
  /\ option_map LangGraph.mermaid_code
       match result_of (Scripted.graph_run Scripted.never_satisfied
                          Scripted.expense_request) with
       | Return final => Some final
       | Raise _ => None
       end
     = Some ("flowchart TD" ++ nl ++ "A-->D").
Proof. repeat split; reflexivity. Qed.

(** C7, as stated, fails: on a service that is never satisfied, [run] with
    the default [max_iterations = 3] asks for a fourth generation and
    returns it (A-->E), while the graph stops after the third critique
    with the third generation (A-->D). *)
Lemma graph_variant_equivalent_counterexample :
  ~ (forall sc request,
        exists r final,
          result_of (Scripted.chain_run sc 3 request) = Return r /\
          result_of (Scripted.graph_run sc request) = Return final /\
          FlowchartResult.mermaid_code r = LangGraph.mermaid_code final).
Proof.
  intros H.
  destruct (H Scripted.never_satisfied Scripted.expense_request)
    as (r & final & Hr & Hf & Hcode).
  vm_compute in Hr, Hf. injection Hr as <-. injection Hf as <-.
  vm_compute in Hcode. discriminate Hcode.
Qed.

(** A critique that names a node in braces: [run] hands it to the revision
    prompt as the value of a field and returns its fourth generation; the
    graph pastes it into the system prompt of its second generation, whose
    template then asks for a field [decision] and raises before the model
    is called. *)
Example braces_in_critique_both_variants :
  result_of (Scripted.chain_run Scripted.braces_in_critique 3
               Scripted.expense_request)
  = Return (FlowchartResult.Build Scripted.expense_request
              ("flowchart TD" ++ nl ++ "A-->E") None)
  /\ result_of (Scripted.graph_run Scripted.braces_in_critique
                  Scripted.expense_request)
     = Raise Scripted.missing_variables
  /\ List.map LangGraph.is_generate
       (events_of (Scripted.graph_run Scripted.braces_in_critique
                     Scripted.expense_request))
     = [true; false; true]
  /\ Scripted.has_brace
       (snd (Scripted.verdict Scripted.braces_in_critique 0)) = true.
Proof. repeat split; reflexivity. Qed.

(** C7, amended.  On the same script of responses, none of which fails,
    and whose first two critique texts hold no brace (the graph pastes
    them into the template of its next system prompt; [run] passes them as
    field values),
    with [max_iterations = MAX_REVISIONS = 3] and [k] the number of
    critiques among the first three that come before the first satisfied
    one: both variants return, after the same number of critique calls,
    [min (k+1) 3].  [run] makes [k + 1] generation calls and returns the
    generation number [k], normalized and trimmed; the graph makes
    [min (k+1) 3] generation calls and returns the code block extracted
    from generation number [min k 2].  So they finalize the same generation
    after the same calls when a critique is satisfied within the budget
    ([k < 3]), and otherwise ([k = 3]) [run] makes one more revision, which
    it returns without a critique. *)
Theorem graph_variant_comparison :
  forall sc request,
    (forall j, (j < 2)%nat ->
               Scripted.has_brace (snd (Scripted.verdict sc j)) = false) ->
    let k := Scripted.rejected sc 0 3 in
    let cx := Scripted.chain_run sc 3 request in
    let gx := Scripted.graph_run sc request in
    exists r final,
      result_of cx = Return r /\
      result_of gx = Return final /\
      count is_critique (events_of cx) = Nat.min (S k) 3 /\
      LangGraph.count LangGraph.is_reflect (events_of gx) = Nat.min (S k) 3 /\
      (count is_draft (events_of cx) + count is_revise (events_of cx))%nat
      = S k /\
      LangGraph.count LangGraph.is_generate (events_of gx) = Nat.min (S k) 3 /\
      FlowchartResult.mermaid_code r
      = strip (_ensure_mermaid_header (Scripted.code sc k)) /\
      LangGraph.mermaid_code final
      = LangGraph.extract_code (Scripted.code sc (Nat.min k 2)).
Proof.
  intros sc request Hplain. cbv zeta.
  destruct (chain_run_scripted sc request 3) as (r & Hr & Hm & Hc & Hg).
  destruct (graph_run_scripted sc request Hplain)
    as (final & Hf & Hcode & Hgg & Hgr).
  exists r, final. change (Z.to_nat 3) with 3%nat in *.
  repeat split; assumption.
Qed.

Lemma graph_variant_comparison_witness :
  (forall j, (j < 2)%nat ->
             Scripted.has_brace
               (snd (Scripted.verdict Scripted.never_satisfied j)) = false)
  /\ exists r final,
      result_of (Scripted.chain_run Scripted.never_satisfied 3
                   Scripted.expense_request) = Return r /\
      result_of (Scripted.graph_run Scripted.never_satisfied
                   Scripted.expense_request) = Return final /\
      FlowchartResult.mermaid_code r = "flowchart TD" ++ nl ++ "A-->E" /\
      LangGraph.mermaid_code final = "flowchart TD" ++ nl ++ "A-->D".
Proof.
  split; [intros j _; reflexivity|].
  destruct (graph_variant_comparison Scripted.never_satisfied
              Scripted.expense_request (fun j _ => eq_refl))
    as (r & final & Hr & Hf & _ & _ & _ & _ & Hm & Hc).
  exists r, final. repeat split; assumption.
Defined.

(* ================================================================== *)
(** * Further properties of the code *)

(* ------------------------------------------------------------------ *)
(** ** The normalizer applied twice *)

Section NormalizerAgain.

Lemma rstrip_cons_nonempty c s :
  rstrip s <> EmptyString -> rstrip (String c s) = String c (rstrip s).
Proof.
  intros H. rewrite rstrip_cons. destruct (rstrip s); [now elim H|reflexivity].
Qed.

Lemma rstrip_strip s : rstrip (strip s) = strip s.
Proof. unfold strip. apply rstrip_idempotent. Qed.

(** A trimmed text that is not empty stays as it is behind the default
    declaration line, when the whole is trimmed. *)
Lemma strip_declared u :
  strip u = u -> u <> EmptyString ->
  strip ("flowchart TD" ++ nl ++ u) = "flowchart TD" ++ nl ++ u.
Proof.
  intros Hu Hne.
  assert (Hr : rstrip u = u) by (rewrite <- Hu; apply rstrip_strip).
  change ("flowchart TD" ++ nl ++ u)
    with (String "f" ("lowchart" ++ String " " ("TD" ++ String "010" u))).
  rewrite strip_cons_keep by reflexivity. cbn [append].
  repeat (rewrite rstrip_cons_keep by reflexivity).
  assert (Hnl : rstrip (String "010" u) = String "010" u)
    by (rewrite rstrip_cons_nonempty; rewrite Hr; [reflexivity|exact Hne]).
  rewrite (rstrip_cons_nonempty " ").
  - now rewrite !rstrip_cons_keep, Hnl by reflexivity.
  - rewrite !rstrip_cons_keep by reflexivity. discriminate.
Qed.

Lemma ensure_header_trimmed s :
  strip s <> EmptyString ->
  strip (_ensure_mermaid_header s) = _ensure_mermaid_header s.
Proof.
  intros Hne. destruct (ensure_header_cases s) as [[_ ->]|[_ ->]].
  - apply strip_idempotent.
  - apply strip_declared; [apply strip_idempotent|exact Hne].
Qed.

Lemma ensure_header_again s :
  _ensure_mermaid_header (_ensure_mermaid_header s)
  = strip (_ensure_mermaid_header s).
Proof.
  unfold _ensure_mermaid_header at 1.
  pose proof (proj2 (startswith_lower_caseless "flowchart"
                       flowchart_lower_letters
                       (strip (_ensure_mermaid_header s)))
                    (strip_ensure_header_begins s)) as H.
  now rewrite H.
Qed.

End NormalizerAgain.

(** X1.  Normalizing a normalized text only trims it.  When the input is
    not blank the normalized text is already trimmed, so
    [_ensure_mermaid_header] is idempotent; on a blank input the first pass
    gives the declaration line with its line feed and the second pass drops
    the line feed. *)
Theorem ensure_mermaid_header_twice :
  forall s,
    _ensure_mermaid_header (_ensure_mermaid_header s)
    = strip (_ensure_mermaid_header s) /\
    (strip s <> EmptyString ->
     _ensure_mermaid_header (_ensure_mermaid_header s)
     = _ensure_mermaid_header s) /\
    (strip s = EmptyString ->
     _ensure_mermaid_header s = "flowchart TD" ++ nl /\
     _ensure_mermaid_header (_ensure_mermaid_header s) = "flowchart TD").
Proof.
  intros s. split; [apply ensure_header_again|]. split.
  - intros Hne. rewrite ensure_header_again. now apply ensure_header_trimmed.
  - intros He. rewrite ensure_header_again.
    unfold _ensure_mermaid_header. rewrite He. split; reflexivity.
Qed.

Lemma ensure_mermaid_header_twice_witness :
  _ensure_mermaid_header (_ensure_mermaid_header " A-->B ")
  = _ensure_mermaid_header " A-->B "
  /\ _ensure_mermaid_header (_ensure_mermaid_header ("  " ++ nl))
     = "flowchart TD".
Proof.
  split.
  - exact (proj1 (proj2 (ensure_mermaid_header_twice " A-->B "))
             ltac:(discriminate)).
  - exact (proj2 (proj2 (proj2 (ensure_mermaid_header_twice ("  " ++ nl)))
                    eq_refl)).
Defined.

(* ------------------------------------------------------------------ *)
(** ** More on the loop of [agent.py] *)

Section LoopMore.
Context {W : Type}.
Variable self : FlowchartAgent W.
Variables (user_prompt : string) (save_html : bool) (output_path : string)
          (cfg : option RunnableConfig).

Let loop n := run_loop self n user_prompt save_html output_path cfg.

(** The calls of the loop follow one another as [Trace.may_follow] says,
    after the call [prev] that produced the draft the loop starts with. *)
Lemma loop_linked n : forall prev d0 d w,
  Trace.produced prev = Some d0 -> d = normalized d0 ->
  Trace.linked user_prompt output_path prev (events_of (loop n d w)).
Proof.
  subst loop. induction n as [|n IH]; intros prev d0 d w Hp ->; cbv beta.
  - rewrite run_loop_O. finalize_cases; cbn; try exact I;
      (split; [|exact I]); (split; [reflexivity|]);
      eexists; (split; [reflexivity|]); right; exists d0; now split.
  - loop_cases c Hs d' w'; cbn [events_of snd Trace.linked].
    + split; [split; [reflexivity|]; exists d0; now repeat split|].
      split; [|exact I]. split; [reflexivity|].
      eexists. split; [reflexivity|]. left. now do 3 eexists.
    + split; [split; [reflexivity|]; exists d0; now repeat split|].
      split; [|exact I]. split; [reflexivity|].
      eexists. split; [reflexivity|]. left. now do 3 eexists.
    + split; [split; [reflexivity|]; exists d0; now repeat split|exact I].
    + specialize (IH (EvRevise user_prompt
                        (FlowchartDraft.mermaid_code (normalized d0))
                        (FlowchartCritique.revision_guidance c) (Return d'))
                     d' (normalized d') w' eq_refl eq_refl).
      cbv beta in IH. revert IH.
      destruct (run_loop _ _ _ _ _ _ _ _) as [[r w3] ev].
      cbn [events_of snd Trace.linked]. intros IH.
      split; [split; [reflexivity|]; exists d0; now repeat split|].
      split; [|exact IH].
      split; [reflexivity|]. now do 2 eexists.
    + split; [split; [reflexivity|]; exists d0; now repeat split|].
      split; [|exact I]. split; [reflexivity|]. now do 2 eexists.
    + split; [split; [reflexivity|]; exists d0; now repeat split|exact I].
Qed.

(** A satisfied critique ends the loop: no call on a chain follows it, no
    satisfied critique comes before it, and a result holds the content it
    was given, trimmed. *)
Lemma loop_approval n : forall d w e,
  In e (events_of (loop n d w)) -> Trace.is_approval e = true ->
  exists pre post code,
    events_of (loop n d w) = (pre ++ e :: post)%list /\
    existsb Trace.is_approval pre = false /\
    forallb is_write post = true /\
    Trace.critiqued e = Some code /\
    forall r, result_of (loop n d w) = Return r ->
              FlowchartResult.mermaid_code r = strip code.
Proof.
  subst loop. induction n as [|n IH]; intros d w e; cbv beta.
  - rewrite run_loop_O. finalize_cases; cbn;
      try (intros [<-|[]]; discriminate); intros [].
  - loop_cases c Hs d' w'; cbn [events_of snd result_of fst In].
    + intros [<-|[<-|[]]]; [intros _|discriminate].
      exists [], [EvWrite (MkPath output_path)
                    (render (FlowchartDraft.mermaid_code d)) (Return tt)],
        (FlowchartDraft.mermaid_code d).
      repeat split. now intros r [= <-].
    + intros [<-|[<-|[]]]; [intros _|discriminate].
      do 3 eexists. split; [apply (eq_refl : _ = ([] ++ _ :: [_])%list)|].
      repeat split. discriminate.
    + intros [<-|[]] _.
      exists [], [], (FlowchartDraft.mermaid_code d).
      repeat split. now intros r [= <-].
    + specialize (IH (normalized d') w' e). cbv beta in IH. revert IH.
      destruct (run_loop _ _ _ _ _ _ _ _) as [[r' w3] ev].
      cbn [events_of snd result_of fst]. intros IH [<-|[<-|Hin]] Ha.
      * cbn in Ha. congruence.
      * discriminate.
      * destruct (IH Hin Ha) as (pre & post & code & -> & H1 & H2 & H3 & H4).
        exists (EvCritique user_prompt (FlowchartDraft.mermaid_code d)
                  (FlowchartDraft.rationale d) (Return c)
                :: EvRevise user_prompt (FlowchartDraft.mermaid_code d)
                     (FlowchartCritique.revision_guidance c) (Return d')
                :: pre), post, code.
        repeat split; try assumption. cbn. now rewrite Hs.
    + intros [<-|[<-|[]]] Ha; [cbn in Ha; congruence|discriminate].
    + intros [<-|[]]; discriminate.
Qed.

(** How many calls a loop that returns has made: one revision less than
    critiques when a critique was satisfied, and otherwise as many of each
    as there were iterations. *)
Lemma loop_call_counts n : forall d w r,
  result_of (loop n d w) = Return r ->
  let tr := events_of (loop n d w) in
  (existsb Trace.is_approval tr = true /\
   count is_critique tr = S (count is_revise tr) /\
   (count is_critique tr <= n)%nat) \/
  (existsb Trace.is_approval tr = false /\
   count is_critique tr = n /\ count is_revise tr = n).
Proof.
  subst loop. induction n as [|n IH]; intros d w r; cbv beta zeta.
  - rewrite run_loop_O. finalize_cases; cbn; try discriminate;
      intros _; right; repeat split.
  - loop_cases c Hs d' w'; cbn [events_of snd result_of fst];
      try discriminate.
    + intros _. left. cbn. rewrite Hs. repeat split. lia.
    + intros _. left. cbn. rewrite Hs. repeat split. lia.
    + specialize (IH (normalized d') w' r). cbv beta zeta in IH. revert IH.
      destruct (run_loop _ _ _ _ _ _ _ _) as [[r' w3] ev].
      cbn [events_of snd result_of fst]. intros IH Hr.
      unfold count in *. cbn. rewrite Hs. cbn.
      destruct (IH Hr) as [(H1 & H2 & H3)|(H1 & H2 & H3)]; [left|right];
        repeat split; try assumption; lia.
Qed.

End LoopMore.

(** The same loop with and without rendering: the calls on the chains are
    the same, a failure of a chain is the same, and where the loop without
    rendering returns, the other returns the same request and content
    unless its write raised. *)
Lemma loop_rendering_apart {W} (self : FlowchartAgent W) user_prompt
      save_html output_path output_path' cfg n : forall d w,
  let x := run_loop self n user_prompt save_html output_path cfg d w in
  let x' := run_loop self n user_prompt false output_path' cfg d w in
  Trace.chain_calls (events_of x) = events_of x' /\
  (forall e, result_of x' = Raise e -> result_of x = Raise e) /\
  (forall r', result_of x' = Return r' ->
     (exists r, result_of x = Return r /\
                FlowchartResult.prompt r = FlowchartResult.prompt r' /\
                FlowchartResult.mermaid_code r
                = FlowchartResult.mermaid_code r') \/
     (exists target text x0,
         In (EvWrite target text (Raise x0)) (events_of x) /\
         result_of x = Raise x0)).
Proof.
  induction n as [|n IH]; intros d w; cbv zeta.
  - rewrite !run_loop_O, !_finalize_eq.
    destruct save_html;
      [destruct (write_text _ _ _ _) as [[[]|x0] w1]|]; cbn;
      (split; [reflexivity|]); (split; [discriminate|]);
      intros r' [= <-]; try (left; eexists; now repeat split).
    right. do 3 eexists. split; [now left|reflexivity].
  - rewrite !run_loop_S. cbv zeta.
    destruct (critique_chain _ _ _ _ _ _) as [[c|x0] w1].
    + destruct (FlowchartCritique.is_satisfactory c).
      * rewrite !_finalize_eq.
        destruct save_html;
          [destruct (write_text _ _ _ _) as [[[]|x0] w2]|]; cbn;
          (split; [reflexivity|]); (split; [discriminate|]);
          intros r' [= <-]; try (left; eexists; now repeat split).
        right. do 3 eexists. split; [right; now left|reflexivity].
      * destruct (revision_chain _ _ _ _ _ _) as [[d'|x0] w2].
        -- specialize (IH (normalized d') w2). cbv zeta in IH. revert IH.
           destruct (run_loop self n user_prompt save_html _ _ _ _)
             as [[r1 w3] ev1].
           destruct (run_loop self n user_prompt false _ _ _ _)
             as [[r2 w4] ev2].
           cbn. intros (H1 & H2 & H3). split; [now rewrite H1|].
           split; [exact H2|]. intros r' Hr'.
           destruct (H3 r' Hr') as [Hl|(target & text & x0 & Hl & Hx)];
             [now left|right].
           exists target, text, x0. split; [now do 2 right|exact Hx].
        -- cbn. split; [reflexivity|]. split; [tauto|discriminate].
    + cbn. split; [reflexivity|]. split; [tauto|discriminate].
Qed.

(* ------------------------------------------------------------------ *)
(** ** More on [FlowchartAgent.run] *)

(** X2.  A result of a run that rendered holds the content of the document
    written: the document is rendered from the normalized last draft, the
    result holds that text trimmed, and the two are the same text when the
    draft is not blank. *)
Theorem result_matches_document :
  forall W (self : FlowchartAgent W) user_prompt output_path cfg w r,
    let x := run self user_prompt true output_path cfg w in
    result_of x = Return r ->
    exists pre code,
      events_of x
      = (pre ++ [EvWrite (MkPath output_path) (render code) (Return tt)])%list
      /\ FlowchartResult.mermaid_code r = strip code
      /\ exists ds d,
           drafts (events_of x) = (ds ++ [d])%list /\
           code = _ensure_mermaid_header (FlowchartDraft.mermaid_code d) /\
           (strip (FlowchartDraft.mermaid_code d) <> EmptyString ->
            FlowchartResult.mermaid_code r = code).
Proof.
  intros W self user_prompt output_path cfg w r. cbv zeta. intros Hr.
  destruct (run_result self user_prompt true output_path cfg w r Hr)
    as (ds & d & pre & Hd & _ & Hm & _ & Hfin).
  cbv beta iota zeta in Hfin. destruct Hfin as [Htr _].
  exists pre, (_ensure_mermaid_header (FlowchartDraft.mermaid_code d)).
  split; [exact Htr|]. split; [exact Hm|].
  exists ds, d. split; [exact Hd|]. split; [reflexivity|].
  intros Hne. rewrite Hm. now apply ensure_header_trimmed.
Qed.

Lemma result_matches_document_witness :
  let x := run (Scripted.agent Scripted.satisfied_at_once 3)
               Scripted.expense_request true "flowchart_output.html"
               None (O, O) in
  exists pre code,
    events_of x
    = (pre ++ [EvWrite (MkPath "flowchart_output.html") (render code)
                       (Return tt)])%list
    /\ "flowchart TD" ++ nl ++ "A-->B" = strip code.
Proof.
  cbv zeta.
  destruct (result_matches_document _
              (Scripted.agent Scripted.satisfied_at_once 3)
              Scripted.expense_request "flowchart_output.html" None (O, O)
              _ eq_refl) as (pre & code & H1 & H2 & _).
  exists pre, code. split; [exact H1|exact H2].
Defined.

(** X3.  With [max_iterations] zero or negative [run] asks for no critique
    and no revision: a result is the first draft, normalized and trimmed,
    that nobody reviewed. *)
Theorem nonpositive_budget_skips_review :
  forall W (self : FlowchartAgent W) user_prompt save_html output_path cfg w,
    let x := run self user_prompt save_html output_path cfg w in
    (max_iterations (config self) <= 0)%Z ->
    count is_critique (events_of x) = 0%nat /\
    count is_revise (events_of x) = 0%nat /\
    forall r, result_of x = Return r ->
      exists d,
        drafts (events_of x) = [d] /\
        FlowchartResult.mermaid_code r
        = strip (_ensure_mermaid_header (FlowchartDraft.mermaid_code d)).
Proof.
  intros W self user_prompt save_html output_path cfg w. cbv zeta. intros HN.
  rewrite run_eq.
  replace (Z.to_nat (max_iterations (config self))) with O by lia.
  destruct (draft_chain _ _ _ _) as [[d|x0] w1].
  - rewrite run_loop_O, _finalize_eq.
    destruct save_html;
      [destruct (write_text _ _ _ _) as [[[]|x1] w2]|]; cbn;
      repeat split; intros r [= <-]; exists d; now split.
  - cbn. repeat split. discriminate.
Qed.

Lemma nonpositive_budget_skips_review_witness :
  let x := Scripted.chain_run Scripted.never_satisfied 0
             Scripted.expense_request in
  count is_critique (events_of x) = 0%nat /\
  count is_revise (events_of x) = 0%nat.
Proof.
  cbv zeta.
  destruct (nonpositive_budget_skips_review _
              (Scripted.agent Scripted.never_satisfied 0)
              Scripted.expense_request false "flowchart_output.html"
              None (O, O) ltac:(cbn; lia)) as (H1 & H2 & _).
  split; [exact H1|exact H2].
Defined.

(** X4.  The order and the arguments of the calls of a run.  The first call
    is the draft call, on the request.  After it every call is one that
    [Trace.may_follow] allows after the call before it: a critique gets the
    request and the normalized content and the rationale of the draft just
    produced; a revision gets the request, the content just rejected and the
    guidance of that critique; the write, on [Path(output_path)], gets the
    document of the content just accepted or, with the budget used up, of
    the draft just produced; there is no second draft call. *)
Theorem run_calls_linked :
  forall W (self : FlowchartAgent W) user_prompt save_html output_path cfg w,
    exists o rest,
      events_of (run self user_prompt save_html output_path cfg w)
      = EvDraft user_prompt o :: rest /\
      Trace.linked user_prompt output_path (EvDraft user_prompt o) rest.
Proof.
  intros W self user_prompt save_html output_path cfg w. rewrite run_eq.
  destruct (draft_chain _ _ _ _) as [[d|x0] w1].
  - pose proof (loop_linked self user_prompt save_html output_path cfg
                  (Z.to_nat (max_iterations (config self)))
                  (EvDraft user_prompt (Return d)) d (normalized d) w1
                  eq_refl eq_refl) as H.
    cbv beta in H. revert H.
    destruct (run_loop _ _ _ _ _ _ _ _) as [[r w2] ev]. cbn. intros H.
    now exists (Return d), ev.
  - exists (Raise x0), []. now split.
Qed.

(** X5.  A satisfied critique ends the run: after it comes no call on a
    chain (at most the write), before it no critique was satisfied, and a
    result holds, trimmed, the content that this critique was given. *)
Theorem approval_is_final :
  forall W (self : FlowchartAgent W) user_prompt save_html output_path cfg w e,
    let x := run self user_prompt save_html output_path cfg w in
    In e (events_of x) ->
    Trace.is_approval e = true ->
    exists pre post code,
      events_of x = (pre ++ e :: post)%list /\
      existsb Trace.is_approval pre = false /\
      forallb is_write post = true /\
      Trace.critiqued e = Some code /\
      forall r, result_of x = Return r ->
                FlowchartResult.mermaid_code r = strip code.
Proof.
  intros W self user_prompt save_html output_path cfg w e. cbv zeta.
  rewrite run_eq.
  destruct (draft_chain _ _ _ _) as [[d|x0] w1].
  - pose proof (loop_approval self user_prompt save_html output_path cfg
                  (Z.to_nat (max_iterations (config self)))
                  (normalized d) w1 e) as H.
    cbv beta in H. revert H.
    destruct (run_loop _ _ _ _ _ _ _ _) as [[r w2] ev]. cbn.
    intros H [<-|Hin] Ha; [discriminate|].
    destruct (H Hin Ha) as (pre & post & code & -> & H1 & H2 & H3 & H4).
    exists (EvDraft user_prompt (Return d) :: pre), post, code.
    now repeat split.
  - cbn. intros [<-|[]]. discriminate.
Qed.

Lemma approval_is_final_witness :
  let x := Scripted.chain_run Scripted.satisfied_at_once 3
             Scripted.expense_request in
  exists pre post code,
    events_of x
    = (pre ++ EvCritique Scripted.expense_request
                ("flowchart TD" ++ nl ++ "A-->B") "a single edge"
                (Return (FlowchartCritique.Build true "ready")) :: post)%list
    /\ forallb is_write post = true
    /\ forall r, result_of x = Return r ->
                 FlowchartResult.mermaid_code r = strip code.
Proof.
  cbv zeta.
  destruct (approval_is_final _ (Scripted.agent Scripted.satisfied_at_once 3)
              Scripted.expense_request false "flowchart_output.html" None
              (O, O)
              (EvCritique Scripted.expense_request
                 ("flowchart TD" ++ nl ++ "A-->B") "a single edge"
                 (Return (FlowchartCritique.Build true "ready")))
              (or_intror (or_introl eq_refl)) eq_refl)
    as (pre & post & code & H1 & _ & H3 & _ & H5).
  exists pre, post, code. split; [exact H1|]. split; [exact H3|exact H5].
Defined.

(** X6.  [write_text] is not guarded: when it raises, whatever the class of
    the exception, [run] raises that exception as it is, with no phase
    label, and no result is returned although every call on the chains had
    returned.  This happens only in a run asked to render. *)
Theorem write_failure_propagates :
  forall W (self : FlowchartAgent W) user_prompt save_html output_path cfg w
         target text exc,
    let x := run self user_prompt save_html output_path cfg w in
    In (EvWrite target text (Raise exc)) (events_of x) ->
    result_of x = Raise exc /\
    save_html = true /\
    exists pre,
      events_of x = (pre ++ [EvWrite target text (Raise exc)])%list /\
      all_returned pre = true /\ no_write pre = true.
Proof.
  intros W self user_prompt save_html output_path cfg w target text exc.
  cbv zeta. intros Hin.
  destruct (raised_is_last self user_prompt save_html output_path cfg w
              _ exc Hin eq_refl) as (pre & Heq & H1 & H2 & H3).
  split; [exact H3|]. split; [|now exists pre].
  destruct save_html; [reflexivity|].
  pose proof (run_no_render self user_prompt false output_path cfg w eq_refl)
    as Hnw.
  unfold no_write in Hnw. rewrite forallb_forall in Hnw.
  specialize (Hnw _ Hin). discriminate Hnw.
Qed.

(** A run that returns a result with a budget of at least one iteration
    has called the critique chain. *)
Lemma run_returned_critiqued {W} (self : FlowchartAgent W) user_prompt
      save_html output_path cfg w r :
  result_of (run self user_prompt save_html output_path cfg w) = Return r ->
  (1 <= max_iterations (config self))%Z ->
  (1 <= count is_critique
          (events_of (run self user_prompt save_html output_path cfg w)))%nat.
Proof.
  rewrite run_eq.
  destruct (draft_chain _ _ _ _) as [[d|x0] w1]; [|discriminate].
  pose proof (loop_call_counts self user_prompt save_html output_path cfg
                (Z.to_nat (max_iterations (config self)))
                (normalized d) w1 r) as H.
  cbv beta zeta in H. revert H.
  destruct (run_loop _ _ _ _ _ _ _ _) as [[r' w2] ev]. cbn.
  intros H Hr HN. specialize (H Hr). unfold count in *. cbn.
  destruct H as [(_ & H & _)|(_ & H & _)]; lia.
Qed.

(** X7.  The calls of a run that returns a result: one draft call; then
    either some critique was satisfied, and there is one revision less than
    critiques, at most [max_iterations] of these; or none was, and there are
    exactly [max_iterations] critiques and as many revisions ([range] of a
    negative number counting as zero). *)
Theorem run_call_counts :
  forall W (self : FlowchartAgent W) user_prompt save_html output_path cfg w r,
    let x := run self user_prompt save_html output_path cfg w in
    let tr := events_of x in
    let n := Z.to_nat (max_iterations (config self)) in
    result_of x = Return r ->
    count is_draft tr = 1%nat /\
    ((existsb Trace.is_approval tr = true /\
      count is_critique tr = S (count is_revise tr) /\
      (count is_critique tr <= n)%nat) \/
     (existsb Trace.is_approval tr = false /\
      count is_critique tr = n /\ count is_revise tr = n)).
Proof.
  intros W self user_prompt save_html output_path cfg w r. cbv zeta.
  rewrite run_eq.
  destruct (draft_chain _ _ _ _) as [[d|x0] w1]; [|discriminate].
  pose proof (loop_call_counts self user_prompt save_html output_path cfg
                (Z.to_nat (max_iterations (config self)))
                (normalized d) w1 r) as H.
  pose proof (loop_counts self user_prompt save_html output_path cfg
                (Z.to_nat (max_iterations (config self)))
                (normalized d) w1) as Hc.
  cbv beta zeta in H, Hc. revert H Hc.
  destruct (run_loop _ _ _ _ _ _ _ _) as [[r' w2] ev]. cbn.
  intros H (_ & _ & Hd & _) Hr. specialize (H Hr).
  unfold count in *. cbn. rewrite Hd. split; [reflexivity|exact H].
Qed.

Lemma run_call_counts_witness :
  let x := Scripted.chain_run Scripted.never_satisfied 3
             Scripted.expense_request in
  count is_draft (events_of x) = 1%nat /\
  count is_critique (events_of x) = 3%nat /\
  count is_revise (events_of x) = 3%nat.
Proof.
  cbv zeta.
  destruct (run_call_counts _ (Scripted.agent Scripted.never_satisfied 3)
              Scripted.expense_request false "flowchart_output.html" None
              (O, O) _ eq_refl) as (H1 & [(H2 & _)|(_ & H3 & H4)]).
  - discriminate H2.
  - split; [exact H1|]. split; [exact H3|exact H4].
Defined.

(** X8.  Rendering changes nothing of the dialogue with the model: a run
    makes the same calls on the chains as the same run without rendering,
    fails as it does when a chain fails, and, where the run without
    rendering returns a result, returns a result with the same request and
    content unless its write raised. *)
Theorem rendering_apart :
  forall W (self : FlowchartAgent W) user_prompt save_html output_path
         output_path' cfg w,
    let x := run self user_prompt save_html output_path cfg w in
    let x' := run self user_prompt false output_path' cfg w in
    Trace.chain_calls (events_of x) = events_of x' /\
    (forall e, result_of x' = Raise e -> result_of x = Raise e) /\
    (forall r', result_of x' = Return r' ->
       (exists r, result_of x = Return r /\
                  FlowchartResult.prompt r = FlowchartResult.prompt r' /\
                  FlowchartResult.mermaid_code r
                  = FlowchartResult.mermaid_code r') \/
       (exists target text x0,
           In (EvWrite target text (Raise x0)) (events_of x) /\
           result_of x = Raise x0)).
Proof.
  intros W self user_prompt save_html output_path output_path' cfg w.
  cbv zeta. rewrite !run_eq.
  destruct (draft_chain _ _ _ _) as [[d|x0] w1].
  - pose proof (loop_rendering_apart self user_prompt save_html output_path
                  output_path' cfg
                  (Z.to_nat (max_iterations (config self)))
                  (normalized d) w1) as H.
    cbv zeta in H. revert H.
    destruct (run_loop self _ user_prompt save_html _ _ _ _)
      as [[r1 w2] ev1].
    destruct (run_loop self _ user_prompt false _ _ _ _) as [[r2 w3] ev2].
    cbn. intros (H1 & H2 & H3). split; [now rewrite H1|].
    split; [exact H2|]. intros r' Hr'.
    destruct (H3 r' Hr') as [Hl|(target & text & x0 & Hl & Hx)];
      [now left|right].
    exists target, text, x0. split; [now right|exact Hx].
  - cbn. split; [reflexivity|]. split; [tauto|discriminate].
Qed.

Lemma rendering_apart_witness :
  let x := run (Scripted.agent Scripted.never_satisfied 3)
               Scripted.expense_request true "flowchart_output.html"
               None (O, O) in
  Trace.chain_calls (events_of x)
  = events_of (Scripted.chain_run Scripted.never_satisfied 3
                 Scripted.expense_request)
  /\ exists r, result_of x = Return r /\
               FlowchartResult.mermaid_code r
               = "flowchart TD" ++ nl ++ "A-->E".
Proof.
  cbv zeta.
  destruct (rendering_apart _ (Scripted.agent Scripted.never_satisfied 3)
              Scripted.expense_request true "flowchart_output.html"
              "flowchart_output.html" None (O, O)) as (H1 & _ & H3).
  split; [exact H1|].
  destruct (H3 _ eq_refl) as [(r & Hr & _ & Hc)|(t & txt & x0 & Hin & Hx)].
  - exists r. split; [exact Hr|exact Hc].
  - discriminate Hx.
Defined.

Lemma write_failure_propagates_witness :
  let exc := OtherError "PermissionError" "Permission denied" in
  let x := run (Samples.write_raises Scripted.satisfied_at_once exc)
               Scripted.expense_request true "/flowchart_output.html"
               None (O, O) in
  result_of x = Raise exc.
Proof.
  cbv zeta.
  exact (proj1
           (write_failure_propagates _
              (Samples.write_raises Scripted.satisfied_at_once
                 (OtherError "PermissionError" "Permission denied"))
              Scripted.expense_request true "/flowchart_output.html" None
              (O, O) (MkPath "/flowchart_output.html")
              (render ("flowchart TD" ++ nl ++ "A-->B"))
              (OtherError "PermissionError" "Permission denied")
              (or_intror (or_intror (or_introl eq_refl))))).
Defined.

(* ------------------------------------------------------------------ *)
(** ** The command of [cli.py] *)

(** X9.  What the command prints when it prints: the heading, the opening
    fence, the content and the closing fence, and after them the line naming
    the written file exactly when rendering was not disabled.  The content
    is trimmed and begins with the keyword flowchart; with [--no-render]
    nothing was written, otherwise the last call wrote the file at the path
    made from [str(output)], and the line printed names that path as [str]
    gives it; and with [max_iterations] at least 1, as the option requires,
    at least one critique call was made before anything was printed (the
    content printed may be a last revision that no critique saw). *)
Theorem cli_run_output :
  forall W (path_str : Path -> string) T
         (client : string -> T -> Collaborators W) prompt model_name
         temperature max_iterations output no_render w lines w' ev,
    Cli.run path_str T client prompt model_name temperature max_iterations
            output no_render w
    = (Return lines, w', ev) ->
    let target := MkPath (path_str output) in
    exists code,
      lines
      = (["Mermaid code:"; "```mermaid"; code; "```"]
         ++ (if no_render then []
             else [("HTML output saved to: " ++ path_str target)%string]))%list
      /\ strip code = code
      /\ begins_caseless "flowchart" code
      /\ (if no_render then count is_write ev = 0%nat
          else exists pre doc,
                 ev = (pre ++ [EvWrite target doc (Return tt)])%list
                 /\ count is_write pre = 0%nat)
      /\ ((1 <= max_iterations)%Z -> (1 <= count is_critique ev)%nat).
Proof.
  intros W path_str T client prompt model_name temperature N output
         no_render w lines w' ev.
  unfold Cli.run, bind.
  set (agent := {| config := {| model_name := model_name;
                                max_iterations := N |};
                   collab := client model_name temperature |}).
  destruct (run agent prompt (negb no_render) (path_str output) None w)
    as [[[r|x] w1] ev1] eqn:E; [|discriminate].
  cbn. rewrite List.app_nil_r. intros [= <- <- <-].
  assert (Hr : result_of (run agent prompt (negb no_render)
                              (path_str output) None w) = Return r)
    by now rewrite E.
  assert (Hev : events_of (run agent prompt (negb no_render)
                               (path_str output) None w) = ev1)
    by now rewrite E.
  destruct (run_result agent prompt (negb no_render) (path_str output)
              None w r Hr) as (ds & d & pre & _ & _ & Hm & Hpre & Hfin).
  cbv beta zeta in Hfin. rewrite Hev in Hfin.
  exists (FlowchartResult.mermaid_code r).
  split; [|split; [|split; [|split]]].
  - destruct no_render; cbn in Hfin; destruct Hfin as [_ ->]; reflexivity.
  - rewrite Hm. apply strip_idempotent.
  - rewrite Hm. apply strip_ensure_header_begins.
  - destruct no_render; cbn in Hfin; destruct Hfin as [-> _].
    + now apply no_write_count.
    + exists pre. eexists. split; [reflexivity|now apply no_write_count].
  - intros HN.
    pose proof (run_returned_critiqued agent prompt (negb no_render)
                  (path_str output) None w r Hr HN) as Hc.
    now rewrite Hev in Hc.
Qed.

Lemma cli_run_output_witness :
  exists code pre doc,
    ["Mermaid code:"; "```mermaid"; "flowchart TD" ++ nl ++ "A-->B"; "```";
     "HTML output saved to: chart.html"]
    = (["Mermaid code:"; "```mermaid"; code; "```"]
       ++ ["HTML output saved to: chart.html"])%list
    /\ strip code = code
    /\ events_of (Cli.run Samples.str_relative unit
                    (fun _ _ => Scripted.chains Scripted.satisfied_at_once)
                    Scripted.expense_request "gpt-4o-mini" tt 3
                    (MkPath "./chart.html") false (O, O))
       = (pre ++ [EvWrite (MkPath "chart.html") doc (Return tt)])%list.
Proof.
  destruct (cli_run_output _ Samples.str_relative unit
              (fun _ _ => Scripted.chains Scripted.satisfied_at_once)
              Scripted.expense_request "gpt-4o-mini" tt 3
              (MkPath "./chart.html") false (O, O) _ _ _ eq_refl)
    as (code & H1 & H2 & _ & (pre & doc & H4 & _) & _).
  exists code, pre, doc. split; [exact H1|]. split; [exact H2|exact H4].
Defined.

(* ------------------------------------------------------------------ *)
(** ** More on the document of [renderer.py] *)

(** X10.  The document tells the content: two different contents give two
    different escaped texts and two different documents, so nothing of the
    content is lost in the file written. *)
Theorem document_determines_content :
  forall c1 c2,
    c1 <> c2 -> escape c1 <> escape c2 /\ render c1 <> render c2.
Proof.
  intros c1 c2 Hne. split; intros H; apply Hne.
  - now apply escape_injective.
  - now apply render_injective.
Qed.

Lemma document_determines_content_witness :
  render ("flowchart TD" ++ nl ++ "A-->B")
  <> render ("flowchart TD" ++ nl ++ "A--&gt;B").
Proof.
  exact (proj2 (document_determines_content
                  ("flowchart TD" ++ nl ++ "A-->B")
                  ("flowchart TD" ++ nl ++ "A--&gt;B")
                  ltac:(discriminate))).
Defined.

(** X11.  Escaping never shortens a text, and it leaves a text as it is
    exactly when the text holds none of the characters ampersand, less-than,
    greater-than, apostrophe and double quote: only such a content stands
    in the document letter for letter. *)
Theorem escape_changes_only_markup :
  forall s,
    (String.length s <= String.length (escape s))%nat /\
    (escape s = s <-> Html.plain s = true).
Proof.
  intros s. split; [apply escape_length|apply escape_plain].
Qed.

(* ------------------------------------------------------------------ *)
(** ** More on the generator of [agent_langgraph.py] *)

Section Extraction.

Lemma take_append a b n :
  take (String.length a + n) (a ++ b) = a ++ take n b.
Proof. induction a as [|c a IH]; cbn; [reflexivity|now rewrite IH]. Qed.

Lemma drop_append a b : drop (String.length a) (a ++ b) = b.
Proof. induction a as [|c a IH]; cbn; [reflexivity|exact IH]. Qed.

Lemma take_head a b : take (String.length a) (a ++ b) = a.
Proof. induction a as [|c a IH]; cbn; [reflexivity|now rewrite IH]. Qed.

Lemma append_assoc a b c : a ++ b ++ c = (a ++ b) ++ c.
Proof. induction a as [|x a IH]; cbn; [reflexivity|now rewrite IH]. Qed.

(** [s[i:j]] cuts the middle out of three texts put together. *)
Lemma slice_middle a b c :
  slice (String.length a) (String.length a + String.length b) (a ++ b ++ c)
  = b.
Proof.
  unfold slice. now rewrite take_append, take_head, drop_append.
Qed.

(** The last fence of a text that ends with a fence is that one. *)
Lemma rfind_closing_fence s :
  rfind LangGraph.fence (s ++ LangGraph.fence) = Some (String.length s).
Proof.
  induction s as [|c s IH]; [reflexivity|].
  cbn [append rfind String.length]. now rewrite IH.
Qed.

Lemma prefix_append a s : String.prefix a (a ++ s) = true.
Proof.
  induction a as [|c a IH]; cbn; [now destruct s|].
  destruct (ascii_dec c c) as [_|Hne]; [exact IH|now elim Hne].
Qed.

Lemma find_at_head sub s : String.prefix sub s = true -> find sub s = Some O.
Proof. intros H. destruct s; cbn [find]; now rewrite H. Qed.

Lemma find_opening_fence s :
  find LangGraph.fence_open (LangGraph.fence_open ++ s) = Some O.
Proof. apply find_at_head, prefix_append. Qed.

Lemma extract_code_trimmed c :
  strip (LangGraph.extract_code c) = LangGraph.extract_code c.
Proof.
  unfold LangGraph.extract_code.
  destruct (find LangGraph.fence_open c) as [a|];
    [destruct (rfind LangGraph.fence c) as [b|];
     [destruct (a <? b)%nat|]|]; apply strip_idempotent.
Qed.

End Extraction.

(** X12.  A response that is one fenced block, the opening fence with the
    [mermaid] tag, a body and the closing fence, as the generator's prompt
    asks for, gives the body trimmed, whatever the body holds (further
    fences included). *)
Theorem extract_code_fenced :
  forall body,
    LangGraph.extract_code (LangGraph.fence_open ++ body ++ LangGraph.fence)
    = strip body.
Proof.
  intros body. unfold LangGraph.extract_code.
  rewrite find_opening_fence.
  rewrite (append_assoc LangGraph.fence_open body LangGraph.fence).
  rewrite rfind_closing_fence, length_append.
  replace (0 <? String.length LangGraph.fence_open + String.length body)%nat
    with true by reflexivity.
  rewrite <- (append_assoc LangGraph.fence_open body LangGraph.fence).
  cbn [Nat.add]. now rewrite slice_middle.
Qed.

Example extract_sample_answer :
  LangGraph.extract_code Samples.fenced_answer = "graph TD" ++ nl ++ "A-->B".
Proof. reflexivity. Qed.

(* ------------------------------------------------------------------ *)
(** ** More on the graph of [agent_langgraph.py] *)

Section GraphMore.
Context {W : Type}.
Variable llm : LangGraph.Model W.

Import LangGraph.

Lemma last_item_snoc l x : Main.last_item (l ++ [x])%list = Return x.
Proof.
  destruct l as [|a l]; [reflexivity|].
  cbn. now rewrite List.last_last.
Qed.

(** What a generator step that returns does to the state. *)
Lemma generate_step_spec state w next s1 w1 ev :
  graph_step llm generate state w = (Return (next, s1), w1, ev) ->
  next = Some reflect /\
  (exists e, ev = [e] /\ is_generate e = true /\ is_reflect e = false) /\
  user_input s1 = user_input state /\
  revision_number s1 = (revision_number state + 1)%Z /\
  (exists entry,
      critique_history s1 = (critique_history state ++ [entry])%list) /\
  strip (mermaid_code s1) = mermaid_code s1 /\
  reflection_output s1 = reflection_output state.
Proof.
  cbn [graph_step]. unfold bind at 1, generate_mermaid, bind, call, ret.
  destruct (mermaid_chain llm _ _ _ w) as [[[c|]|x] w'];
    intros [= <- <- <- <-]; cbn; repeat split; eauto.
  apply extract_code_trimmed.
Qed.

Lemma generate_step_raise state w x w1 ev :
  graph_step llm generate state w = (Raise x, w1, ev) ->
  exists sp ui mc, ev = [EvGenerate sp ui mc (Raise x)].
Proof.
  cbn [graph_step]. unfold bind at 1, generate_mermaid, bind, call, ret.
  destruct (mermaid_chain llm _ _ _ w) as [[[c|]|x'] w'];
    intros [= <- <- <-]. now do 3 eexists.
Qed.

(** What a reflector step does to the state: it always returns. *)
Lemma reflect_step_spec state w :
  exists s2 w2 e r,
    graph_step llm reflect state w
    = (Return (route (should_continue s2), s2), w2, [e]) /\
    is_reflect e = true /\ is_generate e = false /\
    user_input s2 = user_input state /\
    mermaid_code s2 = mermaid_code state /\
    revision_number s2 = revision_number state /\
    critique_history s2
    = (critique_history state ++ [Reflection.critique_or_suggestion r])%list /\
    reflection_output s2 = Some r.
Proof.
  cbn [graph_step]. unfold bind at 1, reflect_on_mermaid, try_except, bind,
    call, ret.
  destruct (reflection_chain llm _ _ w) as [[r|x] w1];
    do 4 eexists; repeat split; reflexivity.
Qed.

(** Why the conditional edge leads to the end. *)
Lemma route_end_reason state r :
  route (should_continue state) = None ->
  reflection_output state = Some r ->
  Reflection.is_satisfactory r = true \/
  (MAX_REVISIONS <= revision_number state)%Z.
Proof.
  unfold should_continue. intros H Ho. rewrite Ho in H.
  destruct (Reflection.is_satisfactory r); [now left|].
  destruct (MAX_REVISIONS <=? revision_number state)%Z eqn:E;
    [right; now apply Z.leb_le|discriminate].
Qed.

(** Whatever the outcome, a run from the generator makes no more generator
    calls than there are revisions left before [MAX_REVISIONS], one at
    least, and no more reflector calls than generator calls. *)
Lemma graph_run_bounded m : forall fuel state w,
  (fuel <= m)%nat ->
  let ev := events_of (run_from llm fuel generate state w) in
  (count is_generate ev
   <= Nat.max 1 (Z.to_nat (MAX_REVISIONS - revision_number state)))%nat /\
  (count is_reflect ev <= count is_generate ev)%nat.
Proof.
  induction m as [|m IH]; intros fuel state w Hle; cbv zeta;
    set (B := Nat.max 1 (Z.to_nat (MAX_REVISIONS - revision_number state)));
    assert (HB : (1 <= B)%nat) by (subst B; lia).
  - replace fuel with O by lia. clearbody B. cbn. lia.
  - destruct fuel as [|[|fuel]]; [clearbody B; cbn; lia| |].
    + rewrite run_from_S.
      destruct (graph_step llm generate state w)
        as [[[[next s1]|x] w1] ev1] eqn:E1.
      * destruct (generate_step_spec _ _ _ _ _ _ E1)
          as (-> & (e & -> & Hg & Hr) & _).
        clearbody B. unfold count. cbn. rewrite Hg, Hr. cbn. lia.
      * destruct (generate_step_raise _ _ _ _ _ E1) as (sp & ui & mc & ->).
        clearbody B. cbn. lia.
    + rewrite run_from_S.
      destruct (graph_step llm generate state w)
        as [[[[next s1]|x] w1] ev1] eqn:E1.
      * destruct (generate_step_spec _ _ _ _ _ _ E1)
          as (-> & (e & -> & Hg & Hr) & _ & Hrev & _).
        rewrite run_from_S.
        destruct (reflect_step_spec s1 w1)
          as (s2 & w2 & e2 & r & -> & Hr2 & Hg2 & _ & _ & Hrev2 & _).
        destruct (route_should_continue s2) as [->|[-> Hlt]].
        -- clearbody B. unfold count. cbn. rewrite Hg, Hr, Hg2, Hr2. cbn. lia.
        -- specialize (IH fuel s2 w2 ltac:(lia)). cbv zeta in IH.
           set (B2 := Nat.max 1 (Z.to_nat (MAX_REVISIONS - revision_number s2)))
             in IH.
           assert (HB2 : (S B2 <= B)%nat)
             by (subst B B2; unfold MAX_REVISIONS in *; lia).
           clearbody B B2. revert IH.
           destruct (run_from llm fuel generate s2 w2) as [[r' w3] ev].
           unfold count. cbn. rewrite Hg, Hr, Hg2, Hr2. cbn. lia.
      * destruct (generate_step_raise _ _ _ _ _ E1) as (sp & ui & mc & ->).
        clearbody B. cbn. lia.
Qed.

(** The state a run from the generator returns. *)
Lemma graph_run_final m : forall fuel state w final w' ev,
  (fuel <= m)%nat ->
  run_from llm fuel generate state w = (Return final, w', ev) ->
  user_input final = user_input state /\
  revision_number final
  = (revision_number state + Z.of_nat (count is_generate ev))%Z /\
  count is_reflect ev = count is_generate ev /\
  (1 <= count is_generate ev)%nat /\
  List.length (critique_history final)
  = (List.length (critique_history state) + 2 * count is_generate ev)%nat /\
  strip (mermaid_code final) = mermaid_code final /\
  exists r,
    reflection_output final = Some r /\
    Main.last_item (critique_history final)
    = Return (Reflection.critique_or_suggestion r) /\
    (Reflection.is_satisfactory r = true \/
     (MAX_REVISIONS <= revision_number final)%Z).
Proof.
  induction m as [|m IH]; intros fuel state w final w' ev Hle.
  - replace fuel with O by lia. discriminate.
  - destruct fuel as [|[|fuel]]; [discriminate| |].
    + rewrite run_from_S.
      destruct (graph_step llm generate state w)
        as [[[[next s1]|x] w1] ev1] eqn:E1; [|discriminate].
      destruct (generate_step_spec _ _ _ _ _ _ E1) as (-> & _).
      discriminate.
    + rewrite run_from_S.
      destruct (graph_step llm generate state w)
        as [[[[next s1]|x] w1] ev1] eqn:E1; [|discriminate].
      destruct (generate_step_spec _ _ _ _ _ _ E1)
        as (-> & (e & -> & Hg & Hr) & Hu & Hrev & (entry & Hh) & Hs & _).
      rewrite run_from_S.
      destruct (reflect_step_spec s1 w1)
        as (s2 & w2 & e2 & r & -> & Hr2 & Hg2 & Hu2 & Hc2 & Hrev2 & Hh2 & Ho2).
      destruct (route_should_continue s2) as [Hroute|[Hroute Hlt]];
        rewrite Hroute.
      * intros [= <- <- <-]. unfold count. cbn. rewrite Hg, Hr, Hg2, Hr2. cbn.
        repeat split; try congruence; try lia.
        -- rewrite Hh2, Hh, !List.length_app. cbn. lia.
        -- exists r. split; [exact Ho2|]. split.
           ++ rewrite Hh2. apply last_item_snoc.
           ++ now apply route_end_reason.
      * destruct (run_from llm fuel generate s2 w2) as [[r' w3] ev2] eqn:E2.
        intros [= -> <- <-].
        destruct (IH fuel s2 w2 final w3 ev2 ltac:(lia) E2)
          as (H1 & H2 & H3 & H4 & H5 & H6 & H7).
        unfold count in *. cbn. rewrite Hg, Hr, Hg2, Hr2. cbn.
        repeat split; try congruence; try lia.
        rewrite H5, Hh2, Hh, !List.length_app. cbn. lia.
Qed.


End GraphMore.

(** X13.  The counters of the graph's state after a run that returns:
    [revision_number] has grown by the number of generator calls, the
    reflector was called as often as the generator, the history has grown by
    one entry for each of these calls, and [user_input] is the one given. *)
Theorem revision_number_counts_generations :
  forall W (llm : LangGraph.Model W) initial w final w' ev,
    LangGraph.invoke llm initial w = (Return final, w', ev) ->
    LangGraph.user_input final = LangGraph.user_input initial /\
    LangGraph.revision_number final
    = (LangGraph.revision_number initial
       + Z.of_nat (LangGraph.count LangGraph.is_generate ev))%Z /\
    LangGraph.count LangGraph.is_reflect ev
    = LangGraph.count LangGraph.is_generate ev /\
    List.length (LangGraph.critique_history final)
    = (List.length (LangGraph.critique_history initial)
       + 2 * LangGraph.count LangGraph.is_generate ev)%nat.
Proof.
  intros W llm initial w final w' ev H.
  destruct (graph_run_final llm _ _ _ _ _ _ _ (Nat.le_refl _) H)
    as (H1 & H2 & H3 & _ & H5 & _).
  repeat split; assumption.
Qed.

Lemma revision_number_counts_generations_witness :
  exists final w' ev,
    Scripted.graph_run Scripted.never_satisfied Scripted.expense_request
    = (Return final, w', ev) /\
    LangGraph.revision_number final
    = (0 + Z.of_nat (LangGraph.count LangGraph.is_generate ev))%Z.
Proof.
  do 3 eexists. split; [reflexivity|].
  exact (proj1 (proj2
           (revision_number_counts_generations _
              (Scripted.model Scripted.never_satisfied)
              (LangGraph.initial_state Scripted.expense_request) (O, O)
              _ _ _ eq_refl))).
Defined.

(** X14.  Whatever the model answers, and whether the run returns or
    raises, the graph calls the generator at most once for each revision
    left before [MAX_REVISIONS] (once at least), and the reflector no more
    often than the generator: at most three calls of each from the initial
    state. *)
Theorem graph_call_budget :
  forall W (llm : LangGraph.Model W),
    (forall initial w,
        let ev := events_of (LangGraph.invoke llm initial w) in
        (LangGraph.count LangGraph.is_generate ev
         <= Nat.max 1 (Z.to_nat (LangGraph.MAX_REVISIONS
                                 - LangGraph.revision_number initial)))%nat /\
        (LangGraph.count LangGraph.is_reflect ev
         <= LangGraph.count LangGraph.is_generate ev)%nat) /\
    (forall prompt w,
        let ev := events_of (LangGraph.invoke llm
                               (LangGraph.initial_state prompt) w) in
        (LangGraph.count LangGraph.is_generate ev <= 3)%nat /\
        (LangGraph.count LangGraph.is_reflect ev <= 3)%nat).
Proof.
  intros W llm. split.
  - intros initial w.
    exact (graph_run_bounded llm _ _ initial w (Nat.le_refl _)).
  - intros prompt w. cbv zeta.
    pose proof (graph_run_bounded llm _ _ (LangGraph.initial_state prompt) w
                  (Nat.le_refl LangGraph.recursion_limit)) as H.
    cbv zeta in H.
    change (LangGraph.run_from llm LangGraph.recursion_limit LangGraph.generate
              (LangGraph.initial_state prompt) w)
      with (LangGraph.invoke llm (LangGraph.initial_state prompt) w) in H.
    change (Nat.max 1 (Z.to_nat (LangGraph.MAX_REVISIONS
              - LangGraph.revision_number (LangGraph.initial_state prompt))))
      with 3%nat in H.
    lia.
Qed.

(** X15.  The state returned by a run from the initial state, whatever the
    model answers: between one and three revisions were generated; the code
    is trimmed; the last reflection is recorded, and either it is satisfied
    or the third revision was reached; the history is not empty and ends
    with the text of that reflection, so the two lines printed after the
    run are the number of generator calls less one and that text. *)
Theorem graph_final_state :
  forall W (llm : LangGraph.Model W) prompt w final w' ev,
    LangGraph.invoke llm (LangGraph.initial_state prompt) w
    = (Return final, w', ev) ->
    (1 <= LangGraph.revision_number final <= 3)%Z /\
    strip (LangGraph.mermaid_code final) = LangGraph.mermaid_code final /\
    exists r,
      LangGraph.reflection_output final = Some r /\
      (LangGraph.Reflection.is_satisfactory r = true \/
       LangGraph.revision_number final = 3%Z) /\
      Main.summary final
      = Return [("Total Revisions: "
                 ++ str_of_int
                      (Z.of_nat (LangGraph.count LangGraph.is_generate ev) - 1))%string;
                ("Final Critique: "
                 ++ LangGraph.Reflection.critique_or_suggestion r)%string].
Proof.
  intros W llm prompt w final w' ev H.
  destruct (graph_run_final llm _ _ _ _ _ _ _ (Nat.le_refl _) H)
    as (_ & Hrev & _ & Hge & _ & Hs & r & Ho & Hl & Hstop).
  pose proof (graph_run_bounded llm _ _ (LangGraph.initial_state prompt) w
                (Nat.le_refl LangGraph.recursion_limit)) as Hb.
  cbv zeta in Hb. unfold LangGraph.invoke in H. rewrite H in Hb.
  cbn [events_of snd] in Hb.
  change (Nat.max 1 (Z.to_nat (LangGraph.MAX_REVISIONS
            - LangGraph.revision_number (LangGraph.initial_state prompt))))
    with 3%nat in Hb.
  cbn [LangGraph.initial_state LangGraph.revision_number] in Hrev.
  split; [lia|]. split; [exact Hs|].
  exists r. split; [exact Ho|]. split.
  - destruct Hstop as [Hsat|Hmax]; [now left|right].
    unfold LangGraph.MAX_REVISIONS in Hmax. lia.
  - unfold Main.summary. rewrite Hl, Hrev. reflexivity.
Qed.

Lemma graph_final_state_witness :
  exists final w' ev r,
    Scripted.graph_run Scripted.never_satisfied Scripted.expense_request
    = (Return final, w', ev) /\
    LangGraph.reflection_output final = Some r /\
    Main.summary final
    = Return ["Total Revisions: 2"; "Final Critique: add the decision node"].
Proof.
  destruct (graph_final_state _ (Scripted.model Scripted.never_satisfied)
              Scripted.expense_request (O, O) _ _ _ eq_refl)
    as (_ & _ & r & Ho & _ & Hsum).
  do 3 eexists. exists r. split; [reflexivity|]. split; [exact Ho|].
  vm_compute. reflexivity.
Defined.



(** X17.  A failure of the reflector's chain is turned into a critique: the
    reflector's step returns, the code and the revision number stay, the
    history gets the text "ERROR: Reflection failed with exception: ...
    Forcing refinement.", the reflection recorded is unsatisfied with that
    text, and the graph goes back to the generator unless the revision
    number has reached [MAX_REVISIONS], where it ends with that text as its
    last critique. *)
Theorem reflection_failure_forces_refinement :
  forall W (llm : LangGraph.Model W) state w exc w1,
    LangGraph.reflection_chain llm (LangGraph.user_input state)
                               (LangGraph.mermaid_code state) w
    = (Raise exc, w1) ->
    let text := "ERROR: Reflection failed with exception: " ++ str_exn exc
                ++ ". Forcing refinement." in
    exists state',
      LangGraph.graph_step llm LangGraph.reflect state w
      = (Return (if (LangGraph.MAX_REVISIONS
                     <=? LangGraph.revision_number state)%Z
                 then None else Some LangGraph.generate, state'),
         w1,
         [LangGraph.EvReflect (LangGraph.user_input state)
                              (LangGraph.mermaid_code state) (Raise exc)]) /\
      LangGraph.critique_history state'
      = (LangGraph.critique_history state ++ [text])%list /\
      LangGraph.reflection_output state'
      = Some (LangGraph.Reflection.Build false text) /\
      LangGraph.mermaid_code state' = LangGraph.mermaid_code state /\
      LangGraph.revision_number state' = LangGraph.revision_number state.
Proof.
  intros W llm state w exc w1 H. cbv zeta.
  cbn [LangGraph.graph_step].
  unfold bind at 1, LangGraph.reflect_on_mermaid, try_except, bind, call, ret.
  rewrite H. cbn [fst snd app].
  eexists. split.
  - unfold LangGraph.should_continue.
    cbn [LangGraph.apply_update LangGraph.reflection_output
         LangGraph.set_reflection_output LangGraph.revision_number
         LangGraph.set_revision_number LangGraph.Reflection.is_satisfactory].
    destruct (LangGraph.MAX_REVISIONS <=? LangGraph.revision_number state)%Z;
      reflexivity.
  - repeat split.
Qed.

Lemma reflection_failure_forces_refinement_witness :
  let exc := OtherError "APITimeoutError" "Request timed out." in
  let x := LangGraph.invoke
             (Samples.reflector_raises Scripted.never_satisfied exc)
             (LangGraph.initial_state Scripted.expense_request) (O, O) in
  (exists state',
      LangGraph.graph_step
        (Samples.reflector_raises Scripted.never_satisfied exc)
        LangGraph.reflect (LangGraph.initial_state Scripted.expense_request)
        (O, O)
      = (Return (Some LangGraph.generate, state'), (O, O),
         [LangGraph.EvReflect Scripted.expense_request "" (Raise exc)])) /\
  LangGraph.count LangGraph.is_generate (events_of x) = 3%nat.
Proof.
  cbv zeta. split; [|reflexivity].
  destruct (reflection_failure_forces_refinement _
              (Samples.reflector_raises Scripted.never_satisfied
                 (OtherError "APITimeoutError" "Request timed out."))
              (LangGraph.initial_state Scripted.expense_request) (O, O)
              (OtherError "APITimeoutError" "Request timed out.") (O, O)
              eq_refl) as (state' & Hstep & _).
  exists state'. exact Hstep.
Defined.

(* ------------------------------------------------------------------ *)
(** ** The first rounds of the graph *)

Section FirstRounds.
Context {W : Type}.
Variable llm : LangGraph.Model W.
Variable prompt : string.

Import LangGraph.

(** The state after the first generation answered the text [c]. *)
Let generated (c : string) : AgentState :=
  {| user_input := prompt;
     mermaid_code := extract_code c;
     critique_history := ["Revision 1 generated."];
     revision_number := 1;
     reflection_output := None |}.

(** The state after the first reflection answered [r]. *)
Let reflected (c : string) (r : Reflection.t) : AgentState :=
  {| user_input := prompt;
     mermaid_code := extract_code c;
     critique_history :=
       ["Revision 1 generated."; Reflection.critique_or_suggestion r];
     revision_number := 1;
     reflection_output := Some r |}.

Lemma first_generate_step w c w1 :
  mermaid_chain llm first_system_prompt prompt "" w = (Return (Text c), w1) ->
  graph_step llm generate (initial_state prompt) w
  = (Return (Some reflect, generated c), w1,
     [EvGenerate first_system_prompt prompt "" (Return (Text c))]).
Proof.
  intros H. cbn [graph_step].
  unfold bind at 1, generate_mermaid, bind, call, ret.
  cbn [initial_state revision_number user_input mermaid_code critique_history
       Z.ltb Z.compare].
  now rewrite H.
Qed.

Lemma first_reflect_step c w1 r w2 :
  reflection_chain llm prompt (extract_code c) w1 = (Return r, w2) ->
  graph_step llm reflect (generated c) w1
  = (Return (route (should_continue (reflected c r)), reflected c r), w2,
     [EvReflect prompt (extract_code c) (Return r)]).
Proof.
  intros H. cbn [graph_step].
  unfold bind at 1, reflect_on_mermaid, try_except, bind, call, ret.
  cbn [generated user_input mermaid_code]. now rewrite H.
Qed.

Lemma first_round w c w1 r w2 :
  mermaid_chain llm first_system_prompt prompt "" w = (Return (Text c), w1) ->
  reflection_chain llm prompt (extract_code c) w1 = (Return r, w2) ->
  invoke llm (initial_state prompt) w
  = match route (should_continue (reflected c r)) with
    | Some n =>
        let '(res, w3, ev) :=
          run_from llm 23 n (reflected c r) w2 in
        (res, w3,
         EvGenerate first_system_prompt prompt "" (Return (Text c))
         :: EvReflect prompt (extract_code c) (Return r) :: ev)
    | None =>
        (Return (reflected c r), w2,
         [EvGenerate first_system_prompt prompt "" (Return (Text c));
          EvReflect prompt (extract_code c) (Return r)])
    end.
Proof.
  intros H1 H2. unfold invoke, recursion_limit.
  rewrite run_from_S, (first_generate_step _ _ _ H1).
  rewrite run_from_S, (first_reflect_step _ _ _ _ H2).
  destruct (route (should_continue (reflected c r))); [|reflexivity].
  now destruct (run_from llm 23 n (reflected c r) w2) as [[res w3] ev].
Qed.

End FirstRounds.

(** X18.  The shortest run of the graph.  From the initial state the
    generator is asked with the first system prompt, the request and no
    code; the reflector is asked with the request and the code extracted
    from the answer; when this first reflection is satisfied the run ends
    there, after one call of each, with revision number 1, that code, and
    the history [Revision 1 generated.] followed by the reflection's
    text. *)
Theorem graph_first_reflection_satisfied :
  forall W (llm : LangGraph.Model W) prompt w c w1 r w2,
    LangGraph.mermaid_chain llm LangGraph.first_system_prompt prompt "" w
    = (Return (LangGraph.Text c), w1) ->
    LangGraph.reflection_chain llm prompt (LangGraph.extract_code c) w1
    = (Return r, w2) ->
    LangGraph.Reflection.is_satisfactory r = true ->
    LangGraph.invoke llm (LangGraph.initial_state prompt) w
    = (Return {| LangGraph.user_input := prompt;
                 LangGraph.mermaid_code := LangGraph.extract_code c;
                 LangGraph.critique_history :=
                   ["Revision 1 generated.";
                    LangGraph.Reflection.critique_or_suggestion r];
                 LangGraph.revision_number := 1;
                 LangGraph.reflection_output := Some r |},
       w2,
       [LangGraph.EvGenerate LangGraph.first_system_prompt prompt ""
                             (Return (LangGraph.Text c));
        LangGraph.EvReflect prompt (LangGraph.extract_code c) (Return r)]).
Proof.
  intros W llm prompt w c w1 r w2 H1 H2 Hs.
  rewrite (first_round llm prompt w c w1 r w2 H1 H2).
  unfold LangGraph.should_continue.
  cbn [LangGraph.reflection_output]. now rewrite Hs.
Qed.

Lemma graph_first_reflection_satisfied_witness :
  exists final,
    Scripted.graph_run Scripted.satisfied_at_once Scripted.expense_request
    = (Return final, (1, 1)%nat,
       [LangGraph.EvGenerate LangGraph.first_system_prompt
          Scripted.expense_request "" (Return (LangGraph.Text "A-->B"));
        LangGraph.EvReflect Scripted.expense_request "A-->B"
          (Return (LangGraph.Reflection.Build true "ready"))]).
Proof.
  eexists.
  exact (graph_first_reflection_satisfied _
           (Scripted.model Scripted.satisfied_at_once)
           Scripted.expense_request (O, O) "A-->B" (1, 0)%nat
           (LangGraph.Reflection.Build true "ready") (1, 1)%nat
           eq_refl eq_refl eq_refl).
Defined.

(** X19.  The critique reaches the generator.  When the first reflection is
    not satisfied, the third call of the run is a generator call with the
    revising system prompt that ends with the history so far (the line
    [Revision 1 generated.] and the reflection's text, joined by a line
    feed), the request, and the code of the first generation. *)
Theorem graph_second_generation :
  forall W (llm : LangGraph.Model W) prompt w c w1 r w2,
    LangGraph.mermaid_chain llm LangGraph.first_system_prompt prompt "" w
    = (Return (LangGraph.Text c), w1) ->
    LangGraph.reflection_chain llm prompt (LangGraph.extract_code c) w1
    = (Return r, w2) ->
    LangGraph.Reflection.is_satisfactory r = false ->
    let system_prompt :=
      LangGraph.revise_system_prompt
        ("Revision 1 generated." ++ nl
         ++ LangGraph.Reflection.critique_or_suggestion r) in
    exists rest,
      events_of (LangGraph.invoke llm (LangGraph.initial_state prompt) w)
      = LangGraph.EvGenerate LangGraph.first_system_prompt prompt ""
                             (Return (LangGraph.Text c))
        :: LangGraph.EvReflect prompt (LangGraph.extract_code c) (Return r)
        :: LangGraph.EvGenerate system_prompt prompt (LangGraph.extract_code c)
             (fst (LangGraph.mermaid_chain llm system_prompt prompt
                     (LangGraph.extract_code c) w2))
        :: rest.
Proof.
  intros W llm prompt w c w1 r w2 H1 H2 Hs. cbv zeta.
  rewrite (first_round llm prompt w c w1 r w2 H1 H2).
  unfold LangGraph.should_continue.
  cbn [LangGraph.reflection_output LangGraph.revision_number]. rewrite Hs.
  change (LangGraph.route
            (if (LangGraph.MAX_REVISIONS <=? 1)%Z then "end" else "generate"))
    with (Some LangGraph.generate).
  cbv beta iota. change 23%nat with (S 22). rewrite run_from_S.
  cbn [LangGraph.graph_step].
  unfold bind at 1, LangGraph.generate_mermaid, bind, call, ret.
  cbn [LangGraph.revision_number LangGraph.user_input LangGraph.mermaid_code
       LangGraph.critique_history Z.ltb Z.compare join].
  destruct (LangGraph.mermaid_chain llm _ prompt (LangGraph.extract_code c) w2)
    as [[[c2|]|x] w3]; cbn [fst];
    try (destruct (LangGraph.run_from llm 22 _ _ _) as [[res w4] ev]);
    cbn [events_of snd app]; eexists; reflexivity.
Qed.

Lemma graph_second_generation_witness :
  exists sp rest,
    events_of (Scripted.graph_run Scripted.never_satisfied
                 Scripted.expense_request)
    = LangGraph.EvGenerate LangGraph.first_system_prompt
        Scripted.expense_request ""
        (Return (LangGraph.Text ("flowchart TD" ++ nl ++ "A-->B")))
      :: LangGraph.EvReflect Scripted.expense_request
           ("flowchart TD" ++ nl ++ "A-->B")
           (Return (LangGraph.Reflection.Build false "add the decision node"))
      :: LangGraph.EvGenerate sp Scripted.expense_request
           ("flowchart TD" ++ nl ++ "A-->B")
           (Return (LangGraph.Text ("flowchart TD" ++ nl ++ "A-->C")))
      :: rest.
Proof.
  destruct (graph_second_generation _
              (Scripted.model Scripted.never_satisfied)
              Scripted.expense_request (O, O)
              ("flowchart TD" ++ nl ++ "A-->B") (1, 0)%nat
              (LangGraph.Reflection.Build false "add the decision node")
              (1, 1)%nat eq_refl eq_refl eq_refl) as (rest & H).
  eexists. exists rest. exact H.
Defined.
